(** * Granule and file migration (lambdas/data-migration2/src/granulesAndFiles.ts)

    A shallow embedding of the DynamoDB -> PostgreSQL granule migration:
    the per-record migrator [migrateGranuleRecord], the file migrator
    [migrateFileRecord], the transactional wrapper
    [migrateGranuleAndFilesViaTransaction], the two drivers
    [queryAndMigrateGranuleDynamoRecords] / [migrateGranuleDynamoRecords]
    and the entry point [migrateGranulesAndFiles].

    Asynchronous code is written in a state-and-exception monad over the
    destination store; a rejected promise is an [inl error].  JavaScript
    numbers that count records or carry epoch milliseconds are integers
    ([Z]); [undefined] is [None].  Work that runs concurrently ([pMap],
    the segments of a parallel scan) is a sequence of atomic steps whose
    order is given by the event loop. *)

From Stdlib Require Import ZArith List Lia.
From stdpp Require Import base option list gmap strings.
Import ListNotations.

Open Scope string_scope.
Open Scope Z_scope.

(** ** Errors (@cumulus/errors) *)

(** The three error classes the module imports, and every other
    JavaScript error ([Error], database driver errors, ...). *)
Inductive error : Type :=
| RecordAlreadyMigrated (message : string)
| RecordDoesNotExist (message : string)
| PostgresUpdateFailed (message : string)
| OtherError (name message : string).

(** [error instanceof RecordAlreadyMigrated] *)
Definition instanceof_RecordAlreadyMigrated (e : error) : bool :=
  match e with RecordAlreadyMigrated _ => true | _ => false end.

(** [error instanceof RecordDoesNotExist] *)
Definition instanceof_RecordDoesNotExist (e : error) : bool :=
  match e with RecordDoesNotExist _ => true | _ => false end.

(** ** Source and destination records *)

(** [ApiFile] (@cumulus/types/api/files): every attribute is optional. *)
Record ApiFile : Type := {
  bucket : option string;
  key : option string;
  size : option Z;
  checksum : option string;
  checksumType : option string;
  fileName : option string;
  source : option string;
  path : option string;
}.

(** The attributes of a DynamoDB granule record that the migration reads.
    [updatedAt] is epoch milliseconds; [files] may be absent. *)
Record DynamoRecord : Type := {
  granuleId : string;
  collectionId : string;
  updatedAt : Z;
  execution : option string;
  files : option (list ApiFile);
}.

(** A JavaScript [Date]: its time value in milliseconds since the epoch,
    or Invalid Date, whose time value is NaN. *)
Inductive Date : Type :=
| TimeValue (ms : Z)
| InvalidDate.

(** [new Date(ms)] for a number [ms]: a time value more than 8.64e15
    milliseconds from the epoch is clipped to NaN. *)
Definition new_Date (ms : Z) : Date :=
  if Z.abs ms <=? 8640000000000000 then TimeValue ms else InvalidDate.

(** [a >= b] on two Dates: both are converted to their time values, and
    a comparison with NaN is false. *)
Definition Date_ge (a b : Date) : bool :=
  match a, b with
  | TimeValue x, TimeValue y => y <=? x
  | _, _ => false
  end.

(** [PostgresGranule]: the row shape given to the upsert. *)
Record PostgresGranule : Type := {
  granule_id : string;
  collection_cumulus_id : Z;
  updated_at : Date;
}.

(** [PostgresGranuleRecord]: a stored row, with its generated identifier. *)
Record PostgresGranuleRecord : Type := {
  rec_cumulus_id : Z;
  rec_granule_id : string;
  rec_collection_cumulus_id : Z;
  rec_updated_at : Date;
}.

(** [PostgresFile] as built by [migrateFileRecord]. *)
Record PostgresFile : Type := {
  pf_bucket : string;
  pf_key : string;
  granule_cumulus_id : Z;
  file_size : option Z;
  checksum_value : option string;
  checksum_type : option string;
  file_name : option string;
  pf_source : option string;
  pf_path : option string;
}.

(** ** Promises over a transaction handle *)

(** An asynchronous computation against the destination: it may change the
    store, and either resolves to a value or rejects with an error. *)
Definition Trx (store A : Type) : Type := store -> store * (error + A).

Definition ret {store A} (a : A) : Trx store A := fun s => (s, inr a).

Definition throw {store A} (e : error) : Trx store A := fun s => (s, inl e).

Definition bind {store A B} (m : Trx store A) (k : A -> Trx store B) : Trx store B :=
  fun s => match m s with
           | (s', inr a) => k a s'
           | (s', inl e) => (s', inl e)
           end.

(** [try { m } catch (error) { h error }] *)
Definition try_catch {store A} (m : Trx store A) (h : error -> Trx store A) : Trx store A :=
  fun s => match m s with
           | (s', inl e) => h e s'
           | r => r
           end.

(** A point lookup: it cannot change the store. *)
Definition lookup_query {store A} (q : store -> error + A) : Trx store A :=
  fun s => (s, q s).

Notation "x <- m ;; k" := (bind m (fun x => k))
  (at level 100, m at next level, right associativity).

(** [Promise.all(xs.map(f))] on one connection: the queries are issued in
    list order and the first rejection rejects the whole. *)
Fixpoint Promise_all_map {store A B} (f : A -> Trx store B) (xs : list A)
  : Trx store (list B) :=
  match xs with
  | [] => ret []
  | x :: rest =>
      b <- f x ;;
      bs <- Promise_all_map f rest ;;
      ret (b :: bs)
  end.

(** ** The collaborators from @cumulus/db and @cumulus/api

    The models and helpers the module imports; their code lives in other
    packages, so the migration is parameterised by them. *)
Record PgModels (store : Type) : Type := {
  (** [deconstructCollectionId(collectionId)] gives [{ name, version }] *)
  deconstructCollectionId : string -> string * string;
  (** [new CollectionPgModel().getRecordCumulusId(trx, { name, version })] *)
  CollectionPgModel_getRecordCumulusId : string * string -> store -> error + Z;
  (** [new ExecutionPgModel().getRecordCumulusId(trx, { url })] *)
  ExecutionPgModel_getRecordCumulusId : option string -> store -> error + Z;
  (** [new GranulePgModel().get(trx, { granule_id, collection_cumulus_id })] *)
  GranulePgModel_get : string -> Z -> store -> error + PostgresGranuleRecord;
  (** [translateApiGranuleToPostgresGranule(record, trx)] *)
  translateApiGranuleToPostgresGranule : DynamoRecord -> store -> error + PostgresGranule;
  (** [upsertGranuleWithExecutionJoinRecord(trx, granule, executionCumulusId)]:
      the returned array of generated identifiers *)
  upsertGranuleWithExecutionJoinRecord :
    PostgresGranule -> option Z -> Trx store (list Z);
  (** [getBucket(file)], [getKey(file)] *)
  getBucket : ApiFile -> string;
  getKey : ApiFile -> string;
  (** [new FilePgModel().upsert(trx, updatedRecord)] *)
  FilePgModel_upsert : PostgresFile -> Trx store unit;
}.

Arguments deconstructCollectionId {store} _ _.
Arguments CollectionPgModel_getRecordCumulusId {store} _ _ _.
Arguments ExecutionPgModel_getRecordCumulusId {store} _ _ _.
Arguments GranulePgModel_get {store} _ _ _ _.
Arguments translateApiGranuleToPostgresGranule {store} _ _ _.
Arguments upsertGranuleWithExecutionJoinRecord {store} _ _ _.
Arguments getBucket {store} _ _.
Arguments getKey {store} _ _.
Arguments FilePgModel_upsert {store} _ _.

(** ** The per-record migrators *)

Section Migrators.
Context {store : Type} (pg : PgModels store).

(** [existingRecord && existingRecord.updated_at >= new Date(record.updatedAt)] *)
Definition isExistingRecordNewer
    (existingRecord : option PostgresGranuleRecord) (record : DynamoRecord) : bool :=
  match existingRecord with
  | Some existing => Date_ge (rec_updated_at existing) (new_Date (updatedAt record))
  | None => false
  end.

(** Lines 82-94: the execution lookup; only "does not exist" is absorbed,
    leaving [executionCumulusId] undefined. *)
Definition lookupExecution (record : DynamoRecord) : Trx store (option Z) :=
  try_catch
    (id <- lookup_query (ExecutionPgModel_getRecordCumulusId pg (execution record)) ;;
     ret (Some id))
    (fun error =>
       if negb (instanceof_RecordDoesNotExist error) then throw error
       else ret None).

(** Lines 96-107: the existing destination row, if any. *)
Definition lookupExisting (record : DynamoRecord) (collectionCumulusId : Z)
  : Trx store (option PostgresGranuleRecord) :=
  try_catch
    (r <- lookup_query (GranulePgModel_get pg (granuleId record) collectionCumulusId) ;;
     ret (Some r))
    (fun error =>
       if negb (instanceof_RecordDoesNotExist error) then throw error
       else ret None).

Definition alreadyMigratedMessage (record : DynamoRecord) : string :=
  "Granule " +:+ granuleId record +:+ " was already migrated, skipping".

Definition updateFailedMessage (record : DynamoRecord) : string :=
  "Upsert for granule " +:+ granuleId record +:+
  " returned no rows. Record was not updated in the Postgres table.".

(** Lines 116-128: translate, upsert, and insist on a generated
    identifier ([!cumulusId] holds for [undefined] and for [0]). *)
Definition translateAndUpsert (record : DynamoRecord) (executionCumulusId : option Z)
  : Trx store Z :=
  granule <- lookup_query (translateApiGranuleToPostgresGranule pg record) ;;
  ids <- upsertGranuleWithExecutionJoinRecord pg granule executionCumulusId ;;
  match ids with
  | cumulusId :: _ =>
      if cumulusId =? 0 then throw (PostgresUpdateFailed (updateFailedMessage record))
      else ret cumulusId
  | [] => throw (PostgresUpdateFailed (updateFailedMessage record))
  end.

(** [migrateGranuleRecord(record, trx)] (lines 65-129). *)
Definition migrateGranuleRecord (record : DynamoRecord) : Trx store Z :=
  let '(name, version) := deconstructCollectionId pg (collectionId record) in
  collectionCumulusId <-
    lookup_query (CollectionPgModel_getRecordCumulusId pg (name, version)) ;;
  executionCumulusId <- lookupExecution record ;;
  existingRecord <- lookupExisting record collectionCumulusId ;;
  if isExistingRecordNewer existingRecord record then
    throw (RecordAlreadyMigrated (alreadyMigratedMessage record))
  else
    translateAndUpsert record executionCumulusId.

(** [migrateFileRecord(file, granuleCumulusId, trx)] (lines 140-163). *)
Definition migrateFileRecord (file : ApiFile) (granuleCumulusId : Z) : Trx store unit :=
  let bucket' := getBucket pg file in
  let key' := getKey pg file in
  let updatedRecord := {|
    pf_bucket := bucket';
    pf_key := key';
    granule_cumulus_id := granuleCumulusId;
    file_size := size file;
    checksum_value := checksum file;
    checksum_type := checksumType file;
    file_name := fileName file;
    pf_source := source file;
    pf_path := path file;
  |} in
  FilePgModel_upsert pg updatedRecord.

End Migrators.

(** ** Migration results (@cumulus/types/migration) *)

(** [filters] of a granules result: which targeted query was used. *)
Record GranuleFilters : Type := {
  filter_granuleId : option string;
  filter_collectionId : option string;
}.

Record MigrationResult : Type := {
  total_dynamo_db_records : Z;
  migrated : Z;
  failed : Z;
  skipped : Z;
  filters : option GranuleFilters;
}.

Record GranulesAndFilesMigrationResult : Type := {
  granulesResult : MigrationResult;
  filesResult : MigrationResult;
}.

(** Modelled from the spec: [initialMigrationResult] of ./common, the
    "monotonically-accumulated counters" before anything was counted, with
    no filter recorded. *)
Definition initialMigrationResult : MigrationResult := {|
  total_dynamo_db_records := 0;
  migrated := 0;
  failed := 0;
  skipped := 0;
  filters := None;
|}.

(** Lines 44-51: two independent deep copies of the initial result. *)
Definition initializeGranulesAndFilesMigrationResult : GranulesAndFilesMigrationResult := {|
  granulesResult := initialMigrationResult;
  filesResult := initialMigrationResult;
|}.

(** The in-place updates [result.field += n] and [result.filters = f]. *)
Definition add_total (n : Z) (r : MigrationResult) : MigrationResult :=
  {| total_dynamo_db_records := total_dynamo_db_records r + n;
     migrated := migrated r; failed := failed r; skipped := skipped r;
     filters := filters r |}.

Definition add_migrated (n : Z) (r : MigrationResult) : MigrationResult :=
  {| total_dynamo_db_records := total_dynamo_db_records r;
     migrated := migrated r + n; failed := failed r; skipped := skipped r;
     filters := filters r |}.

Definition add_skipped (n : Z) (r : MigrationResult) : MigrationResult :=
  {| total_dynamo_db_records := total_dynamo_db_records r;
     migrated := migrated r; failed := failed r; skipped := skipped r + n;
     filters := filters r |}.

Definition add_failed (n : Z) (r : MigrationResult) : MigrationResult :=
  {| total_dynamo_db_records := total_dynamo_db_records r;
     migrated := migrated r; failed := failed r + n; skipped := skipped r;
     filters := filters r |}.

Definition set_filters (f : GranuleFilters) (r : MigrationResult) : MigrationResult :=
  {| total_dynamo_db_records := total_dynamo_db_records r;
     migrated := migrated r; failed := failed r; skipped := skipped r;
     filters := Some f |}.

(** ** The world around one migration run *)

(** Parameters of a DynamoDB [query] and of a parallel [scan]. *)
Record QueryParams : Type := {
  TableName : string;
  IndexName : option string;
  KeyConditionExpression : option string;
  ExpressionAttributeValues : list (string * string);
}.

Record ScanParams : Type := {
  scan_TableName : string;
  Limit : option Z;
}.

(** The operations issued against the source table. *)
Inductive SourceOp : Type :=
| DynamoQuery (params : QueryParams)
| DynamoParallelScan (totalSegments : Z) (scanParams : ScanParams).

(** The destination database, the lines written to the error write stream,
    and the source operations issued so far. *)
Record World (store : Type) : Type := {
  db : store;
  errorLog : list string;
  sourceOps : list SourceOp;
}.

Arguments db {store} _.
Arguments errorLog {store} _.
Arguments sourceOps {store} _.

(** The world after the database became [s]. *)
Definition set_db {store} (s : store) (w : World store) : World store :=
  {| db := s; errorLog := errorLog w; sourceOps := sourceOps w |}.

(** [errorLogWriteStream.write(line)] *)
Definition stream_write {store} (line : string) : Trx (World store) unit :=
  fun w => ({| db := db w; errorLog := errorLog w ++ [line]; sourceOps := sourceOps w |},
            inr tt).

(** The source operation [op] is issued: it is appended to the trace. *)
Definition issue {store} (op : SourceOp) : Trx (World store) unit :=
  fun w => ({| db := db w; errorLog := errorLog w; sourceOps := sourceOps w ++ [op] |},
            inr tt).

(** [knex.transaction(async (trx) => body)]: the body runs against the
    database; when it resolves the transaction commits, when it rejects the
    transaction is rolled back and the rejection is passed on. *)
Definition knex_transaction {store A} (body : Trx store A) : Trx (World store) A :=
  fun w => match body (db w) with
           | (s', inr a) => (set_db s' w, inr a)
           | (_, inl e) => (w, inl e)
           end.

(** [`${error}`]: [Error.prototype.toString]. *)
Definition error_name (e : error) : string :=
  match e with
  | RecordAlreadyMigrated _ => "RecordAlreadyMigrated"
  | RecordDoesNotExist _ => "RecordDoesNotExist"
  | PostgresUpdateFailed _ => "PostgresUpdateFailed"
  | OtherError name _ => name
  end.

Definition error_message (e : error) : string :=
  match e with
  | RecordAlreadyMigrated m | RecordDoesNotExist m | PostgresUpdateFailed m => m
  | OtherError _ m => m
  end.

Definition error_toString (e : error) : string :=
  if String.eqb (error_name e) "" then error_message e
  else if String.eqb (error_message e) "" then error_name e
  else error_name e +:+ ": " +:+ error_message e.

(** [GranuleMigrationParams] *)
Record GranuleMigrationParams : Type := {
  param_granuleId : option string;
  param_collectionId : option string;
  param_loggingInterval : option Z;
  param_writeConcurrency : option Z;
  param_parallelScanSegments : option Z;
  param_parallelScanLimit : option Z;
}.

(** A [DynamoDbSearchQueue(params, 'query')], by what its reads deliver:
    the records, in order, and how the read after the last of them ends.
    Either the queue is exhausted and [peek] resolves to nothing
    ([queue_rejection = None]), or the read is refused or fails and
    [peek] (or the [shift] before it) rejects with that error. *)
Record SearchQueue : Type := {
  queue_items : list DynamoRecord;
  queue_rejection : option error;
}.

(** Modelled from the spec: one of the "N independent ... cursors" of
    the parallel scan, "each yielding bounded-size pages of raw records".
    The segment delivers its pages in order; the read after the last of
    them finds the segment exhausted, or it is the "page read failure"
    that "is fatal to that segment". *)
Record SegmentScan : Type := {
  segment_pages : list (list DynamoRecord);
  segment_rejection : option error;
}.

(** The collaborators outside the database: the DynamoDB client, p-map,
    the JSON serialiser, the environment reader and the error-file
    helpers of ./storeErrors. *)
Record Runtime : Type := {
  (** [JSON.stringify(dynamoRecord.files)], as it prints in a template *)
  JSON_stringify : option (list ApiFile) -> string;
  (** what a [DynamoDbSearchQueue(params, 'query')] delivers *)
  dynamoQuery : QueryParams -> SearchQueue;
  (** what the segment [Segment] of a scan with [TotalSegments] and
      [scanParams] delivers *)
  dynamoScan : Z -> ScanParams -> Z -> SegmentScan;
  (** the error with which [parallelScan] rejects, given the errors of
      the segments that failed *)
  scanRejection : list error -> error;
  (** the TypeError with which [pMap] rejects a [concurrency] below 1 *)
  pMap_TypeError : Z -> error;
  (** [envUtils.getRequiredEnvVar(name, env)] *)
  getRequiredEnvVar : string -> gmap string string -> error + string;
  (** [createErrorFileWriteStream(migrationName, timestamp).filepath] *)
  errorFilepath : string -> option string -> string;
  (** [closeErrorWriteStreams({ errorFileWriteStream, jsonWriteStream })]
      given the lines written to the stream *)
  closeStreams : list string -> error + unit;
  (** [storeErrors({ bucket, filepath, migrationName, stackName, timestamp })]
      given the lines of the closed file *)
  storeErrors : string -> string -> string -> string -> option string ->
                list string -> error + unit;
}.

(** The order in which the event loop takes up concurrent work.  For the
    [pMap] over page [page] of segment [segment], [settleOrder segment
    page] says which of the transactions in flight settles next, one
    number per settlement; [segmentOrder] says which segment of a scan
    takes its next step.  A number is read modulo the number of
    candidates; when a list runs out, the oldest candidate goes first. *)
Record EventLoop : Type := {
  settleOrder : nat -> nat -> list nat;
  segmentOrder : list nat;
}.

(** JavaScript truthiness of an optional string. *)
Definition truthy (o : option string) : bool :=
  match o with
  | Some s => negb (String.eqb s "")
  | None => false
  end.

(** The value a truthy optional string holds. *)
Definition truthy_value (o : option string) : option string :=
  if truthy o then o else None.

(** A synchronous call that may throw. *)
Definition liftE {S A} (x : error + A) : Trx S A := fun s => (s, x).

(** [x !== undefined] *)
Definition is_defined {A} (o : option A) : bool :=
  match o with Some _ => true | None => false end.

(** ** The pipeline *)

Section Pipeline.
Context {store : Type} (pg : PgModels store) (rt : Runtime).

(** The body handed to [knex.transaction] (lines 202-207). *)
Definition granuleAndFilesTransaction
    (dynamoRecord : DynamoRecord) (files' : list ApiFile) : Trx store (list unit) :=
  granuleCumulusId <- migrateGranuleRecord pg dynamoRecord ;;
  Promise_all_map (fun file => migrateFileRecord pg file granuleCumulusId) files'.

(** The line written for a failed record (lines 215 and 219). *)
Definition errorLine (dynamoRecord : DynamoRecord) (e : error) : string :=
  let errorMessage :=
    "Could not create granule record and file records in RDS for DynamoDB Granule granuleId: "
    +:+ granuleId dynamoRecord +:+ " with files "
    +:+ JSON_stringify rt (files dynamoRecord) in
  errorMessage +:+ ", Cause: " +:+ error_toString e.

(** [migrateGranuleAndFilesViaTransaction(params)] (lines 175-225).
    [knex] and [errorLogWriteStream] are the [db] and [errorLog] of the
    world.  The calls [logger.info] (line 198) and [logger.error]
    (line 220) leave no trace in the world and are left out, so
    [loggingInterval] only keeps its place in the signature. *)
Definition migrateGranuleAndFilesViaTransaction
    (dynamoRecord : DynamoRecord)
    (granuleAndFilesMigrationResult : option GranulesAndFilesMigrationResult)
    (loggingInterval : Z)
  : Trx (World store) GranulesAndFilesMigrationResult :=
  let files' := default [] (files dynamoRecord) in
  let migrationResult :=
    default initializeGranulesAndFilesMigrationResult granuleAndFilesMigrationResult in
  let granulesResult' := add_total 1 (granulesResult migrationResult) in
  let filesResult' := add_total (Z.of_nat (length files')) (filesResult migrationResult) in
  try_catch
    (_ <- knex_transaction (granuleAndFilesTransaction dynamoRecord files') ;;
     ret {| granulesResult := add_migrated 1 granulesResult';
            filesResult := add_migrated (Z.of_nat (length files')) filesResult' |})
    (fun error =>
       if instanceof_RecordAlreadyMigrated error then
         ret {| granulesResult := add_skipped 1 granulesResult';
                filesResult := add_skipped (Z.of_nat (length files')) filesResult' |}
       else
         _ <- stream_write (errorLine dynamoRecord error) ;;
         ret {| granulesResult := add_failed 1 granulesResult';
                filesResult := add_failed (Z.of_nat (length files')) filesResult' |}).

(** *** Concurrent records

    [pMap] starts several records before the first one settles.  Between
    two [await]s a JavaScript function runs undisturbed, so one record's
    migration is two atomic steps on the shared result object: counting
    the record as seen, and (once its transaction has settled) counting
    its outcome. *)

(** Lines 189-199 of [migrateGranuleAndFilesViaTransaction]. *)
Definition beginRecord
    (dynamoRecord : DynamoRecord) (migrationResult : GranulesAndFilesMigrationResult)
  : GranulesAndFilesMigrationResult :=
  let files' := default [] (files dynamoRecord) in
  {| granulesResult := add_total 1 (granulesResult migrationResult);
     filesResult := add_total (Z.of_nat (length files')) (filesResult migrationResult) |}.

(** Lines 201-224 of [migrateGranuleAndFilesViaTransaction]. *)
Definition settleRecord
    (dynamoRecord : DynamoRecord) (migrationResult : GranulesAndFilesMigrationResult)
  : Trx (World store) GranulesAndFilesMigrationResult :=
  let files' := default [] (files dynamoRecord) in
  try_catch
    (_ <- knex_transaction (granuleAndFilesTransaction dynamoRecord files') ;;
     ret {| granulesResult := add_migrated 1 (granulesResult migrationResult);
            filesResult := add_migrated (Z.of_nat (length files'))
                                        (filesResult migrationResult) |})
    (fun error =>
       if instanceof_RecordAlreadyMigrated error then
         ret {| granulesResult := add_skipped 1 (granulesResult migrationResult);
                filesResult := add_skipped (Z.of_nat (length files'))
                                           (filesResult migrationResult) |}
       else
         _ <- stream_write (errorLine dynamoRecord error) ;;
         ret {| granulesResult := add_failed 1 (granulesResult migrationResult);
                filesResult := add_failed (Z.of_nat (length files'))
                                          (filesResult migrationResult) |}).

Inductive Step : Type :=
| Started (dynamoRecord : DynamoRecord)
| Settled (dynamoRecord : DynamoRecord).

(** The steps of concurrent records, in the order the event loop ran
    them, on the shared result object. *)
Fixpoint runSchedule
    (schedule : list Step) (migrationResult : GranulesAndFilesMigrationResult)
  : Trx (World store) GranulesAndFilesMigrationResult :=
  match schedule with
  | [] => ret migrationResult
  | Started dynamoRecord :: rest =>
      runSchedule rest (beginRecord dynamoRecord migrationResult)
  | Settled dynamoRecord :: rest =>
      migrationResult' <- settleRecord dynamoRecord migrationResult ;;
      runSchedule rest migrationResult'
  end.

(** A promise in flight, as the event loop sees it: it was rejected
    before it took a step, or it takes the listed steps and resolves. *)
Definition InFlight : Type := error + list Step.

(** [await promise], with nothing else in flight. *)
Definition await (promise : InFlight) (migrationResult : GranulesAndFilesMigrationResult)
  : Trx (World store) GranulesAndFilesMigrationResult :=
  match promise with
  | inl e => throw e
  | inr schedule => runSchedule schedule migrationResult
  end.

(** The candidate at position [k] modulo the number of candidates, and
    the others in their order. *)
Definition extract {A : Type} (k : nat) (candidates : list A) : option (A * list A) :=
  let i := (k mod length candidates)%nat in
  match candidates !! i with
  | Some x => Some (x, delete i candidates)
  | None => None
  end.

(** [pMap] once its first mappers are started: [running] are the records
    whose transaction is in flight, oldest first, [pending] the items not
    yet started.  [n] settlements remain.  When a mapper settles, the
    next pending item is started in its place. *)
Fixpoint pool (n : nat) (settles : list nat) (running pending : list DynamoRecord)
  : list Step :=
  match n with
  | O => []
  | S n' =>
      match extract (hd O settles) running with
      | None => []
      | Some (settled, running') =>
          Settled settled ::
          match pending with
          | [] => pool n' (tl settles) running' []
          | next :: pending' =>
              Started next :: pool n' (tl settles) (running' ++ [next])%list pending'
          end
      end
  end.

(** [pMap(items, mapper, { concurrency })] with the mapper of lines
    238-248.  A concurrency below 1 is refused.  Otherwise the first
    [concurrency] items are started at once and never more than
    [concurrency] are in flight. *)
Definition pMap (concurrency : Z) (items : list DynamoRecord) (settles : list nat)
  : InFlight :=
  if concurrency <? 1 then inl (pMap_TypeError rt concurrency)
  else
    let width := Z.to_nat concurrency in
    inr (map Started (take width items)
         ++ pool (length items) settles (take width items) (drop width items))%list.

(** [migrateGranuleDynamoRecords] (lines 227-253): [pMap] over the items
    of one page with concurrency [writeConcurrency].  [migrationResult],
    [knex] and [errorLogWriteStream] are shared with every other record
    in flight: they are the result object and the world the steps run
    on.  The assignments of lines 246-247 store the shared object's own
    fields back into it. *)
Definition migrateGranuleDynamoRecords
    (items : list DynamoRecord) (loggingInterval writeConcurrency : Z)
    (settles : list nat) : InFlight :=
  pMap writeConcurrency items settles.

(** The iterations of the [while (dynamoRecord)] loop of lines 330-346,
    one for each record the queue delivers. *)
Fixpoint migrateSearchQueue
    (searchQueue : list DynamoRecord) (migrationResult : GranulesAndFilesMigrationResult)
    (loggingInterval : Z)
  : Trx (World store) GranulesAndFilesMigrationResult :=
  match searchQueue with
  | [] => ret migrationResult
  | dynamoRecord :: shifted =>
      result <- migrateGranuleAndFilesViaTransaction
                  dynamoRecord (Some migrationResult) loggingInterval ;;
      let migrationResult' := {| granulesResult := granulesResult result;
                                 filesResult := filesResult result |} in
      migrateSearchQueue shifted migrationResult' loggingInterval
  end.

(** Lines 298-320: the filter recorded and the query parameters built. *)
Definition selectQuery
    (granulesTable : string) (granuleMigrationParams : GranuleMigrationParams)
    (migrationResult : GranulesAndFilesMigrationResult)
  : GranulesAndFilesMigrationResult * QueryParams :=
  match truthy_value (param_granuleId granuleMigrationParams) with
  | Some g =>
      ({| granulesResult :=
            set_filters {| filter_granuleId := Some g; filter_collectionId := None |}
                        (granulesResult migrationResult);
          filesResult := filesResult migrationResult |},
       {| TableName := granulesTable;
          IndexName := None;
          KeyConditionExpression := Some "granuleId = :granuleId";
          ExpressionAttributeValues := [(":granuleId", g)] |})
  | None =>
      match truthy_value (param_collectionId granuleMigrationParams) with
      | Some c =>
          ({| granulesResult :=
                set_filters {| filter_granuleId := None; filter_collectionId := Some c |}
                            (granulesResult migrationResult);
              filesResult := filesResult migrationResult |},
           {| TableName := granulesTable;
              IndexName := Some "collectionId-granuleId-index";
              KeyConditionExpression := Some "collectionId = :collectionId";
              ExpressionAttributeValues := [(":collectionId", c)] |})
      | None =>
          (migrationResult,
           {| TableName := granulesTable;
              IndexName := None;
              KeyConditionExpression := None;
              ExpressionAttributeValues := [] |})
      end
  end.

(** [queryAndMigrateGranuleDynamoRecords(params)] (lines 280-350).  The
    loop ends with the [peek] that finds the queue exhausted, or with the
    read that rejects. *)
Definition queryAndMigrateGranuleDynamoRecords
    (granulesTable : string) (granuleMigrationParams : GranuleMigrationParams)
    (granulesAndFilesMigrationResult : option GranulesAndFilesMigrationResult)
    (loggingInterval : Z)
  : Trx (World store) GranulesAndFilesMigrationResult :=
  let migrationResult :=
    default initializeGranulesAndFilesMigrationResult granulesAndFilesMigrationResult in
  let '(migrationResult', queryParams) :=
    selectQuery granulesTable granuleMigrationParams migrationResult in
  _ <- issue (DynamoQuery queryParams) ;;
  let searchQueue := dynamoQuery rt queryParams in
  migrationResult'' <-
    migrateSearchQueue (queue_items searchQueue) migrationResult' loggingInterval ;;
  match queue_rejection searchQueue with
  | Some e => throw e
  | None => ret migrationResult''
  end.

(** Modelled from the spec: one segment of [parallelScan] of
    @cumulus/aws-client/DynamoDb.  It hands "every page to a
    batch-processing callback" and "processes and commits its current
    page's migrations before requesting the next page"; a rejected
    callback or a failed page read ends the segment.  The result is the
    steps the segment takes and the error it ended with, if any. *)
Fixpoint scanSegment
    (processItemsFunc : nat -> list DynamoRecord -> InFlight)
    (page : nat) (pages : list (list DynamoRecord)) (rejection : option error)
  : list Step * option error :=
  match pages with
  | [] => ([], rejection)
  | items :: rest =>
      match processItemsFunc page items with
      | inl e => ([], Some e)
      | inr schedule =>
          let '(more, ending) := scanSegment processItemsFunc (S page) rest rejection in
          ((schedule ++ more)%list, ending)
      end
  end.

(** Modelled from the spec: the segments are "concurrently-advancing"
    and "make no cross-segment ordering guarantee"; [order] says which
    segment takes its next step. *)
Fixpoint interleave (order : list nat) (segments : list (list Step)) : list Step :=
  match order with
  | [] => concat segments
  | k :: order' =>
      let i := (k mod length segments)%nat in
      match segments !! i with
      | Some (step :: rest) => step :: interleave order' (<[i := rest]> segments)
      | _ => interleave order' segments
      end
  end.

(** The segments 0 .. N-1 of a scan. *)
Definition scanSegments (totalSegments : Z) (scanParams : ScanParams) : list SegmentScan :=
  map (fun segment => dynamoScan rt totalSegments scanParams (Z.of_nat segment))
      (seq 0 (Z.to_nat totalSegments)).

(** Modelled from the spec: [parallelScan({ totalSegments, scanParams,
    processItemsFunc })], the "full parallel scan across N segments".
    The scan is issued and its segments run concurrently.  A failure "is
    fatal to that segment (propagated), other segments continue": the
    scan lets "record migrations in flight ... complete before surfacing
    the error upward". *)
Definition parallelScan
    (totalSegments : Z) (scanParams : ScanParams)
    (processItemsFunc : nat -> nat -> list DynamoRecord -> InFlight)
    (order : list nat) (acc : GranulesAndFilesMigrationResult)
  : Trx (World store) GranulesAndFilesMigrationResult :=
  _ <- issue (DynamoParallelScan totalSegments scanParams) ;;
  let segments :=
    imap (fun segment scan =>
            scanSegment (processItemsFunc segment) 0
                        (segment_pages scan) (segment_rejection scan))
         (scanSegments totalSegments scanParams) in
  acc' <- runSchedule (interleave order (map fst segments)) acc ;;
  match omap snd segments with
  | [] => ret acc'
  | rejections => throw (scanRejection rt rejections)
  end.

(** Modelled from the spec: [createErrorFileWriteStream] of ./storeErrors
    opens a fresh "write stream" and names its file. *)
Definition createErrorFileWriteStream
    (migrationName : string) (timestamp : option string) : Trx (World store) string :=
  fun w => ({| db := db w; errorLog := []; sourceOps := sourceOps w |},
            inr (errorFilepath rt migrationName timestamp)).

(** Modelled from the spec: [closeErrorWriteStreams] of ./storeErrors; the
    "write stream ... is later closed", which leaves the lines written to
    it as they are; a stream that cannot be closed rejects. *)
Definition closeErrorWriteStreams : Trx (World store) unit :=
  fun w => (w, closeStreams rt (errorLog w)).

Definition emptyParams : GranuleMigrationParams := {|
  param_granuleId := None;
  param_collectionId := None;
  param_loggingInterval := None;
  param_writeConcurrency := None;
  param_parallelScanSegments := None;
  param_parallelScanLimit := None;
|}.

(** [migrateGranulesAndFiles(env, knex, granuleMigrationParams = {},
    testTimestamp)] (lines 370-437), under the event loop [eventLoop]. *)
Definition migrateGranulesAndFiles
    (env : gmap string string)
    (granuleMigrationParams' : option GranuleMigrationParams)
    (testTimestamp : option string) (eventLoop : EventLoop)
  : Trx (World store) GranulesAndFilesMigrationResult :=
  let granuleMigrationParams := default emptyParams granuleMigrationParams' in
  bucket' <- liftE (getRequiredEnvVar rt "system_bucket" env) ;;
  granulesTable <- liftE (getRequiredEnvVar rt "GranulesTable" env) ;;
  stackName <- liftE (getRequiredEnvVar rt "stackName" env) ;;
  let loggingInterval := default 100 (param_loggingInterval granuleMigrationParams) in
  let writeConcurrency := default 10 (param_writeConcurrency granuleMigrationParams) in
  let granulesAndFilesMigrationResult := initializeGranulesAndFilesMigrationResult in
  let migrationName := "granulesAndFiles" in
  filepath <- createErrorFileWriteStream migrationName testTimestamp ;;
  let doDynamoQuery :=
    is_defined (param_granuleId granuleMigrationParams)
    || is_defined (param_collectionId granuleMigrationParams) in
  result <-
    (if doDynamoQuery then
       queryAndMigrateGranuleDynamoRecords
         granulesTable granuleMigrationParams
         (Some granulesAndFilesMigrationResult) loggingInterval
     else
       let totalSegments :=
         default 20 (param_parallelScanSegments granuleMigrationParams) in
       parallelScan totalSegments
         {| scan_TableName := granulesTable;
            Limit := param_parallelScanLimit granuleMigrationParams |}
         (fun segment page items =>
            migrateGranuleDynamoRecords items loggingInterval writeConcurrency
                                        (settleOrder eventLoop segment page))
         (segmentOrder eventLoop)
         granulesAndFilesMigrationResult) ;;
  _ <- closeErrorWriteStreams ;;
  _ <- (fun w => (w, storeErrors rt bucket' filepath migrationName stackName
                                 testTimestamp (errorLog w))) ;;
  ret result.

End Pipeline.

(** ** A relational destination *)

Module Pg.

(** Modelled from the spec: the destination store of the data model.
    Granule rows are "keyed by a generated numeric identifier" with "a
    uniqueness constraint on (granuleId, collectionCumulusId)"; file rows
    are "upserted by the natural key (bucket, key)"; collections and
    executions are found by their natural keys. *)
Record store : Type := {
  tbl_collections : gmap (string * string) Z;
  tbl_executions : gmap string Z;
  tbl_granules : gmap (string * Z) PostgresGranuleRecord;
  tbl_granules_executions : list (Z * Z);
  tbl_files : gmap (string * string) PostgresFile;
  next_cumulus_id : Z;
}.

(** Modelled from the spec: the "foreign-key lookup primitive", which
    returns the destination identifier "or signal[s] not found". *)
Definition find {K V} `{Countable K} (what : string) (m : gmap K V) (k : K) : error + V :=
  match m !! k with
  | Some v => inr v
  | None => inl (RecordDoesNotExist (what +:+ " record does not exist"))
  end.

(** Modelled from the spec: [deconstructCollectionId] of
    @cumulus/api/lib/utils; a collection identifier is the name and the
    version joined by three underscores. *)
Definition deconstruct (collectionId : string) : string * string :=
  match String.index 0 "___" collectionId with
  | Some i =>
      (String.substring 0 i collectionId,
       String.substring (i + 3) (String.length collectionId - (i + 3)) collectionId)
  | None => (collectionId, "")
  end.

Definition getCollectionCumulusId (nv : string * string) (s : store) : error + Z :=
  find "Collection" (tbl_collections s) nv.

Definition getExecutionCumulusId (url : option string) (s : store) : error + Z :=
  match url with
  | Some u => find "Execution" (tbl_executions s) u
  | None => inl (RecordDoesNotExist "Execution record does not exist")
  end.

Definition getGranule (granule_id : string) (collection_cumulus_id : Z) (s : store)
  : error + PostgresGranuleRecord :=
  find "Granule" (tbl_granules s) (granule_id, collection_cumulus_id).

(** Modelled from the spec: the "field-level transcoder" for granules;
    the destination row refers to its collection by identifier and keeps
    the source's [updatedAt]. *)
Definition translate (record : DynamoRecord) (s : store) : error + PostgresGranule :=
  match getCollectionCumulusId (deconstruct (collectionId record)) s with
  | inr cid => inr {| granule_id := granuleId record;
                      collection_cumulus_id := cid;
                      updated_at := new_Date (updatedAt record) |}
  | inl e => inl e
  end.

(** The error of a timestamp column that is given something else. *)
Definition invalid_timestamp : error :=
  OtherError "error" "invalid input syntax for type timestamp".

(** Modelled from the spec: the granule upsert "report[s] ... the
    generated identifier"; an existing row keeps its identifier, a new
    row takes the next one.  The optional execution is joined to it.  The
    row carries "an updatedAt timestamp": a granule whose [updated_at] is
    not a time (Invalid Date) is refused. *)
Definition upsertGranule (granule : PostgresGranule) (executionCumulusId : option Z)
  : Trx store (list Z) :=
  fun s =>
    match updated_at granule with
    | InvalidDate => (s, inl invalid_timestamp)
    | TimeValue _ =>
    let k := (granule_id granule, collection_cumulus_id granule) in
    let existing := tbl_granules s !! k in
    let cumulusId :=
      match existing with
      | Some row => rec_cumulus_id row
      | None => next_cumulus_id s
      end in
    let row := {| rec_cumulus_id := cumulusId;
                  rec_granule_id := granule_id granule;
                  rec_collection_cumulus_id := collection_cumulus_id granule;
                  rec_updated_at := updated_at granule |} in
    ({| tbl_collections := tbl_collections s;
        tbl_executions := tbl_executions s;
        tbl_granules := <[k := row]> (tbl_granules s);
        tbl_granules_executions :=
          match executionCumulusId with
          | Some e =>
              if bool_decide ((cumulusId, e) ∈ tbl_granules_executions s)
              then tbl_granules_executions s
              else tbl_granules_executions s ++ [(cumulusId, e)]
          | None => tbl_granules_executions s
          end;
        tbl_files := tbl_files s;
        next_cumulus_id :=
          match existing with
          | Some _ => next_cumulus_id s
          | None => next_cumulus_id s + 1
          end |},
     inr [cumulusId])
    end.

(** Modelled from the spec: a file row is "upserted by the natural key
    (bucket, key)"; a row without its natural key is refused. *)
Definition upsertFile (file : PostgresFile) : Trx store unit :=
  fun s =>
    if String.eqb (pf_bucket file) "" || String.eqb (pf_key file) "" then
      (s, inl (OtherError "error" "null value in column violates not-null constraint"))
    else
      ({| tbl_collections := tbl_collections s;
          tbl_executions := tbl_executions s;
          tbl_granules := tbl_granules s;
          tbl_granules_executions := tbl_granules_executions s;
          tbl_files := <[(pf_bucket file, pf_key file) := file]> (tbl_files s);
          next_cumulus_id := next_cumulus_id s |},
       inr tt).

Definition models : PgModels store := {|
  deconstructCollectionId := deconstruct;
  CollectionPgModel_getRecordCumulusId := getCollectionCumulusId;
  ExecutionPgModel_getRecordCumulusId := getExecutionCumulusId;
  GranulePgModel_get := getGranule;
  translateApiGranuleToPostgresGranule := translate;
  upsertGranuleWithExecutionJoinRecord := upsertGranule;
  getBucket := fun file => default "" (bucket file);
  getKey := fun file => default "" (key file);
  FilePgModel_upsert := upsertFile;
|}.

(** A destination whose granule upsert affects no row. *)
Definition rejecting : PgModels store := {|
  deconstructCollectionId := deconstruct;
  CollectionPgModel_getRecordCumulusId := getCollectionCumulusId;
  ExecutionPgModel_getRecordCumulusId := getExecutionCumulusId;
  GranulePgModel_get := getGranule;
  translateApiGranuleToPostgresGranule := translate;
  upsertGranuleWithExecutionJoinRecord := fun _ _ s => (s, inr []);
  getBucket := fun file => default "" (bucket file);
  getKey := fun file => default "" (key file);
  FilePgModel_upsert := upsertFile;
|}.

End Pg.

(** ** A small deployment, used to run the pipeline on concrete records *)

Module Sample.

Definition file_text (f : ApiFile) : string :=
  "{bucket:" +:+ default "undefined" (bucket f) +:+
  ",key:" +:+ default "undefined" (key f) +:+ "}".

Definition stringify (fs : option (list ApiFile)) : string :=
  match fs with
  | Some l => "[" +:+ String.concat "," (map file_text l) +:+ "]"
  | None => "undefined"
  end.

(** The key condition of a query, applied to a table snapshot. *)
Definition matches (q : QueryParams) (r : DynamoRecord) : bool :=
  match ExpressionAttributeValues q with
  | [(":granuleId", g)] => String.eqb (granuleId r) g
  | [(":collectionId", c)] => String.eqb (collectionId r) c
  | _ => false
  end.

Definition readEnv (name : string) (env : gmap string string) : error + string :=
  match env !! name with
  | Some v => inr v
  | None => inl (OtherError "MissingRequiredEnvVarError"
                            ("The " +:+ name +:+ " environment variable must be set"))
  end.

(** DynamoDB refuses a query that has no key condition. *)
Definition ValidationException : error :=
  OtherError "ValidationException"
    "Either the KeyConditions or KeyConditionExpression parameter must be specified in the request.".

(** The records of a table snapshot that fall into one segment: those at
    the positions congruent to the segment modulo the number of segments. *)
Definition segmentOf (table : list DynamoRecord) (totalSegments segment : Z)
  : list DynamoRecord :=
  omap (fun '(i, r) => if Z.of_nat i mod totalSegments =? segment then Some r else None)
       (imap pair table).

(** A runtime over a fixed snapshot of the source table.  A query
    delivers the records that match its key condition; a segment of a
    scan delivers its records in one page. *)
Definition runtime (table : list DynamoRecord) : Runtime := {|
  JSON_stringify := stringify;
  dynamoQuery := fun q =>
    match KeyConditionExpression q with
    | Some _ => {| queue_items := List.filter (matches q) table;
                   queue_rejection := None |}
    | None => {| queue_items := []; queue_rejection := Some ValidationException |}
    end;
  dynamoScan := fun totalSegments _ segment =>
    {| segment_pages := [segmentOf table totalSegments segment];
       segment_rejection := None |};
  scanRejection := fun rejections =>
    OtherError "AggregateError" (String.concat "; " (map error_toString rejections));
  pMap_TypeError := fun _ =>
    OtherError "TypeError" "Expected `concurrency` to be an integer from 1 and up";
  getRequiredEnvVar := readEnv;
  errorFilepath := fun name ts =>
    "data-migration2-" +:+ name +:+ "-errors-" +:+ default "now" ts +:+ ".json";
  closeStreams := fun _ => inr tt;
  storeErrors := fun _ _ _ _ _ _ => inr tt;
|}.

(** An event loop that lets later work overtake earlier work. *)
Definition eventLoop : EventLoop := {|
  settleOrder := fun _ _ => [1; 0; 2]%nat;
  segmentOrder := [3; 1; 4; 1; 5; 9; 2; 6; 5; 3; 5]%nat;
|}.

Definition env : gmap string string :=
  <["system_bucket" := "internal"]>
    (<["GranulesTable" := "GranulesTable"]> (<["stackName" := "stack"]> ∅)).

Definition mkFile (b k : string) : ApiFile := {|
  bucket := Some b; key := Some k; size := Some 1024;
  checksum := None; checksumType := None; fileName := Some k;
  source := None; path := None;
|}.

(** A file with no bucket: the destination refuses it. *)
Definition badFile : ApiFile := {|
  bucket := None; key := Some "orphan"; size := None;
  checksum := None; checksumType := None; fileName := None;
  source := None; path := None;
|}.

(** G1: [updatedAt = 100], two files, valid collection, no execution. *)
Definition G1 : DynamoRecord := {|
  granuleId := "G1";
  collectionId := "MOD09GQ___006";
  updatedAt := 100;
  execution := None;
  files := Some [mkFile "protected" "G1.hdf"; mkFile "public" "G1.jpg"];
|}.

(** G2: [updatedAt = 50]; the destination will hold it at 200. *)
Definition G2 : DynamoRecord := {|
  granuleId := "G2";
  collectionId := "MOD09GQ___006";
  updatedAt := 50;
  execution := Some "https://example.com/executions/arn-1";
  files := Some [mkFile "protected" "G2.hdf"];
|}.

(** G3 refers to a collection the destination does not have. *)
Definition G3 : DynamoRecord := {|
  granuleId := "G3";
  collectionId := "C-missing___1";
  updatedAt := 70;
  execution := None;
  files := Some [mkFile "protected" "G3.hdf"];
|}.

(** G4 has no [files] attribute and an execution unknown downstream. *)
Definition G4 : DynamoRecord := {|
  granuleId := "G4";
  collectionId := "MOD09GQ___006";
  updatedAt := 10;
  execution := Some "https://example.com/executions/unknown";
  files := None;
|}.

(** G5 carries a file the destination refuses. *)
Definition G5 : DynamoRecord := {|
  granuleId := "G5";
  collectionId := "MOD09GQ___006";
  updatedAt := 10;
  execution := None;
  files := Some [mkFile "protected" "G5.hdf"; badFile];
|}.

Definition table : list DynamoRecord := [G1; G2; G3; G4; G5].

(** G2 with an [updatedAt] one millisecond before the earliest time a
    [Date] can hold. *)
Definition G2_beforeTime : DynamoRecord := {|
  granuleId := "G2";
  collectionId := "MOD09GQ___006";
  updatedAt := -8640000000000001;
  execution := Some "https://example.com/executions/arn-1";
  files := Some [mkFile "protected" "G2.hdf"];
|}.

(** The destination before the run: one collection, one execution, and
    G2 already present with [updated_at = 200]. *)
Definition store0 : Pg.store := {|
  Pg.tbl_collections := {[ ("MOD09GQ", "006") := 1 ]};
  Pg.tbl_executions := {[ "https://example.com/executions/arn-1" := 5 ]};
  Pg.tbl_granules :=
    {[ ("G2", 1) := {| rec_cumulus_id := 1; rec_granule_id := "G2";
                       rec_collection_cumulus_id := 1;
                       rec_updated_at := TimeValue 200 |} ]};
  Pg.tbl_granules_executions := [(1, 5)];
  Pg.tbl_files := ∅;
  Pg.next_cumulus_id := 2;
|}.

Definition world0 : World Pg.store :=
  {| db := store0; errorLog := []; sourceOps := [] |}.




End Sample.

(** ** Schedules *)

(** Every record of [items] is started once and settled once. *)
Definition scheduleOf (items : list DynamoRecord) (schedule : list Step) : Prop :=
  Permutation (map Started items ++ map Settled items) schedule.

(** The schedule that takes the records one by one. *)
Definition oneByOne (items : list DynamoRecord) : list Step :=
  flat_map (fun r => [Started r; Settled r]) items.

(** ** Vocabulary of the properties *)

(** The three outcomes of one record. *)
Inductive Outcome : Type :=
| Migrated
| Skipped
| Failed (e : error).

(** [dynamoRecord.files ?? []], counted. *)
Definition fileCount (record : DynamoRecord) : Z :=
  Z.of_nat (length (default [] (files record))).

Definition totalFiles (records : list DynamoRecord) : Z :=
  fold_right (fun r n => fileCount r + n) 0 records.

(** The outcome is decided by how the record's transaction settles. *)
Definition recordOutcome {store} (pg : PgModels store)
    (record : DynamoRecord) (w : World store) : Outcome :=
  match knex_transaction
          (granuleAndFilesTransaction pg record (default [] (files record))) w with
  | (_, inr _) => Migrated
  | (_, inl e) => if instanceof_RecordAlreadyMigrated e then Skipped else Failed e
  end.

(** One record of weight [n] was seen and counted under outcome [o]:
    the total and exactly one outcome counter grow by [n]. *)
Definition counted (o : Outcome) (n : Z) (before after : MigrationResult) : Prop :=
  total_dynamo_db_records after = total_dynamo_db_records before + n
  /\ migrated after = migrated before + (match o with Migrated => n | _ => 0 end)
  /\ skipped after = skipped before + (match o with Skipped => n | _ => 0 end)
  /\ failed after = failed before + (match o with Failed _ => n | _ => 0 end)
  /\ filters after = filters before.

(** Counter conservation. *)
Definition conserved (r : MigrationResult) : Prop :=
  migrated r + skipped r + failed r = total_dynamo_db_records r.

(** The targeted query by exact granule identifier. *)
Definition granuleIdQuery (granulesTable g : string) : QueryParams :=
  {| TableName := granulesTable;
     IndexName := None;
     KeyConditionExpression := Some "granuleId = :granuleId";
     ExpressionAttributeValues := [(":granuleId", g)] |}.

(** The targeted query on the secondary index keyed by collection. *)
Definition collectionIdQuery (granulesTable c : string) : QueryParams :=
  {| TableName := granulesTable;
     IndexName := Some "collectionId-granuleId-index";
     KeyConditionExpression := Some "collectionId = :collectionId";
     ExpressionAttributeValues := [(":collectionId", c)] |}.

(** The operation one run of the entry point issues against the source. *)
Definition sourceOperation (granulesTable : string)
    (granuleMigrationParams : GranuleMigrationParams) : SourceOp :=
  if is_defined (param_granuleId granuleMigrationParams)
     || is_defined (param_collectionId granuleMigrationParams)
  then DynamoQuery (snd (selectQuery granulesTable granuleMigrationParams
                                     initializeGranulesAndFilesMigrationResult))
  else DynamoParallelScan
         (default 20 (param_parallelScanSegments granuleMigrationParams))
         {| scan_TableName := granulesTable;
            Limit := param_parallelScanLimit granuleMigrationParams |}.

(** The records that operation delivers. *)
Definition sourceSnapshot (rt : Runtime) (granulesTable : string)
    (granuleMigrationParams : GranuleMigrationParams) : list DynamoRecord :=
  match sourceOperation granulesTable granuleMigrationParams with
  | DynamoQuery q => queue_items (dynamoQuery rt q)
  | DynamoParallelScan totalSegments scanParams =>
      concat (map (fun scan => concat (segment_pages scan))
                  (scanSegments rt totalSegments scanParams))
  end.

(** How a segment of the entry point's scan ends: [pMap] refuses the
    first page when the write concurrency is below 1; otherwise the
    segment ends as its reads end. *)
Definition segmentEnding (rt : Runtime) (writeConcurrency : Z) (scan : SegmentScan)
  : option error :=
  match segment_pages scan with
  | [] => segment_rejection scan
  | _ :: _ =>
      if writeConcurrency <? 1 then Some (pMap_TypeError rt writeConcurrency)
      else segment_rejection scan
  end.

(** The error with which the source operation of a run rejects, if it
    does. *)
Definition sourceRejection (rt : Runtime) (granulesTable : string)
    (granuleMigrationParams : GranuleMigrationParams) : option error :=
  match sourceOperation granulesTable granuleMigrationParams with
  | DynamoQuery q => queue_rejection (dynamoQuery rt q)
  | DynamoParallelScan totalSegments scanParams =>
      match omap (segmentEnding rt (default 10 (param_writeConcurrency
                                                  granuleMigrationParams)))
                 (scanSegments rt totalSegments scanParams) with
      | [] => None
      | rejections => Some (scanRejection rt rejections)
      end
  end.

(** Lines 391-424 of the entry point: the targeted query or the parallel
    scan, on a fresh result object. *)
Definition sourceRun {store} (pg : PgModels store) (rt : Runtime)
    (granulesTable : string) (granuleMigrationParams : GranuleMigrationParams)
    (eventLoop : EventLoop) : Trx (World store) GranulesAndFilesMigrationResult :=
  let loggingInterval := default 100 (param_loggingInterval granuleMigrationParams) in
  let writeConcurrency := default 10 (param_writeConcurrency granuleMigrationParams) in
  if is_defined (param_granuleId granuleMigrationParams)
     || is_defined (param_collectionId granuleMigrationParams)
  then queryAndMigrateGranuleDynamoRecords pg rt granulesTable granuleMigrationParams
         (Some initializeGranulesAndFilesMigrationResult) loggingInterval
  else parallelScan pg rt
         (default 20 (param_parallelScanSegments granuleMigrationParams))
         {| scan_TableName := granulesTable;
            Limit := param_parallelScanLimit granuleMigrationParams |}
         (fun segment page items =>
            migrateGranuleDynamoRecords rt items loggingInterval writeConcurrency
                                        (settleOrder eventLoop segment page))
         (segmentOrder eventLoop)
         initializeGranulesAndFilesMigrationResult.

(** An error of the infrastructure of a run: it was raised by the
    environment reader, by a read of the source, by [pMap] refusing its
    concurrency, by closing the error stream or by storing the error
    file.  None of them is raised by the migration of a record. *)
Inductive infrastructureError (rt : Runtime) (env : gmap string string)
    (testTimestamp : option string) : error -> Prop :=
| environment_unreadable name e :
    getRequiredEnvVar rt name env = inl e ->
    infrastructureError rt env testTimestamp e
| query_rejected q e :
    queue_rejection (dynamoQuery rt q) = Some e ->
    infrastructureError rt env testTimestamp e
| scan_rejected totalSegments scanParams writeConcurrency rejections :
    rejections <> [] ->
    Forall (fun e =>
              (exists segment,
                  segment_rejection (dynamoScan rt totalSegments scanParams segment)
                  = Some e)
              \/ (writeConcurrency < 1 /\ e = pMap_TypeError rt writeConcurrency))
           rejections ->
    infrastructureError rt env testTimestamp (scanRejection rt rejections)
| stream_not_closed lines e :
    closeStreams rt lines = inl e ->
    infrastructureError rt env testTimestamp e
| errors_not_stored bucket' filepath migrationName stack lines e :
    storeErrors rt bucket' filepath migrationName stack testTimestamp lines = inl e ->
    infrastructureError rt env testTimestamp e.

(** The filter a run records in the granules result. *)
Definition recordedFilters (granulesTable : string)
    (granuleMigrationParams : GranuleMigrationParams) : option GranuleFilters :=
  if is_defined (param_granuleId granuleMigrationParams)
     || is_defined (param_collectionId granuleMigrationParams)
  then filters (granulesResult
                  (fst (selectQuery granulesTable granuleMigrationParams
                                    initializeGranulesAndFilesMigrationResult)))
  else None.

(** [record] with its [files] attribute replaced. *)
Definition with_files (fs : option (list ApiFile)) (record : DynamoRecord) : DynamoRecord :=
  {| granuleId := granuleId record;
     collectionId := collectionId record;
     updatedAt := updatedAt record;
     execution := execution record;
     files := fs |}.

(** [pg] with another file upsert. *)
Definition with_FilePgModel_upsert {store}
    (upsert : PostgresFile -> Trx store unit) (pg : PgModels store) : PgModels store :=
  {| deconstructCollectionId := deconstructCollectionId pg;
     CollectionPgModel_getRecordCumulusId := CollectionPgModel_getRecordCumulusId pg;
     ExecutionPgModel_getRecordCumulusId := ExecutionPgModel_getRecordCumulusId pg;
     GranulePgModel_get := GranulePgModel_get pg;
     translateApiGranuleToPostgresGranule := translateApiGranuleToPostgresGranule pg;
     upsertGranuleWithExecutionJoinRecord := upsertGranuleWithExecutionJoinRecord pg;
     getBucket := getBucket pg;
     getKey := getKey pg;
     FilePgModel_upsert := upsert |}.

(** Generated identifiers of the relational destination start at 1. *)
Definition identifiers_generated (s : Pg.store) : Prop :=
  0 < Pg.next_cumulus_id s
  /\ map_Forall (fun _ row => rec_cumulus_id row <> 0) (Pg.tbl_granules s).

(** The file carries its natural key. *)
Definition has_natural_key (f : ApiFile) : Prop :=
  default "" (bucket f) <> "" /\ default "" (key f) <> "".

(** The sum of the outcome counters. *)
Definition tally (r : MigrationResult) : Z := migrated r + skipped r + failed r.

(** The counters moved on: [n] more seen, [m] more counted under an
    outcome; the recorded filter stays. *)
Definition advanced (n m : Z) (before after : MigrationResult) : Prop :=
  total_dynamo_db_records after = total_dynamo_db_records before + n
  /\ tally after = tally before + m
  /\ filters after = filters before.

(** The weight of the started (or of the settled) records of a schedule. *)
Definition stepWeight (started : bool) (weight : DynamoRecord -> Z) (st : Step) : Z :=
  match st with
  | Started r => if started then weight r else 0
  | Settled r => if started then 0 else weight r
  end.

Definition scheduleWeight (started : bool) (weight : DynamoRecord -> Z)
    (schedule : list Step) : Z :=
  fold_right (fun st n => stepWeight started weight st + n) 0 schedule.

(** The execution identifier the relational destination holds for a
    record, if any. *)
Definition Pg_execution (record : DynamoRecord) (s : Pg.store) : option Z :=
  match execution record with
  | Some u => Pg.tbl_executions s !! u
  | None => None
  end.

(** The granule row the relational destination writes for a record. *)
Definition Pg_granule (record : DynamoRecord) (cid : Z) : PostgresGranule :=
  {| granule_id := granuleId record;
     collection_cumulus_id := cid;
     updated_at := new_Date (updatedAt record) |}.


(** The execution identifier [migrateGranuleRecord] hands to the upsert:
    the one the lookup found, or undefined. *)
Definition resolvedExecution {store} (pg : PgModels store)
    (record : DynamoRecord) (s : store) : option Z :=
  match ExecutionPgModel_getRecordCumulusId pg (execution record) s with
  | inr id => Some id
  | inl _ => None
  end.

(** No counter went down and the recorded filter stayed. *)
Definition nondecreasing (before after : MigrationResult) : Prop :=
  total_dynamo_db_records before <= total_dynamo_db_records after
  /\ migrated before <= migrated after
  /\ skipped before <= skipped after
  /\ failed before <= failed after
  /\ filters after = filters before.

(** [rt] with another [storeErrors]. *)
Definition with_storeErrors
    (store' : string -> string -> string -> string -> option string ->
              list string -> error + unit)
    (rt : Runtime) : Runtime :=
  {| JSON_stringify := JSON_stringify rt;
     dynamoQuery := dynamoQuery rt;
     dynamoScan := dynamoScan rt;
     scanRejection := scanRejection rt;
     pMap_TypeError := pMap_TypeError rt;
     getRequiredEnvVar := getRequiredEnvVar rt;
     errorFilepath := errorFilepath rt;
     closeStreams := closeStreams rt;
     storeErrors := store' |}.

(** Destinations that misbehave in one place, to run the error paths. *)
Module Faulty.

Definition lostConnection : error := OtherError "Error" "Connection terminated unexpectedly".

(** The granule lookup cannot reach the database. *)
Definition granuleLookupDown : PgModels Pg.store := {|
  deconstructCollectionId := Pg.deconstruct;
  CollectionPgModel_getRecordCumulusId := Pg.getCollectionCumulusId;
  ExecutionPgModel_getRecordCumulusId := Pg.getExecutionCumulusId;
  GranulePgModel_get := fun _ _ _ => inl lostConnection;
  translateApiGranuleToPostgresGranule := Pg.translate;
  upsertGranuleWithExecutionJoinRecord := Pg.upsertGranule;
  getBucket := fun file => default "" (bucket file);
  getKey := fun file => default "" (key file);
  FilePgModel_upsert := Pg.upsertFile;
|}.

(** The granule upsert reports the identifier 0. *)
Definition zeroIdentifier : PgModels Pg.store := {|
  deconstructCollectionId := Pg.deconstruct;
  CollectionPgModel_getRecordCumulusId := Pg.getCollectionCumulusId;
  ExecutionPgModel_getRecordCumulusId := Pg.getExecutionCumulusId;
  GranulePgModel_get := Pg.getGranule;
  translateApiGranuleToPostgresGranule := Pg.translate;
  upsertGranuleWithExecutionJoinRecord := fun _ _ s => (s, inr [0; 7]);
  getBucket := fun file => default "" (bucket file);
  getKey := fun file => default "" (key file);
  FilePgModel_upsert := Pg.upsertFile;
|}.

(** Every file upsert answers "already migrated". *)
Definition filesAlreadyMigrated : PgModels Pg.store :=
  with_FilePgModel_upsert
    (fun _ s => (s, inl (RecordAlreadyMigrated "File was already migrated")))
    Pg.models.

(** An environment without the name of the granules table. *)
Definition envWithoutTable : gmap string string :=
  <["system_bucket" := "internal"]> (<["stackName" := "stack"]> ∅).

(** The error file cannot be stored. *)
Definition storeDown (table : list DynamoRecord) : Runtime :=
  with_storeErrors (fun _ _ _ _ _ _ => inl lostConnection) (Sample.runtime table).

(** The read after the first page of segment 1 of a scan fails. *)
Definition scanInterrupted (table : list DynamoRecord) : Runtime := {|
  JSON_stringify := JSON_stringify (Sample.runtime table);
  dynamoQuery := dynamoQuery (Sample.runtime table);
  dynamoScan := fun totalSegments scanParams segment =>
    {| segment_pages :=
         segment_pages (dynamoScan (Sample.runtime table) totalSegments scanParams
                                   segment);
       segment_rejection := if segment =? 1 then Some lostConnection else None |};
  scanRejection := scanRejection (Sample.runtime table);
  pMap_TypeError := pMap_TypeError (Sample.runtime table);
  getRequiredEnvVar := getRequiredEnvVar (Sample.runtime table);
  errorFilepath := errorFilepath (Sample.runtime table);
  closeStreams := closeStreams (Sample.runtime table);
  storeErrors := storeErrors (Sample.runtime table);
|}.

End Faulty.



(** [ms] is a time value a [Date] can hold. *)
Definition within_Date_range (ms : Z) : Prop := Z.abs ms <= 8640000000000000.

(** The conflict rule read on the numbers of the two records, whatever the
    source's [updatedAt] is: a destination row at or after it makes the
    migration answer "already migrated". *)
Definition skips_at_or_after {store} (pg : PgModels store)
    (record : DynamoRecord) (s : store) : Prop :=
  forall cid existing t,
    CollectionPgModel_getRecordCumulusId pg
      (deconstructCollectionId pg (collectionId record)) s = inr cid ->
    GranulePgModel_get pg (granuleId record) cid s = inr existing ->
    rec_updated_at existing = TimeValue t ->
    updatedAt record <= t ->
    exists msg,
      snd (migrateGranuleRecord pg record s) = inl (RecordAlreadyMigrated msg).

(** The identifier the relational destination reports for a record: the
    one of its row, or the next of the sequence. *)
Definition Pg_idof (record : DynamoRecord) (cid : Z) (s : Pg.store) : Z :=
  match Pg.tbl_granules s !! (granuleId record, cid) with
  | Some row => rec_cumulus_id row
  | None => Pg.next_cumulus_id s
  end.

(** The row the relational destination holds after migrating a record. *)
Definition Pg_row (record : DynamoRecord) (cid : Z) (s : Pg.store)
  : PostgresGranuleRecord :=
  {| rec_cumulus_id := Pg_idof record cid s;
     rec_granule_id := granuleId record;
     rec_collection_cumulus_id := cid;
     rec_updated_at := new_Date (updatedAt record) |}.

(** The record's transaction would commit against [s]. *)
Definition Pg_migratable (record : DynamoRecord) (s : Pg.store) : Prop :=
  exists cid,
    Pg.tbl_collections s !! Pg.deconstruct (collectionId record) = Some cid
    /\ isExistingRecordNewer (Pg.tbl_granules s !! (granuleId record, cid)) record = false
    /\ within_Date_range (updatedAt record)
    /\ Pg_idof record cid s <> 0
    /\ Forall has_natural_key (default [] (files record)).

(** * Properties *)

(** ** Dates *)

Lemma new_Date_in_range (ms : Z) :
  within_Date_range ms -> new_Date ms = TimeValue ms.
Proof.
  unfold within_Date_range, new_Date. intros H.
  destruct (Z.leb_spec (Z.abs ms) 8640000000000000); [reflexivity | lia].
Qed.

Lemma new_Date_out_of_range (ms : Z) :
  ~ within_Date_range ms -> new_Date ms = InvalidDate.
Proof.
  unfold within_Date_range, new_Date. intros H.
  destruct (Z.leb_spec (Z.abs ms) 8640000000000000); [contradiction | reflexivity].
Qed.

Lemma new_Date_TimeValue (ms t : Z) :
  new_Date ms = TimeValue t -> t = ms /\ within_Date_range ms.
Proof.
  unfold within_Date_range, new_Date.
  destruct (Z.leb_spec (Z.abs ms) 8640000000000000) as [Hr|Hr]; [|discriminate].
  intros Heq. injection Heq as <-. split; [reflexivity | exact Hr].
Qed.

(** [>=] on valid dates is [>=] on their time values. *)
Lemma Date_ge_TimeValue (x y : Z) : Date_ge (TimeValue x) (TimeValue y) = (y <=? x).
Proof. reflexivity. Qed.

(** What conflict detection decides, on the numbers. *)
Lemma isExistingRecordNewer_false
    (existing : option PostgresGranuleRecord) (record : DynamoRecord) :
  isExistingRecordNewer existing record = false <->
  forall row t,
    existing = Some row -> rec_updated_at row = TimeValue t ->
    within_Date_range (updatedAt record) -> t < updatedAt record.
Proof.
  unfold isExistingRecordNewer. destruct existing as [row|].
  - split.
    + intros Hge row' t Hrow Ht Hr. injection Hrow as <-.
      rewrite Ht, (new_Date_in_range _ Hr) in Hge. cbn in Hge.
      destruct (Z.leb_spec (updatedAt record) t); [discriminate | assumption].
    + intros Hlt. destruct (rec_updated_at row) as [t|] eqn:Ht; [|reflexivity].
      unfold new_Date.
      destruct (Z.leb_spec (Z.abs (updatedAt record)) 8640000000000000) as [Hr|Hr];
        [|reflexivity].
      cbn. specialize (Hlt row t eq_refl Ht Hr).
      destruct (Z.leb_spec (updatedAt record) t); [lia | reflexivity].
  - split; [|reflexivity]. intros _ row t Hrow. discriminate Hrow.
Qed.

(** ** One record *)

Section RecordProperties.
Context {store : Type} (pg : PgModels store) (rt : Runtime).

Lemma lookupExecution_eq (record : DynamoRecord) (s : store) :
  lookupExecution pg record s =
  (s, match ExecutionPgModel_getRecordCumulusId pg (execution record) s with
      | inr id => inr (Some id)
      | inl e => if instanceof_RecordDoesNotExist e then inr None else inl e
      end).
Proof.
  unfold lookupExecution, try_catch, bind, lookup_query, ret, throw.
  destruct (ExecutionPgModel_getRecordCumulusId pg (execution record) s) as [e|id];
    [destruct e|]; reflexivity.
Qed.

Lemma lookupExisting_eq (record : DynamoRecord) (cid : Z) (s : store) :
  lookupExisting pg record cid s =
  (s, match GranulePgModel_get pg (granuleId record) cid s with
      | inr row => inr (Some row)
      | inl e => if instanceof_RecordDoesNotExist e then inr None else inl e
      end).
Proof.
  unfold lookupExisting, try_catch, bind, lookup_query, ret, throw.
  destruct (GranulePgModel_get pg (granuleId record) cid s) as [e|row];
    [destruct e|]; reflexivity.
Qed.

(** [migrateGranuleRecord], one lookup at a time. *)
Lemma migrateGranuleRecord_eq (record : DynamoRecord) (s : store) :
  migrateGranuleRecord pg record s =
  match CollectionPgModel_getRecordCumulusId pg
          (deconstructCollectionId pg (collectionId record)) s with
  | inl e => (s, inl e)
  | inr cid =>
      match snd (lookupExecution pg record s) with
      | inl e => (s, inl e)
      | inr exec =>
          match snd (lookupExisting pg record cid s) with
          | inl e => (s, inl e)
          | inr existing =>
              if isExistingRecordNewer existing record
              then (s, inl (RecordAlreadyMigrated (alreadyMigratedMessage record)))
              else translateAndUpsert pg record exec s
          end
      end
  end.
Proof.
  unfold migrateGranuleRecord.
  destruct (deconstructCollectionId pg (collectionId record)) as [name version].
  unfold bind at 1. unfold lookup_query at 1.
  destruct (CollectionPgModel_getRecordCumulusId pg (name, version) s) as [e|cid];
    [reflexivity|].
  unfold bind at 1. rewrite lookupExecution_eq. cbn [snd].
  destruct (match ExecutionPgModel_getRecordCumulusId pg (execution record) s with
            | inr id => inr (Some id)
            | inl e => if instanceof_RecordDoesNotExist e then inr None else inl e
            end) as [e|exec]; [reflexivity|].
  unfold bind at 1. rewrite lookupExisting_eq. cbn [snd].
  destruct (match GranulePgModel_get pg (granuleId record) cid s with
            | inr row => inr (Some row)
            | inl e => if instanceof_RecordDoesNotExist e then inr None else inl e
            end) as [e|existing]; [reflexivity|].
  destruct (isExistingRecordNewer existing record); reflexivity.
Qed.

(** The wrapper, by how the transaction settles. *)
Lemma migrateGranuleAndFilesViaTransaction_eq
    (record : DynamoRecord) (acc : option GranulesAndFilesMigrationResult)
    (loggingInterval : Z) (w : World store) :
  migrateGranuleAndFilesViaTransaction pg rt record acc loggingInterval w =
  settleRecord pg rt record
    (beginRecord record (default initializeGranulesAndFilesMigrationResult acc)) w.
Proof. reflexivity. Qed.

Lemma settleRecord_eq
    (record : DynamoRecord) (r : GranulesAndFilesMigrationResult) (w : World store) :
  settleRecord pg rt record r w =
  match granuleAndFilesTransaction pg record (default [] (files record)) (db w) with
  | (s', inr _) =>
      (set_db s' w,
       inr {| granulesResult := add_migrated 1 (granulesResult r);
              filesResult := add_migrated (fileCount record) (filesResult r) |})
  | (_, inl e) =>
      if instanceof_RecordAlreadyMigrated e then
        (w, inr {| granulesResult := add_skipped 1 (granulesResult r);
                   filesResult := add_skipped (fileCount record) (filesResult r) |})
      else
        ({| db := db w;
            errorLog := errorLog w ++ [errorLine rt record e];
            sourceOps := sourceOps w |},
         inr {| granulesResult := add_failed 1 (granulesResult r);
                filesResult := add_failed (fileCount record) (filesResult r) |})
  end.
Proof.
  unfold settleRecord, try_catch, bind, knex_transaction, fileCount.
  destruct (granuleAndFilesTransaction pg record (default [] (files record)) (db w))
    as [s' [e|us]]; [|reflexivity].
  destruct (instanceof_RecordAlreadyMigrated e); reflexivity.
Qed.

Lemma recordOutcome_eq (record : DynamoRecord) (w : World store) :
  recordOutcome pg record w =
  match granuleAndFilesTransaction pg record (default [] (files record)) (db w) with
  | (_, inr _) => Migrated
  | (_, inl e) => if instanceof_RecordAlreadyMigrated e then Skipped else Failed e
  end.
Proof.
  unfold recordOutcome, knex_transaction.
  destruct (granuleAndFilesTransaction pg record (default [] (files record)) (db w))
    as [s' [e|us]]; reflexivity.
Qed.

(** C3. Each processed record ends in exactly one of the outcomes
    migrated, skipped (already migrated) or failed (any other error).
    The wrapper always resolves, so the error is not passed on to the
    caller.  The total and the counter of that one outcome grow by 1 for
    the granule and by the number of files for the files; the other
    counters stay.  Only a failed record writes to the error stream: one
    line that carries the granule identifier, the serialised file list
    and the error. *)
Theorem C3_outcome_counters
    (record : DynamoRecord) (acc : option GranulesAndFilesMigrationResult)
    (loggingInterval : Z) (w : World store) :
  let before := default initializeGranulesAndFilesMigrationResult acc in
  let o := recordOutcome pg record w in
  exists w' after,
    migrateGranuleAndFilesViaTransaction pg rt record acc loggingInterval w
      = (w', inr after)
    /\ counted o 1 (granulesResult before) (granulesResult after)
    /\ counted o (Z.of_nat (length (default [] (files record))))
               (filesResult before) (filesResult after)
    /\ match o with
       | Migrated | Skipped => errorLog w' = errorLog w
       | Failed e =>
           errorLog w' = (errorLog w ++
             [("Could not create granule record and file records in RDS for DynamoDB Granule granuleId: "
               +:+ granuleId record +:+ " with files "
               +:+ JSON_stringify rt (files record))
              +:+ ", Cause: " +:+ error_toString e])%list
       end.
Proof.
  intros before o. subst o.
  rewrite migrateGranuleAndFilesViaTransaction_eq, settleRecord_eq, recordOutcome_eq.
  fold before. unfold fileCount.
  destruct (granuleAndFilesTransaction pg record (default [] (files record)) (db w))
    as [s' [e|us]].
  - destruct (instanceof_RecordAlreadyMigrated e); eexists; eexists;
      (split; [reflexivity|]); unfold counted; cbn; repeat split; lia.
  - eexists; eexists; (split; [reflexivity|]); unfold counted; cbn; repeat split; lia.
Qed.


(** *** Conflict detection and the upsert *)

Lemma migrateGranuleRecord_skips
    (record : DynamoRecord) (s : store) (cid : Z) (exec : option Z)
    (existing : PostgresGranuleRecord) :
  CollectionPgModel_getRecordCumulusId pg
    (deconstructCollectionId pg (collectionId record)) s = inr cid ->
  snd (lookupExecution pg record s) = inr exec ->
  GranulePgModel_get pg (granuleId record) cid s = inr existing ->
  Date_ge (rec_updated_at existing) (new_Date (updatedAt record)) = true ->
  migrateGranuleRecord pg record s
    = (s, inl (RecordAlreadyMigrated (alreadyMigratedMessage record))).
Proof.
  intros Hc Hx Hg Hge.
  rewrite migrateGranuleRecord_eq, Hc, Hx, lookupExisting_eq, Hg. cbn [snd].
  unfold isExistingRecordNewer. rewrite Hge. reflexivity.
Qed.

Lemma migrateGranuleRecord_proceeds
    (record : DynamoRecord) (s : store) (cid : Z) (exec : option Z)
    (existing : option PostgresGranuleRecord) :
  CollectionPgModel_getRecordCumulusId pg
    (deconstructCollectionId pg (collectionId record)) s = inr cid ->
  snd (lookupExecution pg record s) = inr exec ->
  snd (lookupExisting pg record cid s) = inr existing ->
  isExistingRecordNewer existing record = false ->
  migrateGranuleRecord pg record s = translateAndUpsert pg record exec s.
Proof.
  intros Hc Hx Hg Hn. rewrite migrateGranuleRecord_eq, Hc, Hx, Hg, Hn. reflexivity.
Qed.

Lemma translateAndUpsert_returns
    (record : DynamoRecord) (s s1 : store) (exec : option Z)
    (g : PostgresGranule) (id : Z) (ids : list Z) :
  translateApiGranuleToPostgresGranule pg record s = inr g ->
  upsertGranuleWithExecutionJoinRecord pg g exec s = (s1, inr (id :: ids)) ->
  id <> 0 ->
  translateAndUpsert pg record exec s = (s1, inr id).
Proof.
  intros Ht Hu Hid. unfold translateAndUpsert, bind, lookup_query.
  rewrite Ht, Hu. destruct (Z.eqb_spec id 0); [contradiction | reflexivity].
Qed.

Lemma translateAndUpsert_no_rows
    (record : DynamoRecord) (s s1 : store) (exec : option Z) (g : PostgresGranule) :
  translateApiGranuleToPostgresGranule pg record s = inr g ->
  upsertGranuleWithExecutionJoinRecord pg g exec s = (s1, inr []) ->
  translateAndUpsert pg record exec s
    = (s1, inl (PostgresUpdateFailed (updateFailedMessage record))).
Proof.
  intros Ht Hu. unfold translateAndUpsert, bind, lookup_query.
  rewrite Ht, Hu. reflexivity.
Qed.

(** A rejected granule migration rejects the transaction body before any
    file is touched. *)
Lemma transaction_body_rejected
    (record : DynamoRecord) (fs : list ApiFile) (s s1 : store) (e : error) :
  migrateGranuleRecord pg record s = (s1, inl e) ->
  granuleAndFilesTransaction pg record fs s = (s1, inl e).
Proof. intros H. unfold granuleAndFilesTransaction, bind. rewrite H. reflexivity. Qed.

Lemma transaction_body_granule_ok
    (record : DynamoRecord) (fs : list ApiFile) (s s1 : store) (id : Z) :
  migrateGranuleRecord pg record s = (s1, inr id) ->
  granuleAndFilesTransaction pg record fs s
    = Promise_all_map (fun file => migrateFileRecord pg file id) fs s1.
Proof. intros H. unfold granuleAndFilesTransaction, bind. rewrite H. reflexivity. Qed.

(** What the wrapper does with a record whose transaction was rejected
    by an error other than "already migrated". *)
Lemma failed_record
    (record : DynamoRecord) (acc : option GranulesAndFilesMigrationResult)
    (loggingInterval : Z) (w : World store) (s1 : store) (e : error) :
  granuleAndFilesTransaction pg record (default [] (files record)) (db w) = (s1, inl e) ->
  instanceof_RecordAlreadyMigrated e = false ->
  recordOutcome pg record w = Failed e
  /\ exists after,
      migrateGranuleAndFilesViaTransaction pg rt record acc loggingInterval w
        = ({| db := db w;
              errorLog := errorLog w ++ [errorLine rt record e];
              sourceOps := sourceOps w |}, inr after)
      /\ counted (Failed e) 1
           (granulesResult (default initializeGranulesAndFilesMigrationResult acc))
           (granulesResult after)
      /\ counted (Failed e) (fileCount record)
           (filesResult (default initializeGranulesAndFilesMigrationResult acc))
           (filesResult after).
Proof.
  intros Hbody Hkind.
  rewrite recordOutcome_eq, migrateGranuleAndFilesViaTransaction_eq, settleRecord_eq.
  rewrite Hbody, Hkind. split; [reflexivity|].
  eexists. split; [reflexivity|].
  unfold counted; cbn; repeat split; lia.
Qed.

Lemma skipped_record
    (record : DynamoRecord) (acc : option GranulesAndFilesMigrationResult)
    (loggingInterval : Z) (w : World store) (s1 : store) (e : error) :
  granuleAndFilesTransaction pg record (default [] (files record)) (db w) = (s1, inl e) ->
  instanceof_RecordAlreadyMigrated e = true ->
  recordOutcome pg record w = Skipped
  /\ exists after,
      migrateGranuleAndFilesViaTransaction pg rt record acc loggingInterval w
        = (w, inr after)
      /\ counted Skipped 1
           (granulesResult (default initializeGranulesAndFilesMigrationResult acc))
           (granulesResult after)
      /\ counted Skipped (fileCount record)
           (filesResult (default initializeGranulesAndFilesMigrationResult acc))
           (filesResult after).
Proof.
  intros Hbody Hkind.
  rewrite recordOutcome_eq, migrateGranuleAndFilesViaTransaction_eq, settleRecord_eq.
  rewrite Hbody, Hkind. split; [reflexivity|].
  eexists. split; [reflexivity|].
  unfold counted; cbn; repeat split; lia.
Qed.

Lemma migrated_record
    (record : DynamoRecord) (acc : option GranulesAndFilesMigrationResult)
    (loggingInterval : Z) (w : World store) (s1 : store) (us : list unit) :
  granuleAndFilesTransaction pg record (default [] (files record)) (db w) = (s1, inr us) ->
  recordOutcome pg record w = Migrated
  /\ exists after,
      migrateGranuleAndFilesViaTransaction pg rt record acc loggingInterval w
        = (set_db s1 w, inr after)
      /\ counted Migrated 1
           (granulesResult (default initializeGranulesAndFilesMigrationResult acc))
           (granulesResult after)
      /\ counted Migrated (fileCount record)
           (filesResult (default initializeGranulesAndFilesMigrationResult acc))
           (filesResult after).
Proof.
  intros Hbody.
  rewrite recordOutcome_eq, migrateGranuleAndFilesViaTransaction_eq, settleRecord_eq.
  rewrite Hbody. split; [reflexivity|].
  eexists. split; [reflexivity|].
  unfold counted; cbn; repeat split; lia.
Qed.


(** *** Atomicity *)

Lemma Promise_all_map_length {A B : Type}
    (f : A -> Trx store B) (xs : list A) (s s' : store) (bs : list B) :
  Promise_all_map f xs s = (s', inr bs) -> length bs = length xs.
Proof.
  revert s bs. induction xs as [|x rest IH]; intros s bs H; cbn in H.
  - inversion H. reflexivity.
  - unfold bind in H. destruct (f x s) as [s1 [e|b]]; [discriminate|].
    destruct (Promise_all_map f rest s1) as [s2 [e|bs']] eqn:Hrest; [discriminate|].
    inversion H; subst. cbn. f_equal. eapply IH. exact Hrest.
Qed.

(** A rejected [Promise.all] stopped at one element that rejected, after
    the elements before it had resolved. *)
Lemma Promise_all_map_rejected {A B : Type}
    (f : A -> Trx store B) (xs : list A) (s s' : store) (e : error) :
  Promise_all_map f xs s = (s', inl e) ->
  exists pre x post s_mid bs,
    xs = (pre ++ x :: post)%list
    /\ Promise_all_map f pre s = (s_mid, inr bs)
    /\ f x s_mid = (s', inl e).
Proof.
  revert s. induction xs as [|x rest IH]; intros s H; cbn in H.
  - discriminate.
  - unfold bind in H. destruct (f x s) as [s1 [e1|b]] eqn:Hx.
    + inversion H; subst. exists [], x, rest, s, []. repeat split. exact Hx.
    + destruct (Promise_all_map f rest s1) as [s2 [e2|bs']] eqn:Hrest; [|discriminate].
      inversion H; subst.
      destruct (IH _ Hrest) as (pre & y & post & s_mid & bs & -> & Hpre & Hy).
      exists (x :: pre), y, post, s_mid, (b :: bs). repeat split; [|exact Hy].
      cbn. unfold bind. rewrite Hx, Hpre. reflexivity.
Qed.

(** C2. The granule upsert and the upserts of its files run in one
    transaction.  Either the granule migration and every file upsert
    resolved, and the destination is the state they left (commit, outcome
    migrated); or the granule migration or one file upsert rejected, and
    the destination is exactly the state before the record (roll-back):
    no part of the granule-and-files write remains. *)
Theorem C2_transaction_atomic
    (record : DynamoRecord) (acc : option GranulesAndFilesMigrationResult)
    (loggingInterval : Z) (w : World store) :
  exists w' after,
    migrateGranuleAndFilesViaTransaction pg rt record acc loggingInterval w
      = (w', inr after)
    /\ ((exists id s1 us,
           migrateGranuleRecord pg record (db w) = (s1, inr id)
           /\ Promise_all_map (fun file => migrateFileRecord pg file id)
                              (default [] (files record)) s1 = (db w', inr us)
           /\ length us = length (default [] (files record))
           /\ recordOutcome pg record w = Migrated)
        \/ (db w' = db w
            /\ recordOutcome pg record w <> Migrated
            /\ ((exists s1 e, migrateGranuleRecord pg record (db w) = (s1, inl e))
                \/ (exists id s1 pre file post s_mid us s2 e,
                      migrateGranuleRecord pg record (db w) = (s1, inr id)
                      /\ default [] (files record) = (pre ++ file :: post)%list
                      /\ Promise_all_map (fun file => migrateFileRecord pg file id)
                                         pre s1 = (s_mid, inr us)
                      /\ migrateFileRecord pg file id s_mid = (s2, inl e))))).
Proof.
  rewrite migrateGranuleAndFilesViaTransaction_eq, settleRecord_eq, recordOutcome_eq.
  unfold granuleAndFilesTransaction at 1 2 3. unfold bind at 1 2 3.
  destruct (migrateGranuleRecord pg record (db w)) as [s1 [e|id]] eqn:Hg.
  - destruct (instanceof_RecordAlreadyMigrated e);
      eexists; eexists; (split; [reflexivity|]); right; cbn;
      (split; [reflexivity|]); (split; [discriminate|]); left; eauto.
  - destruct (Promise_all_map (fun file => migrateFileRecord pg file id)
                              (default [] (files record)) s1)
      as [s2 [e|us]] eqn:Hf.
    + destruct (Promise_all_map_rejected _ _ _ _ _ Hf)
        as (pre & file & post & s_mid & bs & Hsplit & Hpre & Hfile).
      destruct (instanceof_RecordAlreadyMigrated e);
        eexists; eexists; (split; [reflexivity|]); right; cbn;
        (split; [reflexivity|]); (split; [discriminate|]); right;
        exists id, s1, pre, file, post, s_mid, bs, s2, e; auto.
    + eexists; eexists; (split; [reflexivity|]); left.
      exists id, s1, us. cbn. repeat split; auto.
      eapply Promise_all_map_length; eauto.
Qed.

(** *** The execution reference *)

(** C7. When the execution of a record is not found in the destination
    (the lookup rejects with RecordDoesNotExist), the lookup error is
    absorbed and the record goes on with the execution reference unset:
    the granule is upserted with no execution identifier and, the upsert
    and the file upserts resolving, the outcome is migrated.  Any other
    error of the execution lookup rejects the record's migration. *)
Theorem C7_execution_not_found
    (record : DynamoRecord) (acc : option GranulesAndFilesMigrationResult)
    (loggingInterval : Z) (w : World store) (cid : Z)
    (Hcollection :
       CollectionPgModel_getRecordCumulusId pg
         (deconstructCollectionId pg (collectionId record)) (db w) = inr cid) :
  (forall msg,
      ExecutionPgModel_getRecordCumulusId pg (execution record) (db w)
        = inl (RecordDoesNotExist msg) ->
      snd (lookupExecution pg record (db w)) = inr None
      /\ forall existing,
          snd (lookupExisting pg record cid (db w)) = inr existing ->
          isExistingRecordNewer existing record = false ->
          migrateGranuleRecord pg record (db w)
            = translateAndUpsert pg record None (db w)
          /\ forall g s1 id ids s2 us,
              translateApiGranuleToPostgresGranule pg record (db w) = inr g ->
              upsertGranuleWithExecutionJoinRecord pg g None (db w)
                = (s1, inr (id :: ids)) ->
              id <> 0 ->
              Promise_all_map (fun file => migrateFileRecord pg file id)
                              (default [] (files record)) s1 = (s2, inr us) ->
              recordOutcome pg record w = Migrated
              /\ exists after,
                  migrateGranuleAndFilesViaTransaction
                    pg rt record acc loggingInterval w = (set_db s2 w, inr after)
                  /\ counted Migrated 1
                       (granulesResult
                          (default initializeGranulesAndFilesMigrationResult acc))
                       (granulesResult after))
  /\ (forall e,
        ExecutionPgModel_getRecordCumulusId pg (execution record) (db w) = inl e ->
        instanceof_RecordDoesNotExist e = false ->
        migrateGranuleRecord pg record (db w) = (db w, inl e)
        /\ recordOutcome pg record w
           = if instanceof_RecordAlreadyMigrated e then Skipped else Failed e).
Proof.
  split.
  - intros msg Hexec.
    assert (Hx : snd (lookupExecution pg record (db w)) = inr None)
      by (rewrite lookupExecution_eq, Hexec; reflexivity).
    split; [exact Hx|].
    intros existing Hg Hn.
    pose proof (migrateGranuleRecord_proceeds _ _ _ _ _ Hcollection Hx Hg Hn) as Hm.
    split; [exact Hm|].
    intros g s1 id ids s2 us Ht Hu Hid Hfiles.
    pose proof (translateAndUpsert_returns _ _ _ _ _ _ _ Ht Hu Hid) as Htu.
    rewrite Htu in Hm.
    pose proof (transaction_body_granule_ok record (default [] (files record)) _ _ _ Hm)
      as Hbody.
    rewrite Hfiles in Hbody.
    destruct (migrated_record record acc loggingInterval w s2 us Hbody)
      as (Ho & after & Hrun & Hcount & _).
    split; [exact Ho|]. exists after. split; assumption.
  - intros e Hexec Hkind.
    assert (Hm : migrateGranuleRecord pg record (db w) = (db w, inl e)).
    { rewrite migrateGranuleRecord_eq, Hcollection, lookupExecution_eq, Hexec, Hkind.
      reflexivity. }
    split; [exact Hm|].
    rewrite recordOutcome_eq.
    rewrite (transaction_body_rejected _ _ _ _ _ Hm). reflexivity.
Qed.

(** C8. A record that passes conflict detection and whose granule upsert
    returns no generated identifier (zero rows affected) makes
    [migrateGranuleRecord] reject with PostgresUpdateFailed; the record
    is counted as failed for the granule and for its files, not as
    migrated, the error is written to the error stream, and the
    destination is left as it was before the record. *)
Theorem C8_update_failed
    (record : DynamoRecord) (acc : option GranulesAndFilesMigrationResult)
    (loggingInterval : Z) (w : World store) (cid : Z) (exec : option Z)
    (existing : option PostgresGranuleRecord) (g : PostgresGranule) (s1 : store)
    (Hcollection :
       CollectionPgModel_getRecordCumulusId pg
         (deconstructCollectionId pg (collectionId record)) (db w) = inr cid)
    (Hexecution : snd (lookupExecution pg record (db w)) = inr exec)
    (Hexisting : snd (lookupExisting pg record cid (db w)) = inr existing)
    (Hpass : isExistingRecordNewer existing record = false)
    (Htranslate : translateApiGranuleToPostgresGranule pg record (db w) = inr g)
    (Hupsert : upsertGranuleWithExecutionJoinRecord pg g exec (db w) = (s1, inr [])) :
  let e := PostgresUpdateFailed
             ("Upsert for granule " +:+ granuleId record +:+
              " returned no rows. Record was not updated in the Postgres table.") in
  migrateGranuleRecord pg record (db w) = (s1, inl e)
  /\ recordOutcome pg record w = Failed e
  /\ exists after,
      migrateGranuleAndFilesViaTransaction pg rt record acc loggingInterval w
        = ({| db := db w;
              errorLog := errorLog w ++ [errorLine rt record e];
              sourceOps := sourceOps w |}, inr after)
      /\ counted (Failed e) 1
           (granulesResult (default initializeGranulesAndFilesMigrationResult acc))
           (granulesResult after)
      /\ counted (Failed e) (Z.of_nat (length (default [] (files record))))
           (filesResult (default initializeGranulesAndFilesMigrationResult acc))
           (filesResult after).
Proof.
  intros e.
  assert (Hm : migrateGranuleRecord pg record (db w) = (s1, inl e)).
  { rewrite (migrateGranuleRecord_proceeds _ _ _ _ _ Hcollection Hexecution Hexisting Hpass).
    exact (translateAndUpsert_no_rows _ _ _ _ _ Htranslate Hupsert). }
  split; [exact Hm|].
  apply failed_record with (s1 := s1); [|reflexivity].
  apply transaction_body_rejected. exact Hm.
Qed.


(** *** Records without a [files] attribute *)

(** Apart from the translator, which is handed the whole record,
    [migrateGranuleRecord] does not read [files]. *)
Lemma migrateGranuleRecord_with_files
    (record : DynamoRecord) (fs : option (list ApiFile)) (s : store) :
  translateApiGranuleToPostgresGranule pg (with_files fs record) s
    = translateApiGranuleToPostgresGranule pg record s ->
  migrateGranuleRecord pg (with_files fs record) s = migrateGranuleRecord pg record s.
Proof.
  intros Ht. rewrite !migrateGranuleRecord_eq, !lookupExecution_eq.
  cbn [with_files collectionId execution].
  destruct (CollectionPgModel_getRecordCumulusId pg
              (deconstructCollectionId pg (collectionId record)) s) as [e|cid];
    [reflexivity|].
  rewrite !lookupExisting_eq. cbn [with_files granuleId snd].
  destruct (ExecutionPgModel_getRecordCumulusId pg (execution record) s) as [e|id];
    [destruct (instanceof_RecordDoesNotExist e); [|reflexivity]|];
    (destruct (GranulePgModel_get pg (granuleId record) cid s) as [e'|row];
     [destruct (instanceof_RecordDoesNotExist e'); [|reflexivity]|]);
    unfold isExistingRecordNewer, translateAndUpsert, bind, lookup_query,
           alreadyMigratedMessage, updateFailedMessage;
    cbn [with_files granuleId updatedAt]; rewrite Ht; reflexivity.
Qed.

(** C10. A record without a [files] attribute is handled as a record
    with an empty file list: the four file counters do not change, no
    file upsert is attempted (the run is the same whatever the file
    upsert would do, and the transaction is the granule migration
    alone), and the granule has the outcome, the counters and the
    destination state it would have with [files = []]. *)
Theorem C10_absent_files
    (record : DynamoRecord) (acc : option GranulesAndFilesMigrationResult)
    (loggingInterval : Z) (w : World store)
    (Habsent : files record = None)
    (Htranslate :
       translateApiGranuleToPostgresGranule pg (with_files (Some []) record) (db w)
         = translateApiGranuleToPostgresGranule pg record (db w)) :
  let before := default initializeGranulesAndFilesMigrationResult acc in
  exists w' after,
    migrateGranuleAndFilesViaTransaction pg rt record acc loggingInterval w
      = (w', inr after)
    /\ (total_dynamo_db_records (filesResult after)
          = total_dynamo_db_records (filesResult before)
        /\ migrated (filesResult after) = migrated (filesResult before)
        /\ skipped (filesResult after) = skipped (filesResult before)
        /\ failed (filesResult after) = failed (filesResult before))
    /\ (forall upsert,
          migrateGranuleAndFilesViaTransaction
            (with_FilePgModel_upsert upsert pg) rt record acc loggingInterval w
            = (w', inr after))
    /\ granuleAndFilesTransaction pg record (default [] (files record)) (db w)
         = (id <- migrateGranuleRecord pg record ;; ret []) (db w)
    /\ recordOutcome pg (with_files (Some []) record) w = recordOutcome pg record w
    /\ exists w'',
        migrateGranuleAndFilesViaTransaction
          pg rt (with_files (Some []) record) acc loggingInterval w = (w'', inr after)
        /\ db w'' = db w'.
Proof.
  intros before.
  pose proof (migrateGranuleRecord_with_files record (Some []) (db w) Htranslate) as Hsame.
  assert (Hbody : granuleAndFilesTransaction pg record (default [] (files record)) (db w)
                  = (id <- migrateGranuleRecord pg record ;; ret []) (db w))
    by (rewrite Habsent; reflexivity).
  assert (Hbody' : granuleAndFilesTransaction pg (with_files (Some []) record)
                     (default [] (files (with_files (Some []) record))) (db w)
                   = (id <- migrateGranuleRecord pg record ;; ret []) (db w)).
  { cbn [with_files files default]. unfold granuleAndFilesTransaction, bind.
    rewrite Hsame. reflexivity. }
  assert (Hcount : fileCount (with_files (Some []) record) = fileCount record)
    by (unfold fileCount; rewrite Habsent; reflexivity).
  assert (Hzero : fileCount record = 0) by (unfold fileCount; rewrite Habsent; reflexivity).
  assert (Hup : forall upsert,
             migrateGranuleAndFilesViaTransaction
               (with_FilePgModel_upsert upsert pg) rt record acc loggingInterval w
             = migrateGranuleAndFilesViaTransaction pg rt record acc loggingInterval w).
  { intros upsert. unfold migrateGranuleAndFilesViaTransaction, errorLine.
    rewrite Habsent. reflexivity. }
  rewrite !recordOutcome_eq, Hbody', Hbody.
  rewrite (migrateGranuleAndFilesViaTransaction_eq (with_files (Some []) record)).
  rewrite (migrateGranuleAndFilesViaTransaction_eq record) in *.
  rewrite !settleRecord_eq in *. rewrite Hbody', Hcount. rewrite Hbody in *.
  fold before in Hup |- *.
  unfold bind, ret in *.
  destruct (migrateGranuleRecord pg record (db w)) as [s1 [e|id]];
    [destruct (instanceof_RecordAlreadyMigrated e)|];
    (eexists; eexists; split; [reflexivity|];
     split; [unfold beginRecord; rewrite Hzero, Habsent; cbn; repeat split; lia|];
     split; [exact Hup|]; split; [reflexivity|]; split; [reflexivity|];
     eexists; unfold beginRecord; cbn [with_files files default];
     rewrite Habsent; split; reflexivity).
Qed.

End RecordProperties.

(** ** Runs over many records *)

Section RunProperties.
Context {store : Type} (pg : PgModels store) (rt : Runtime).

Lemma advanced_refl (r : MigrationResult) : advanced 0 0 r r.
Proof. unfold advanced. repeat split; lia. Qed.

Lemma advanced_trans (n1 m1 n2 m2 : Z) (a b c : MigrationResult) :
  advanced n1 m1 a b -> advanced n2 m2 b c -> advanced (n1 + n2) (m1 + m2) a c.
Proof.
  unfold advanced. intros (H1 & H2 & H3) (H4 & H5 & H6).
  repeat split; [lia | lia | congruence].
Qed.

Lemma nondecreasing_refl (r : MigrationResult) : nondecreasing r r.
Proof. unfold nondecreasing. repeat split; lia. Qed.

Lemma nondecreasing_trans (a b c : MigrationResult) :
  nondecreasing a b -> nondecreasing b c -> nondecreasing a c.
Proof.
  unfold nondecreasing. intros (H1 & H2 & H3 & H4 & H5) (H6 & H7 & H8 & H9 & H10).
  repeat split; try lia. congruence.
Qed.

Lemma beginRecord_advanced (record : DynamoRecord) (r : GranulesAndFilesMigrationResult) :
  advanced 1 0 (granulesResult r) (granulesResult (beginRecord record r))
  /\ advanced (fileCount record) 0 (filesResult r) (filesResult (beginRecord record r)).
Proof. unfold advanced, tally, fileCount. cbn. repeat split; lia. Qed.

Lemma beginRecord_nondecreasing
    (record : DynamoRecord) (r : GranulesAndFilesMigrationResult) :
  nondecreasing (granulesResult r) (granulesResult (beginRecord record r))
  /\ nondecreasing (filesResult r) (filesResult (beginRecord record r))
  /\ failed (granulesResult (beginRecord record r)) = failed (granulesResult r).
Proof.
  assert (Hn : 0 <= fileCount record) by (unfold fileCount; lia).
  unfold nondecreasing, fileCount in *. cbn. repeat split; lia.
Qed.

(** Settling a record always resolves.  It counts the record under one
    outcome, and writes one line to the error stream exactly when it
    counts the record as failed. *)
Lemma settleRecord_accounting
    (record : DynamoRecord) (r : GranulesAndFilesMigrationResult) (w : World store) :
  exists w' r' lines,
    settleRecord pg rt record r w = (w', inr r')
    /\ errorLog w' = (errorLog w ++ lines)%list
    /\ Z.of_nat (length lines) = failed (granulesResult r') - failed (granulesResult r)
    /\ Forall (fun line => exists e, line = errorLine rt record e) lines
    /\ advanced 0 1 (granulesResult r) (granulesResult r')
    /\ advanced 0 (fileCount record) (filesResult r) (filesResult r')
    /\ nondecreasing (granulesResult r) (granulesResult r')
    /\ nondecreasing (filesResult r) (filesResult r')
    /\ sourceOps w' = sourceOps w.
Proof.
  rewrite settleRecord_eq.
  assert (Hn : 0 <= fileCount record) by (unfold fileCount; lia).
  destruct (granuleAndFilesTransaction pg record (default [] (files record)) (db w))
    as [s' [e|us]]; [destruct (instanceof_RecordAlreadyMigrated e)|].
  - eexists w, _, []. split; [reflexivity|]. rewrite app_nil_r.
    unfold advanced, nondecreasing, tally. cbn.
    repeat split; try lia. constructor.
  - eexists _, _, [errorLine rt record e]. split; [reflexivity|].
    unfold advanced, nondecreasing, tally. cbn.
    repeat split; try lia. constructor; [eauto | constructor].
  - eexists _, _, []. split; [reflexivity|]. cbn [set_db errorLog]. rewrite app_nil_r.
    unfold advanced, nondecreasing, tally. cbn.
    repeat split; try lia. constructor.
Qed.

Lemma settleRecord_advanced
    (record : DynamoRecord) (r : GranulesAndFilesMigrationResult) (w : World store) :
  exists w' r',
    settleRecord pg rt record r w = (w', inr r')
    /\ advanced 0 1 (granulesResult r) (granulesResult r')
    /\ advanced 0 (fileCount record) (filesResult r) (filesResult r')
    /\ sourceOps w' = sourceOps w.
Proof.
  destruct (settleRecord_accounting record r w)
    as (w' & r' & lines & Hrun & _ & _ & _ & Hg & Hf & _ & _ & Hops).
  exists w', r'. auto.
Qed.

(** What one record adds to the error stream and to the counters. *)
Lemma wrapper_accounting
    (record : DynamoRecord) (r : GranulesAndFilesMigrationResult)
    (loggingInterval : Z) (w : World store) :
  exists w' r' lines,
    migrateGranuleAndFilesViaTransaction pg rt record (Some r) loggingInterval w
      = (w', inr r')
    /\ errorLog w' = (errorLog w ++ lines)%list
    /\ Z.of_nat (length lines) = failed (granulesResult r') - failed (granulesResult r)
    /\ Forall (fun line => exists e, line = errorLine rt record e) lines
    /\ advanced 1 1 (granulesResult r) (granulesResult r')
    /\ advanced (fileCount record) (fileCount record) (filesResult r) (filesResult r')
    /\ nondecreasing (granulesResult r) (granulesResult r')
    /\ nondecreasing (filesResult r) (filesResult r')
    /\ sourceOps w' = sourceOps w.
Proof.
  rewrite migrateGranuleAndFilesViaTransaction_eq. cbn [default from_option id].
  destruct (settleRecord_accounting record (beginRecord record r) w)
    as (w' & r' & lines & Hrun & Hlog & Hlen & Hall & Hg & Hf & Hng & Hnf & Hops).
  destruct (beginRecord_advanced record r) as [Hg0 Hf0].
  destruct (beginRecord_nondecreasing record r) as (Hng0 & Hnf0 & Hfail0).
  exists w', r', lines. split; [exact Hrun|]. split; [exact Hlog|].
  split; [rewrite <- Hfail0; exact Hlen|]. split; [exact Hall|].
  split; [exact (advanced_trans _ _ _ _ _ _ _ Hg0 Hg)|].
  split.
  { pose proof (advanced_trans _ _ _ _ _ _ _ Hf0 Hf) as H.
    replace (fileCount record + 0) with (fileCount record) in H by lia.
    replace (0 + fileCount record) with (fileCount record) in H by lia.
    exact H. }
  split; [exact (nondecreasing_trans _ _ _ Hng0 Hng)|].
  split; [exact (nondecreasing_trans _ _ _ Hnf0 Hnf) | exact Hops].
Qed.

Lemma wrapper_advanced
    (record : DynamoRecord) (r : GranulesAndFilesMigrationResult)
    (loggingInterval : Z) (w : World store) :
  exists w' r',
    migrateGranuleAndFilesViaTransaction pg rt record (Some r) loggingInterval w
      = (w', inr r')
    /\ advanced 1 1 (granulesResult r) (granulesResult r')
    /\ advanced (fileCount record) (fileCount record) (filesResult r) (filesResult r')
    /\ sourceOps w' = sourceOps w.
Proof.
  destruct (wrapper_accounting record r loggingInterval w)
    as (w' & r' & lines & Hrun & _ & _ & _ & Hg & Hf & _ & _ & Hops).
  exists w', r'. auto.
Qed.

Lemma totalFiles_app (xs ys : list DynamoRecord) :
  totalFiles (xs ++ ys) = totalFiles xs + totalFiles ys.
Proof.
  unfold totalFiles. induction xs as [|x xs IH]; cbn [app fold_right];
    [reflexivity | rewrite IH; lia].
Qed.

(** The query loop visits every record of the queue and always resolves:
    counters and error lines together. *)
Lemma migrateSearchQueue_accounting
    (records : list DynamoRecord) (r : GranulesAndFilesMigrationResult)
    (loggingInterval : Z) (w : World store) :
  exists w' r' lines,
    migrateSearchQueue pg rt records r loggingInterval w = (w', inr r')
    /\ errorLog w' = (errorLog w ++ lines)%list
    /\ Z.of_nat (length lines) = failed (granulesResult r') - failed (granulesResult r)
    /\ Forall (fun line =>
                 exists record e, In record records /\ line = errorLine rt record e)
              lines
    /\ advanced (Z.of_nat (length records)) (Z.of_nat (length records))
                (granulesResult r) (granulesResult r')
    /\ advanced (totalFiles records) (totalFiles records)
                (filesResult r) (filesResult r')
    /\ nondecreasing (granulesResult r) (granulesResult r')
    /\ nondecreasing (filesResult r) (filesResult r')
    /\ sourceOps w' = sourceOps w.
Proof.
  revert r w. induction records as [|record rest IH]; intros r w.
  - exists w, r, []. cbn. rewrite app_nil_r.
    repeat split; try lia; try constructor;
      try apply advanced_refl; apply nondecreasing_refl.
  - destruct (wrapper_accounting record r loggingInterval w)
      as (w1 & r1 & l1 & Hrun1 & Hlog1 & Hlen1 & Hall1 & Hg1 & Hf1 & Hng1 & Hnf1 & Hops1).
    destruct (IH {| granulesResult := granulesResult r1;
                    filesResult := filesResult r1 |} w1)
      as (w2 & r2 & l2 & Hrun2 & Hlog2 & Hlen2 & Hall2 & Hg2 & Hf2 & Hng2 & Hnf2 & Hops2).
    exists w2, r2, (l1 ++ l2)%list. split.
    + cbn [migrateSearchQueue]. unfold bind at 1. rewrite Hrun1. exact Hrun2.
    + cbn [granulesResult filesResult] in Hlen2, Hg2, Hf2, Hng2, Hnf2.
      split; [rewrite Hlog2, Hlog1; symmetry; apply List.app_assoc|].
      split; [rewrite length_app, Nat2Z.inj_add; lia|].
      split.
      { apply Forall_app. split.
        * eapply Forall_impl; [exact Hall1|].
          intros line [e He]. exists record, e. split; [left; reflexivity | exact He].
        * eapply Forall_impl; [exact Hall2|].
          intros line (rec & e & Hin & He). exists rec, e.
          split; [right; exact Hin | exact He]. }
      split.
      { replace (Z.of_nat (length (record :: rest)))
          with (1 + Z.of_nat (length rest)) by (cbn [length]; lia).
        exact (advanced_trans _ _ _ _ _ _ _ Hg1 Hg2). }
      split; [exact (advanced_trans _ _ _ _ _ _ _ Hf1 Hf2)|].
      split; [exact (nondecreasing_trans _ _ _ Hng1 Hng2)|].
      split; [exact (nondecreasing_trans _ _ _ Hnf1 Hnf2) | congruence].
Qed.

Lemma migrateSearchQueue_advanced
    (records : list DynamoRecord) (r : GranulesAndFilesMigrationResult)
    (loggingInterval : Z) (w : World store) :
  exists w' r',
    migrateSearchQueue pg rt records r loggingInterval w = (w', inr r')
    /\ advanced (Z.of_nat (length records)) (Z.of_nat (length records))
                (granulesResult r) (granulesResult r')
    /\ advanced (totalFiles records) (totalFiles records)
                (filesResult r) (filesResult r')
    /\ sourceOps w' = sourceOps w.
Proof.
  destruct (migrateSearchQueue_accounting records r loggingInterval w)
    as (w' & r' & lines & Hrun & _ & _ & _ & Hg & Hf & _ & _ & Hops).
  exists w', r'. auto.
Qed.

(** Recording a filter leaves the counters alone, and the query built
    does not depend on the result object. *)
Lemma selectQuery_result
    (table : string) (params : GranuleMigrationParams)
    (r : GranulesAndFilesMigrationResult) :
  let r' := fst (selectQuery table params r) in
  total_dynamo_db_records (granulesResult r') = total_dynamo_db_records (granulesResult r)
  /\ tally (granulesResult r') = tally (granulesResult r)
  /\ failed (granulesResult r') = failed (granulesResult r)
  /\ filesResult r' = filesResult r
  /\ snd (selectQuery table params r)
     = snd (selectQuery table params initializeGranulesAndFilesMigrationResult)
  /\ (filters (granulesResult r) = None ->
      filters (granulesResult r')
      = filters (granulesResult
                   (fst (selectQuery table params
                                     initializeGranulesAndFilesMigrationResult)))).
Proof.
  unfold selectQuery.
  destruct (truthy_value (param_granuleId params)) as [g|];
    [|destruct (truthy_value (param_collectionId params)) as [c|]];
    cbn; repeat split; auto.
Qed.

(** *** Schedules *)

Lemma scheduleWeight_app (b : bool) (wt : DynamoRecord -> Z) (xs ys : list Step) :
  scheduleWeight b wt (xs ++ ys) = scheduleWeight b wt xs + scheduleWeight b wt ys.
Proof.
  unfold scheduleWeight. induction xs as [|x xs IH]; cbn [app fold_right];
    [reflexivity | rewrite IH; lia].
Qed.

Lemma scheduleWeight_Permutation
    (b : bool) (wt : DynamoRecord -> Z) (xs ys : list Step) :
  Permutation xs ys -> scheduleWeight b wt xs = scheduleWeight b wt ys.
Proof.
  unfold scheduleWeight. induction 1; cbn [fold_right]; lia.
Qed.

Lemma scheduleWeight_items (b : bool) (wt : DynamoRecord -> Z) (items : list DynamoRecord) :
  scheduleWeight b wt (map Started items)
    = (if b then fold_right (fun r n => wt r + n) 0 items else 0)
  /\ scheduleWeight b wt (map Settled items)
    = (if b then 0 else fold_right (fun r n => wt r + n) 0 items).
Proof.
  unfold scheduleWeight.
  induction items as [|x xs [IH1 IH2]]; destruct b; cbn in *; split; lia.
Qed.

Lemma unit_weight (items : list DynamoRecord) :
  fold_right (fun (_ : DynamoRecord) n => 1 + n) 0 items = Z.of_nat (length items).
Proof. induction items as [|x xs IH]; cbn [fold_right length]; lia. Qed.

(** In a schedule of some records, the started records and the settled
    records weigh the same: what the records weigh. *)
Lemma scheduleOf_weight
    (b : bool) (wt : DynamoRecord -> Z) (items : list DynamoRecord)
    (schedule : list Step) :
  scheduleOf items schedule ->
  scheduleWeight b wt schedule = fold_right (fun r n => wt r + n) 0 items.
Proof.
  intros Hperm. rewrite <- (scheduleWeight_Permutation b wt _ _ Hperm).
  rewrite scheduleWeight_app.
  destruct (scheduleWeight_items b wt items) as [H1 H2]. rewrite H1, H2.
  destruct b; lia.
Qed.

(** The records a schedule settles are among its records. *)
Lemma scheduleOf_settled
    (items : list DynamoRecord) (schedule : list Step) (record : DynamoRecord) :
  scheduleOf items schedule -> In (Settled record) schedule -> In record items.
Proof.
  intros Hperm Hin. apply (Permutation_in _ (Permutation_sym Hperm)) in Hin.
  apply in_app_or in Hin. destruct Hin as [Hin|Hin]; apply in_map_iff in Hin;
    destruct Hin as (x & Hx & Hin); [discriminate | congruence].
Qed.

Lemma scheduleOf_nil : scheduleOf [] [].
Proof. unfold scheduleOf. cbn. constructor. Qed.

Lemma scheduleOf_app (xs ys : list DynamoRecord) (s1 s2 : list Step) :
  scheduleOf xs s1 -> scheduleOf ys s2 -> scheduleOf (xs ++ ys) (s1 ++ s2).
Proof.
  unfold scheduleOf. intros H1 H2. rewrite <- H1, <- H2, !map_app.
  rewrite <- !app_assoc. apply Permutation_app_head.
  rewrite !app_assoc. apply Permutation_app_tail. apply Permutation_app_comm.
Qed.

Lemma scheduleOf_Permutation (items : list DynamoRecord) (s1 s2 : list Step) :
  scheduleOf items s1 -> Permutation s1 s2 -> scheduleOf items s2.
Proof. unfold scheduleOf. intros H1 H2. rewrite H1. exact H2. Qed.

(** Any schedule runs to its end: every settled record is counted under
    one outcome, and a line is written for each that failed. *)
Lemma runSchedule_accounting
    (schedule : list Step) (r : GranulesAndFilesMigrationResult) (w : World store) :
  exists w' r' lines,
    runSchedule pg rt schedule r w = (w', inr r')
    /\ errorLog w' = (errorLog w ++ lines)%list
    /\ Z.of_nat (length lines) = failed (granulesResult r') - failed (granulesResult r)
    /\ Forall (fun line =>
                 exists record e,
                   In (Settled record) schedule /\ line = errorLine rt record e)
              lines
    /\ advanced (scheduleWeight true (fun _ => 1) schedule)
                (scheduleWeight false (fun _ => 1) schedule)
                (granulesResult r) (granulesResult r')
    /\ advanced (scheduleWeight true fileCount schedule)
                (scheduleWeight false fileCount schedule)
                (filesResult r) (filesResult r')
    /\ sourceOps w' = sourceOps w.
Proof.
  revert r w. induction schedule as [|[record|record] rest IH]; intros r w.
  - exists w, r, []. cbn. rewrite app_nil_r.
    repeat split; try lia; try constructor; apply advanced_refl.
  - destruct (IH (beginRecord record r) w)
      as (w2 & r2 & lines & Hrun & Hlog & Hlen & Hall & Hg & Hf & Hops).
    destruct (beginRecord_advanced record r) as [Hg0 Hf0].
    destruct (beginRecord_nondecreasing record r) as (_ & _ & Hfail0).
    exists w2, r2, lines. split; [exact Hrun|]. split; [exact Hlog|].
    split; [rewrite <- Hfail0; exact Hlen|].
    split.
    { eapply Forall_impl; [exact Hall|].
      intros line (rec & e & Hin & He). exists rec, e. split; [right; exact Hin | exact He]. }
    split; [exact (advanced_trans _ _ _ _ _ _ _ Hg0 Hg)|].
    split; [exact (advanced_trans _ _ _ _ _ _ _ Hf0 Hf) | exact Hops].
  - destruct (settleRecord_accounting record r w)
      as (w1 & r1 & l1 & Hrun1 & Hlog1 & Hlen1 & Hall1 & Hg1 & Hf1 & _ & _ & Hops1).
    destruct (IH r1 w1) as (w2 & r2 & l2 & Hrun2 & Hlog2 & Hlen2 & Hall2 & Hg2 & Hf2 & Hops2).
    exists w2, r2, (l1 ++ l2)%list. split.
    + cbn [runSchedule]. unfold bind at 1. rewrite Hrun1. exact Hrun2.
    + split; [rewrite Hlog2, Hlog1; symmetry; apply List.app_assoc|].
      split; [rewrite length_app, Nat2Z.inj_add; lia|].
      split.
      { apply Forall_app. split.
        * eapply Forall_impl; [exact Hall1|].
          intros line [e He]. exists record, e. split; [left; reflexivity | exact He].
        * eapply Forall_impl; [exact Hall2|].
          intros line (rec & e & Hin & He). exists rec, e.
          split; [right; exact Hin | exact He]. }
      split; [exact (advanced_trans _ _ _ _ _ _ _ Hg1 Hg2)|].
      split; [exact (advanced_trans _ _ _ _ _ _ _ Hf1 Hf2) | congruence].
Qed.

Lemma runSchedule_advanced
    (schedule : list Step) (r : GranulesAndFilesMigrationResult) (w : World store) :
  exists w' r',
    runSchedule pg rt schedule r w = (w', inr r')
    /\ advanced (scheduleWeight true (fun _ => 1) schedule)
                (scheduleWeight false (fun _ => 1) schedule)
                (granulesResult r) (granulesResult r')
    /\ advanced (scheduleWeight true fileCount schedule)
                (scheduleWeight false fileCount schedule)
                (filesResult r) (filesResult r')
    /\ sourceOps w' = sourceOps w.
Proof.
  destruct (runSchedule_accounting schedule r w)
    as (w' & r' & lines & Hrun & _ & _ & _ & Hg & Hf & Hops).
  exists w', r'. auto.
Qed.

(** A schedule of [processed]: all of them are seen and counted, and the
    lines written are lines of theirs. *)
Lemma runSchedule_scheduleOf
    (processed : list DynamoRecord) (schedule : list Step)
    (r : GranulesAndFilesMigrationResult) (w : World store) :
  scheduleOf processed schedule ->
  exists w' r' lines,
    runSchedule pg rt schedule r w = (w', inr r')
    /\ errorLog w' = (errorLog w ++ lines)%list
    /\ Z.of_nat (length lines) = failed (granulesResult r') - failed (granulesResult r)
    /\ Forall (fun line =>
                 exists record e, In record processed /\ line = errorLine rt record e)
              lines
    /\ advanced (Z.of_nat (length processed)) (Z.of_nat (length processed))
                (granulesResult r) (granulesResult r')
    /\ advanced (totalFiles processed) (totalFiles processed)
                (filesResult r) (filesResult r')
    /\ sourceOps w' = sourceOps w.
Proof.
  intros Hsched.
  destruct (runSchedule_accounting schedule r w)
    as (w' & r' & lines & Hrun & Hlog & Hlen & Hall & Hg & Hf & Hops).
  rewrite (scheduleOf_weight true _ _ _ Hsched) in Hg.
  rewrite (scheduleOf_weight true _ _ _ Hsched) in Hf.
  rewrite (scheduleOf_weight false _ _ _ Hsched) in Hg.
  rewrite (scheduleOf_weight false _ _ _ Hsched) in Hf.
  rewrite unit_weight in Hg. fold (totalFiles processed) in Hf.
  exists w', r', lines. split; [exact Hrun|]. split; [exact Hlog|].
  split; [exact Hlen|]. split; [|auto].
  eapply Forall_impl; [exact Hall|].
  intros line (rec & e & Hin & He). exists rec, e.
  split; [exact (scheduleOf_settled _ _ _ Hsched Hin) | exact He].
Qed.

Lemma oneByOne_scheduleOf (items : list DynamoRecord) : scheduleOf items (oneByOne items).
Proof.
  unfold scheduleOf, oneByOne. induction items as [|x xs IH]; cbn.
  - constructor.
  - constructor. etransitivity; [|constructor; exact IH].
    symmetry. apply Permutation_middle.
Qed.

(** *** [pMap] *)

Lemma extract_Some {A : Type} (k : nat) (l : list A) (x : A) (l' : list A) :
  extract k l = Some (x, l') -> Permutation l (x :: l').
Proof.
  unfold extract. destruct (l !! _) as [y|] eqn:Hl; [|discriminate].
  intros H. injection H as <- <-. apply delete_Permutation. exact Hl.
Qed.

Lemma extract_None {A : Type} (k : nat) (l : list A) : extract k l = None -> l = [].
Proof.
  unfold extract. destruct l as [|a l]; [reflexivity|].
  destruct ((a :: l) !! _) as [y|] eqn:Hl; [discriminate|]. intros _.
  apply lookup_ge_None in Hl.
  pose proof (Nat.mod_upper_bound k (length (a :: l))) as Hlt.
  cbn [length] in *. lia.
Qed.

(** Whatever the order of settlement, the pool settles the running
    records and starts and settles the pending ones, each once. *)
Lemma pool_Permutation (n : nat) (settles : list nat) (running pending : list DynamoRecord) :
  n = (length running + length pending)%nat ->
  (running = [] -> pending = []) ->
  Permutation (pool n settles running pending)
              (map Settled running ++ map Started pending ++ map Settled pending).
Proof.
  revert settles running pending.
  induction n as [|n IH]; intros settles running pending Hn Hrun.
  - destruct running as [|a running]; [|discriminate].
    rewrite (Hrun eq_refl). reflexivity.
  - cbn [pool].
    destruct (extract (hd O settles) running) as [[x running']|] eqn:Hx.
    + pose proof (extract_Some _ _ _ _ Hx) as Hp.
      pose proof (Permutation_length Hp) as Hlen. cbn [length] in Hlen.
      destruct pending as [|next pending'].
      * rewrite IH; [|cbn [length] in *; lia|reflexivity].
        rewrite Hp. cbn. rewrite !app_nil_r. reflexivity.
      * rewrite IH; [|rewrite length_app; cbn [length] in *; lia
                     |intros H; destruct running'; discriminate H].
        rewrite Hp, map_app. cbn [map app]. constructor.
        rewrite <- app_assoc. cbn [app].
        rewrite <- (Permutation_middle (map Settled running') _ (Started next)).
        constructor. apply Permutation_app_head. apply Permutation_middle.
    + apply extract_None in Hx. subst running. rewrite (Hrun eq_refl) in Hn.
      discriminate Hn.
Qed.

(** [pMap] with a concurrency of at least 1 resolves, having started and
    settled every item once; a concurrency below 1 is refused. *)
Lemma pMap_cases (concurrency : Z) (items : list DynamoRecord) (settles : list nat) :
  (concurrency < 1 /\ pMap rt concurrency items settles
                      = inl (pMap_TypeError rt concurrency))
  \/ (1 <= concurrency
      /\ exists schedule,
          pMap rt concurrency items settles = inr schedule
          /\ scheduleOf items schedule).
Proof.
  unfold pMap. destruct (Z.ltb_spec concurrency 1) as [Hc|Hc]; [left; auto|].
  right. split; [exact Hc|]. eexists. split; [reflexivity|].
  unfold scheduleOf. set (width := Z.to_nat concurrency).
  rewrite pool_Permutation.
  - rewrite <- (take_drop width items) at 1 2. rewrite !map_app.
    rewrite <- !app_assoc. apply Permutation_app_head.
    rewrite !app_assoc. apply Permutation_app_tail. apply Permutation_app_comm.
  - rewrite <- length_app, take_drop. reflexivity.
  - assert (Hw : (1 <= width)%nat) by (subst width; lia).
    destruct width as [|width']; [lia|].
    destruct items as [|a items]; [reflexivity | discriminate].
Qed.

(** Awaited on its own, the page migrator with a write concurrency of at
    least 1 resolves for every order of settlement. *)
Lemma migrateGranuleDynamoRecords_resolves
    (items : list DynamoRecord) (r : GranulesAndFilesMigrationResult)
    (loggingInterval writeConcurrency : Z) (settles : list nat) (w : World store) :
  1 <= writeConcurrency ->
  exists w' r' lines,
    await pg rt (migrateGranuleDynamoRecords rt items loggingInterval writeConcurrency
                                             settles) r w = (w', inr r')
    /\ errorLog w' = (errorLog w ++ lines)%list
    /\ Z.of_nat (length lines) = failed (granulesResult r') - failed (granulesResult r)
    /\ Forall (fun line =>
                 exists record e, In record items /\ line = errorLine rt record e)
              lines
    /\ advanced (Z.of_nat (length items)) (Z.of_nat (length items))
                (granulesResult r) (granulesResult r')
    /\ advanced (totalFiles items) (totalFiles items)
                (filesResult r) (filesResult r')
    /\ sourceOps w' = sourceOps w.
Proof.
  intros Hc. unfold migrateGranuleDynamoRecords.
  destruct (pMap_cases writeConcurrency items settles)
    as [[Hlt _]|(_ & schedule & Hrun & Hsched)]; [lia|].
  rewrite Hrun. cbn [await]. apply runSchedule_scheduleOf. exact Hsched.
Qed.

(** *** The parallel scan *)

(** A segment whose pages go through [pMap]: the records it processed
    are a prefix of the records it delivers, all of them when the segment
    ends without an error. *)
Lemma scanSegment_pMap
    (writeConcurrency : Z) (settles : nat -> list nat) (page : nat)
    (pages : list (list DynamoRecord)) (rejection : option error) :
  let run := scanSegment (fun p items => pMap rt writeConcurrency items (settles p))
                         page pages rejection in
  snd run = segmentEnding rt writeConcurrency
              {| segment_pages := pages; segment_rejection := rejection |}
  /\ exists processed,
      scheduleOf processed (fst run)
      /\ incl processed (concat pages)
      /\ (snd run = None -> processed = concat pages).
Proof.
  revert page. induction pages as [|items rest IH]; intros page; cbn zeta.
  - cbn. split; [reflexivity|]. exists []. split; [apply scheduleOf_nil|].
    split; [apply incl_nil_l | reflexivity].
  - cbn [scanSegment].
    unfold segmentEnding. cbn [segment_pages segment_rejection].
    destruct (pMap_cases writeConcurrency items (settles page))
      as [[Hlt Hrun]|(Hc & schedule & Hrun & Hsched)]; rewrite Hrun.
    + destruct (Z.ltb_spec writeConcurrency 1); [|lia]. cbn [fst snd].
      split; [reflexivity|]. exists []. split; [apply scheduleOf_nil|].
      split; [apply incl_nil_l | discriminate].
    + destruct (Z.ltb_spec writeConcurrency 1); [lia|].
      specialize (IH (S page)). cbn zeta in IH.
      destruct (scanSegment _ (S page) rest rejection) as [more ending].
      cbn [fst snd] in IH |- *. destruct IH as (Hend & processed & Hp & Hincl & Hall).
      split.
      * rewrite Hend. unfold segmentEnding. cbn [segment_pages segment_rejection].
        destruct rest; [reflexivity|].
        destruct (Z.ltb_spec writeConcurrency 1); [lia | reflexivity].
      * exists (items ++ processed)%list.
        split; [apply scheduleOf_app; assumption|].
        split; [cbn [concat]; apply incl_app_app; [apply incl_refl | exact Hincl]|].
        intros Hnone. cbn [concat]. rewrite (Hall Hnone). reflexivity.
Qed.

Lemma concat_insert_Permutation
    (segments : list (list Step)) (i : nat) (step : Step) (rest : list Step) :
  segments !! i = Some (step :: rest) ->
  Permutation (concat segments) (step :: concat (<[i := rest]> segments)).
Proof.
  revert i. induction segments as [|seg segments IH]; intros i Hi; [discriminate|].
  destruct i as [|i]; cbn in Hi |- *.
  - injection Hi as ->. reflexivity.
  - rewrite (IH i Hi). symmetry. apply Permutation_middle.
Qed.

(** Whatever the order, interleaving keeps every step of every segment. *)
Lemma interleave_Permutation (order : list nat) (segments : list (list Step)) :
  Permutation (interleave order segments) (concat segments).
Proof.
  revert segments. induction order as [|k order IH]; intros segments; [reflexivity|].
  cbn [interleave].
  destruct (segments !! (k mod length segments)%nat) as [[|step rest]|] eqn:Hk;
    try apply IH.
  rewrite IH. symmetry. apply concat_insert_Permutation. exact Hk.
Qed.

Lemma omap_cons_eq {A B : Type} (f : A -> option B) (x : A) (l : list A) :
  omap f (x :: l) = match f x with Some y => y :: omap f l | None => omap f l end.
Proof. reflexivity. Qed.

(** The segments of a scan, each through [pMap]. *)
Lemma segments_pMap
    (writeConcurrency : Z) (settles : nat -> nat -> list nat) (scans : list SegmentScan) :
  let runs :=
    imap (fun segment scan =>
            scanSegment (fun p items => pMap rt writeConcurrency items (settles segment p))
                        0 (segment_pages scan) (segment_rejection scan)) scans in
  omap snd runs = omap (segmentEnding rt writeConcurrency) scans
  /\ exists processed,
      scheduleOf processed (concat (map fst runs))
      /\ incl processed (concat (map (fun scan => concat (segment_pages scan)) scans))
      /\ (omap snd runs = [] ->
          processed = concat (map (fun scan => concat (segment_pages scan)) scans)).
Proof.
  revert settles. induction scans as [|scan scans IH]; intros settles; cbn zeta.
  - cbn. split; [reflexivity|]. exists []. split; [apply scheduleOf_nil|].
    split; [apply incl_nil_l | reflexivity].
  - rewrite imap_cons.
    specialize (IH (fun segment => settles (S segment))). cbn zeta in IH.
    change (imap
              ((fun segment scan0 =>
                  scanSegment
                    (fun p items => pMap rt writeConcurrency items (settles segment p))
                    0 (segment_pages scan0) (segment_rejection scan0)) ∘ S) scans)
      with (imap
              (fun segment scan0 =>
                 scanSegment
                   (fun p items => pMap rt writeConcurrency items (settles (S segment) p))
                   0 (segment_pages scan0) (segment_rejection scan0)) scans).
    destruct IH as (Hends & rest & Hrest & Hincl & Hall).
    destruct (scanSegment_pMap writeConcurrency (settles O) O
                (segment_pages scan) (segment_rejection scan))
      as (Hend & processed & Hp & Hin & Hfull).
    cbn zeta in Hend, Hp, Hin, Hfull.
    assert (Hscan : {| segment_pages := segment_pages scan;
                       segment_rejection := segment_rejection scan |} = scan)
      by (destruct scan; reflexivity).
    rewrite Hscan in Hend.
    rewrite !omap_cons_eq. cbn [map concat fst].
    split.
    + rewrite Hend, Hends. reflexivity.
    + exists (processed ++ rest)%list.
      split; [apply scheduleOf_app; assumption|].
      split; [apply incl_app_app; assumption|].
      destruct (snd (scanSegment _ O (segment_pages scan) (segment_rejection scan)))
        as [e|] eqn:Hs; [discriminate|].
      intros Hnone. rewrite (Hfull eq_refl), (Hall Hnone). reflexivity.
Qed.

(** *** The source operation of a run *)

(** The query or the scan of the entry point.  Every record it processed
    was delivered by the source, seen once and counted under one outcome,
    with a line for each that failed; without a rejection every delivered
    record was processed.  The operation rejects exactly when the source
    does, after the records were processed. *)
Lemma sourceRun_accounting
    (table : string) (params : GranuleMigrationParams) (eventLoop : EventLoop)
    (w : World store) :
  exists w' r processed lines,
    sourceRun pg rt table params eventLoop w
      = (w', match sourceRejection rt table params with
             | Some e => inl e
             | None => inr r
             end)
    /\ sourceOps w' = (sourceOps w ++ [sourceOperation table params])%list
    /\ filters (granulesResult r) = recordedFilters table params
    /\ incl processed (sourceSnapshot rt table params)
    /\ (sourceRejection rt table params = None ->
        processed = sourceSnapshot rt table params)
    /\ total_dynamo_db_records (granulesResult r) = Z.of_nat (length processed)
    /\ tally (granulesResult r) = Z.of_nat (length processed)
    /\ total_dynamo_db_records (filesResult r) = totalFiles processed
    /\ tally (filesResult r) = totalFiles processed
    /\ errorLog w' = (errorLog w ++ lines)%list
    /\ Z.of_nat (length lines) = failed (granulesResult r)
    /\ Forall (fun line =>
                 exists record e, In record processed /\ line = errorLine rt record e)
              lines.
Proof.
  unfold sourceRun, sourceSnapshot, sourceRejection, sourceOperation, recordedFilters.
  destruct (is_defined (param_granuleId params)
            || is_defined (param_collectionId params)).
  - unfold queryAndMigrateGranuleDynamoRecords. cbn [default from_option id].
    pose proof (selectQuery_result table params
                  initializeGranulesAndFilesMigrationResult) as Hsel.
    destruct (selectQuery table params initializeGranulesAndFilesMigrationResult)
      as [r0 q] eqn:Hq.
    cbn [fst snd] in Hsel |- *. destruct Hsel as (Htot & Htal & Hfail & Hfil & _ & _).
    unfold bind at 1. unfold issue at 1. cbv zeta. unfold bind at 1.
    match goal with
    | |- context [migrateSearchQueue pg rt ?rs ?r ?i ?w1] =>
        destruct (migrateSearchQueue_accounting rs r i w1)
          as (w2 & r2 & lines & Hrun & Hlog & Hlen & Hall
              & (Hg1 & Hg2 & Hg3) & (Hf1 & Hf2 & Hf3) & _ & _ & Hops)
    end.
    rewrite Hrun. cbn [errorLog sourceOps] in Hlog, Hops.
    exists w2, r2, (queue_items (dynamoQuery rt q)), lines.
    split; [destruct (queue_rejection (dynamoQuery rt q)); reflexivity|].
    split; [exact Hops|]. split; [exact Hg3|].
    split; [apply incl_refl|]. split; [reflexivity|].
    rewrite Hfil in Hf1, Hf2. unfold tally in *. cbn in *.
    repeat split; try lia; assumption.
  - unfold parallelScan. unfold bind at 1. unfold issue at 1. cbv zeta.
    unfold migrateGranuleDynamoRecords.
    set (wc := default 10 (param_writeConcurrency params)).
    set (scans := scanSegments rt (default 20 (param_parallelScanSegments params))
                    {| scan_TableName := table;
                       Limit := param_parallelScanLimit params |}).
    destruct (segments_pMap wc (settleOrder eventLoop) scans)
      as (Hends & processed & Hsched & Hincl & Hfull).
    cbv zeta in Hends, Hsched, Hfull.
    unfold bind at 1.
    match goal with
    | |- context [runSchedule pg rt ?schedule ?r ?w1] =>
        destruct (runSchedule_scheduleOf processed schedule r w1)
          as (w2 & r2 & lines & Hrun & Hlog & Hlen & Hall
              & (Hg1 & Hg2 & Hg3) & (Hf1 & Hf2 & Hf3) & Hops)
    end.
    { eapply scheduleOf_Permutation; [exact Hsched|].
      symmetry. apply interleave_Permutation. }
    rewrite Hrun, Hends. cbn [errorLog sourceOps] in Hlog, Hops.
    exists w2, r2, processed, lines.
    split; [destruct (omap (segmentEnding rt wc) scans); reflexivity|].
    split; [exact Hops|]. split; [exact Hg3|].
    split; [exact Hincl|].
    split.
    { intros Hnone. apply Hfull. rewrite Hends.
      destruct (omap (segmentEnding rt wc) scans); [reflexivity | discriminate]. }
    unfold tally in *. cbn in *. repeat split; try lia; assumption.
Qed.

(** The entry point once the environment is read: the error stream is
    opened, the source operation runs, and if it did not reject the
    stream is closed and the error file stored. *)
Lemma migrateGranulesAndFiles_eq
    (env : gmap string string) (params' : option GranuleMigrationParams)
    (testTimestamp : option string) (eventLoop : EventLoop) (w : World store)
    (bucket' table stack : string) :
  getRequiredEnvVar rt "system_bucket" env = inr bucket' ->
  getRequiredEnvVar rt "GranulesTable" env = inr table ->
  getRequiredEnvVar rt "stackName" env = inr stack ->
  migrateGranulesAndFiles pg rt env params' testTimestamp eventLoop w
  = match sourceRun pg rt table (default emptyParams params') eventLoop
            {| db := db w; errorLog := []; sourceOps := sourceOps w |} with
    | (w', inl e) => (w', inl e)
    | (w', inr r) =>
        (w', match closeStreams rt (errorLog w') with
             | inl e => inl e
             | inr _ =>
                 match storeErrors rt bucket'
                         (errorFilepath rt "granulesAndFiles" testTimestamp)
                         "granulesAndFiles" stack testTimestamp (errorLog w') with
                 | inl e => inl e
                 | inr _ => inr r
                 end
             end)
    end.
Proof.
  intros Hb Ht Hs. unfold migrateGranulesAndFiles.
  unfold bind at 1. unfold liftE at 1. rewrite Hb.
  unfold bind at 1. unfold liftE at 1. rewrite Ht.
  unfold bind at 1. unfold liftE at 1. rewrite Hs.
  unfold bind at 1. unfold createErrorFileWriteStream at 1.
  unfold bind at 1. fold (sourceRun pg rt table (default emptyParams params') eventLoop).
  destruct (sourceRun pg rt table (default emptyParams params') eventLoop _)
    as [w1 [e|r]]; [reflexivity|].
  unfold bind, closeErrorWriteStreams, ret.
  destruct (closeStreams rt (errorLog w1)); [reflexivity|].
  destruct (storeErrors _ _ _ _ _ _ _); reflexivity.
Qed.

(** The entry point, once the environment is read. *)
Lemma migrateGranulesAndFiles_run
    (env : gmap string string) (params' : option GranuleMigrationParams)
    (testTimestamp : option string) (eventLoop : EventLoop) (w : World store)
    (bucket' table stack : string) :
  getRequiredEnvVar rt "system_bucket" env = inr bucket' ->
  getRequiredEnvVar rt "GranulesTable" env = inr table ->
  getRequiredEnvVar rt "stackName" env = inr stack ->
  let params := default emptyParams params' in
  exists w' r processed,
    migrateGranulesAndFiles pg rt env params' testTimestamp eventLoop w
      = (w', match sourceRejection rt table params with
             | Some e => inl e
             | None =>
                 match closeStreams rt (errorLog w') with
                 | inl e => inl e
                 | inr _ =>
                     match storeErrors rt bucket'
                             (errorFilepath rt "granulesAndFiles" testTimestamp)
                             "granulesAndFiles" stack testTimestamp (errorLog w') with
                     | inl e => inl e
                     | inr _ => inr r
                     end
                 end
             end)
    /\ sourceOps w' = (sourceOps w ++ [sourceOperation table params])%list
    /\ filters (granulesResult r) = recordedFilters table params
    /\ incl processed (sourceSnapshot rt table params)
    /\ (sourceRejection rt table params = None ->
        processed = sourceSnapshot rt table params)
    /\ total_dynamo_db_records (granulesResult r) = Z.of_nat (length processed)
    /\ tally (granulesResult r) = Z.of_nat (length processed)
    /\ total_dynamo_db_records (filesResult r) = totalFiles processed
    /\ tally (filesResult r) = totalFiles processed
    /\ Z.of_nat (length (errorLog w')) = failed (granulesResult r)
    /\ Forall (fun line =>
                 exists record e, In record processed /\ line = errorLine rt record e)
              (errorLog w').
Proof.
  intros Hb Ht Hs params.
  rewrite (migrateGranulesAndFiles_eq env params' testTimestamp eventLoop w
             bucket' table stack Hb Ht Hs). fold params.
  destruct (sourceRun_accounting table params eventLoop
              {| db := db w; errorLog := []; sourceOps := sourceOps w |})
    as (w' & r & processed & lines & Hrun & Hops & Hfil & Hincl & Hfull
        & Hg1 & Hg2 & Hf1 & Hf2 & Hlog & Hlen & Hall).
  cbn [errorLog sourceOps app] in Hops, Hlog.
  rewrite Hrun. exists w', r, processed.
  split; [destruct (sourceRejection rt table params); reflexivity|].
  rewrite Hlog. auto 12.
Qed.

Lemma migrateGranulesAndFiles_env
    (env : gmap string string) (params' : option GranuleMigrationParams)
    (testTimestamp : option string) (eventLoop : EventLoop) (w w' : World store)
    (r : GranulesAndFilesMigrationResult) :
  migrateGranulesAndFiles pg rt env params' testTimestamp eventLoop w = (w', inr r) ->
  exists bucket' table stack,
    getRequiredEnvVar rt "system_bucket" env = inr bucket'
    /\ getRequiredEnvVar rt "GranulesTable" env = inr table
    /\ getRequiredEnvVar rt "stackName" env = inr stack.
Proof.
  unfold migrateGranulesAndFiles.
  unfold bind at 1. unfold liftE at 1.
  destruct (getRequiredEnvVar rt "system_bucket" env) as [e|b]; [discriminate|].
  unfold bind at 1. unfold liftE at 1.
  destruct (getRequiredEnvVar rt "GranulesTable" env) as [e|t]; [discriminate|].
  unfold bind at 1. unfold liftE at 1.
  destruct (getRequiredEnvVar rt "stackName" env) as [e|st]; [discriminate|].
  intros _. exists b, t, st. repeat split.
Qed.

(** A run that returned a result: nothing of the infrastructure failed,
    and every delivered record was processed. *)
Lemma migrateGranulesAndFiles_returned
    (env : gmap string string) (params' : option GranuleMigrationParams)
    (testTimestamp : option string) (eventLoop : EventLoop) (w w' : World store)
    (result : GranulesAndFilesMigrationResult) (table : string) :
  getRequiredEnvVar rt "GranulesTable" env = inr table ->
  migrateGranulesAndFiles pg rt env params' testTimestamp eventLoop w
    = (w', inr result) ->
  let records := sourceSnapshot rt table (default emptyParams params') in
  sourceRejection rt table (default emptyParams params') = None
  /\ total_dynamo_db_records (granulesResult result) = Z.of_nat (length records)
  /\ tally (granulesResult result) = Z.of_nat (length records)
  /\ total_dynamo_db_records (filesResult result) = totalFiles records
  /\ tally (filesResult result) = totalFiles records
  /\ Z.of_nat (length (errorLog w')) = failed (granulesResult result)
  /\ Forall (fun line =>
               exists record e, In record records /\ line = errorLine rt record e)
            (errorLog w')
  /\ closeStreams rt (errorLog w') = inr tt
  /\ forall bucket' stack,
      getRequiredEnvVar rt "system_bucket" env = inr bucket' ->
      getRequiredEnvVar rt "stackName" env = inr stack ->
      storeErrors rt bucket' (errorFilepath rt "granulesAndFiles" testTimestamp)
        "granulesAndFiles" stack testTimestamp (errorLog w') = inr tt.
Proof.
  intros Htable Hrun records.
  destruct (migrateGranulesAndFiles_env _ _ _ _ _ _ _ Hrun)
    as (b & t & st & Hb & Ht & Hs).
  assert (t = table) by congruence. subst t.
  destruct (migrateGranulesAndFiles_run env params' testTimestamp eventLoop w
              b table st Hb Ht Hs)
    as (w1 & r & processed & Hrun' & _ & _ & _ & Hfull & Hg1 & Hg2 & Hf1 & Hf2
        & Hlen & Hall).
  rewrite Hrun' in Hrun. injection Hrun as Hw Hout. subst w1.
  destruct (sourceRejection rt table (default emptyParams params')) as [e|];
    [discriminate|].
  destruct (closeStreams rt (errorLog w')) as [e|[]] eqn:Hclose; [discriminate|].
  destruct (storeErrors rt b (errorFilepath rt "granulesAndFiles" testTimestamp)
              "granulesAndFiles" st testTimestamp (errorLog w')) as [e|[]] eqn:Hstore;
    [discriminate|].
  injection Hout as <-. rewrite (Hfull eq_refl) in *. fold records in Hg1, Hg2, Hf1, Hf2, Hall.
  repeat split; try assumption.
  intros b' st' Hb' Hs'. assert (b' = b) by congruence. assert (st' = st) by congruence.
  subst. exact Hstore.
Qed.

(** An error that reaches the caller of the entry point is an error of
    the infrastructure, never of a record. *)
Lemma migrateGranulesAndFiles_rejections
    (env : gmap string string) (params' : option GranuleMigrationParams)
    (testTimestamp : option string) (eventLoop : EventLoop) (w w' : World store)
    (err : error) :
  migrateGranulesAndFiles pg rt env params' testTimestamp eventLoop w = (w', inl err) ->
  infrastructureError rt env testTimestamp err.
Proof.
  intros Hrun.
  destruct (getRequiredEnvVar rt "system_bucket" env) as [e|b] eqn:Hb.
  { unfold migrateGranulesAndFiles in Hrun. unfold bind at 1 in Hrun.
    unfold liftE at 1 in Hrun. rewrite Hb in Hrun. inversion Hrun; subst.
    eapply environment_unreadable; eauto. }
  destruct (getRequiredEnvVar rt "GranulesTable" env) as [e|t] eqn:Ht.
  { unfold migrateGranulesAndFiles in Hrun. unfold bind at 1 in Hrun.
    unfold liftE at 1 in Hrun. rewrite Hb in Hrun. unfold bind at 1 in Hrun.
    unfold liftE at 1 in Hrun. rewrite Ht in Hrun. inversion Hrun; subst.
    eapply environment_unreadable; eauto. }
  destruct (getRequiredEnvVar rt "stackName" env) as [e|st] eqn:Hs.
  { unfold migrateGranulesAndFiles in Hrun. unfold bind at 1 in Hrun.
    unfold liftE at 1 in Hrun. rewrite Hb in Hrun. unfold bind at 1 in Hrun.
    unfold liftE at 1 in Hrun. rewrite Ht in Hrun. unfold bind at 1 in Hrun.
    unfold liftE at 1 in Hrun. rewrite Hs in Hrun. inversion Hrun; subst.
    eapply environment_unreadable; eauto. }
  destruct (migrateGranulesAndFiles_run env params' testTimestamp eventLoop w
              b t st Hb Ht Hs) as (w1 & r & processed & Hrun' & _).
  rewrite Hrun' in Hrun. injection Hrun as Hw Hout. subst w1.
  unfold sourceRejection, sourceOperation in Hout.
  set (params := default emptyParams params') in *.
  destruct (is_defined (param_granuleId params)
            || is_defined (param_collectionId params)).
  - destruct (queue_rejection (dynamoQuery rt _)) as [e|] eqn:Hq.
    + injection Hout as <-. eapply query_rejected; eauto.
    + destruct (closeStreams rt (errorLog w')) as [e|u] eqn:Hclose.
      * injection Hout as <-. eapply stream_not_closed; eauto.
      * destruct (storeErrors rt b _ _ st testTimestamp (errorLog w')) as [e|u'] eqn:Hst;
          [|discriminate].
        injection Hout as <-. eapply errors_not_stored; eauto.
  - set (wc := default 10 (param_writeConcurrency params)) in *.
    set (n := default 20 (param_parallelScanSegments params)) in *.
    set (sp := {| scan_TableName := t; Limit := param_parallelScanLimit params |}) in *.
    destruct (omap (segmentEnding rt wc) (scanSegments rt n sp)) as [|e es] eqn:Hends.
    + destruct (closeStreams rt (errorLog w')) as [e|u] eqn:Hclose.
      * injection Hout as <-. eapply stream_not_closed; eauto.
      * destruct (storeErrors rt b _ _ st testTimestamp (errorLog w')) as [e|u'] eqn:Hst;
          [|discriminate].
        injection Hout as <-. eapply errors_not_stored; eauto.
    + injection Hout as <-. apply (scan_rejected rt env testTimestamp n sp wc);
        [discriminate|].
      rewrite <- Hends. clear Hends. unfold scanSegments.
      induction (seq 0 (Z.to_nat n)) as [|segment segments IH]; [constructor|].
      cbn [map]. rewrite omap_cons_eq.
      destruct (segmentEnding rt wc (dynamoScan rt n sp (Z.of_nat segment)))
        as [e'|] eqn:He; [|exact IH].
      constructor; [|exact IH].
      unfold segmentEnding in He.
      destruct (segment_pages (dynamoScan rt n sp (Z.of_nat segment))); [eauto|].
      destruct (Z.ltb_spec wc 1); [|eauto].
      right. split; [assumption | congruence].
Qed.

(** *** Counter conservation *)

(** C4. When a run of the entry point returns, the granule counters
    satisfy migrated + skipped + failed = total, and the total is the
    number of records of the source snapshot; the file counters satisfy
    the same equality, the total being the sum of the records' file
    counts.  This holds for every event loop, that is for every order in
    which the transactions of a page settle and the segments of a scan
    advance.  The equalities do not depend on the order in which the
    event loop interleaves the records: every schedule that starts and
    settles each record once adds the records' weight to the total and
    to the sum of the outcome counters. *)
Theorem C4_counter_conservation
    (env : gmap string string) (params' : option GranuleMigrationParams)
    (testTimestamp : option string) (eventLoop : EventLoop) (w w' : World store)
    (result : GranulesAndFilesMigrationResult) (table : string)
    (Htable : getRequiredEnvVar rt "GranulesTable" env = inr table)
    (Hrun : migrateGranulesAndFiles pg rt env params' testTimestamp eventLoop w
            = (w', inr result)) :
  let records := sourceSnapshot rt table (default emptyParams params') in
  (total_dynamo_db_records (granulesResult result) = Z.of_nat (length records)
   /\ migrated (granulesResult result) + skipped (granulesResult result)
      + failed (granulesResult result)
      = total_dynamo_db_records (granulesResult result)
   /\ total_dynamo_db_records (filesResult result) = totalFiles records
   /\ migrated (filesResult result) + skipped (filesResult result)
      + failed (filesResult result)
      = total_dynamo_db_records (filesResult result))
  /\ forall (items : list DynamoRecord) (schedule : list Step)
            (r0 : GranulesAndFilesMigrationResult) (w0 : World store),
      scheduleOf items schedule ->
      exists w1 r1,
        runSchedule pg rt schedule r0 w0 = (w1, inr r1)
        /\ total_dynamo_db_records (granulesResult r1)
           = total_dynamo_db_records (granulesResult r0) + Z.of_nat (length items)
        /\ tally (granulesResult r1)
           = tally (granulesResult r0) + Z.of_nat (length items)
        /\ total_dynamo_db_records (filesResult r1)
           = total_dynamo_db_records (filesResult r0) + totalFiles items
        /\ tally (filesResult r1) = tally (filesResult r0) + totalFiles items
        /\ (conserved (granulesResult r0) -> conserved (granulesResult r1))
        /\ (conserved (filesResult r0) -> conserved (filesResult r1)).
Proof.
  intros records. split.
  - destruct (migrateGranulesAndFiles_returned env params' testTimestamp eventLoop
                w w' result table Htable Hrun)
      as (_ & Hg1 & Hg2 & Hf1 & Hf2 & _).
    fold records in Hg1, Hg2, Hf1, Hf2.
    unfold tally in Hg2, Hf2. repeat split; lia.
  - intros items schedule r0 w0 Hsched.
    destruct (runSchedule_scheduleOf items schedule r0 w0 Hsched)
      as (w1 & r1 & lines & Hrun1 & _ & _ & _ & (Hg1 & Hg2 & _) & (Hf1 & Hf2 & _) & _).
    exists w1, r1. unfold conserved, tally in *. repeat split; try lia; exact Hrun1.
Qed.

(** *** Record-level errors *)

(** C5. When the collection of a record cannot be resolved (the lookup
    rejects with an error [e], RecordDoesNotExist for a missing row),
    that error leaves [migrateGranuleRecord] before anything is written,
    the record is counted as failed for the granule and its files, and
    one line is written to the error stream.  No record makes the
    wrapper, the query loop or the page migrator reject: they visit all
    their records, the page migrator for every order of settlement once
    [pMap] accepted its concurrency.  An error that reaches the caller
    of the entry point is an error of the infrastructure: of reading
    the environment, of a read of the source, of [pMap] refusing its
    concurrency, of closing the error stream or of storing the error
    file. *)
Theorem C5_missing_collection
    (record : DynamoRecord) (acc : option GranulesAndFilesMigrationResult)
    (loggingInterval : Z) (w : World store) (e : error)
    (Hlookup :
       CollectionPgModel_getRecordCumulusId pg
         (deconstructCollectionId pg (collectionId record)) (db w) = inl e)
    (Hkind : instanceof_RecordAlreadyMigrated e = false) :
  migrateGranuleRecord pg record (db w) = (db w, inl e)
  /\ recordOutcome pg record w = Failed e
  /\ (exists after,
        migrateGranuleAndFilesViaTransaction pg rt record acc loggingInterval w
          = ({| db := db w;
                errorLog := errorLog w ++ [errorLine rt record e];
                sourceOps := sourceOps w |}, inr after)
        /\ counted (Failed e) 1
             (granulesResult (default initializeGranulesAndFilesMigrationResult acc))
             (granulesResult after)
        /\ counted (Failed e) (Z.of_nat (length (default [] (files record))))
             (filesResult (default initializeGranulesAndFilesMigrationResult acc))
             (filesResult after))
  /\ (forall records r0 interval w0,
        exists w1 r1,
          migrateSearchQueue pg rt records r0 interval w0 = (w1, inr r1)
          /\ total_dynamo_db_records (granulesResult r1)
             = total_dynamo_db_records (granulesResult r0)
               + Z.of_nat (length records))
  /\ (forall items r0 interval concurrency settles w0,
        1 <= concurrency ->
        exists w1 r1,
          await pg rt (migrateGranuleDynamoRecords rt items interval concurrency settles)
                r0 w0 = (w1, inr r1)
          /\ total_dynamo_db_records (granulesResult r1)
             = total_dynamo_db_records (granulesResult r0)
               + Z.of_nat (length items))
  /\ (forall schedule r0 w0,
        exists w1 r1, runSchedule pg rt schedule r0 w0 = (w1, inr r1))
  /\ (forall env params' testTimestamp eventLoop w0 w1 err,
        migrateGranulesAndFiles pg rt env params' testTimestamp eventLoop w0
          = (w1, inl err) ->
        infrastructureError rt env testTimestamp err).
Proof.
  assert (Hm : migrateGranuleRecord pg record (db w) = (db w, inl e))
    by (rewrite migrateGranuleRecord_eq, Hlookup; reflexivity).
  split; [exact Hm|].
  pose proof (failed_record pg rt record acc loggingInterval w (db w) e
                (transaction_body_rejected pg _ _ _ _ _ Hm) Hkind) as [Ho Hw].
  split; [exact Ho|]. split; [exact Hw|].
  split; [|split; [|split]].
  - intros records r0 interval w0.
    destruct (migrateSearchQueue_advanced records r0 interval w0)
      as (w1 & r1 & Hrun & (Hg & _) & _).
    exists w1, r1. split; assumption.
  - intros items r0 interval concurrency settles w0 Hc.
    destruct (migrateGranuleDynamoRecords_resolves items r0 interval concurrency
                settles w0 Hc)
      as (w1 & r1 & lines & Hrun & _ & _ & _ & (Hg & _) & _).
    exists w1, r1. split; assumption.
  - intros schedule r0 w0.
    destruct (runSchedule_advanced schedule r0 w0) as (w1 & r1 & Hrun & _).
    exists w1, r1. exact Hrun.
  - intros env params' testTimestamp eventLoop w0 w1 err.
    apply migrateGranulesAndFiles_rejections.
Qed.

(** *** Routing *)





End RunProperties.
(** ** The relational destination *)

Section PgProperties.

Lemma Pg_lookupExecution (record : DynamoRecord) (s : Pg.store) :
  lookupExecution Pg.models record s = (s, inr (Pg_execution record s)).
Proof.
  rewrite lookupExecution_eq. cbn. unfold Pg.getExecutionCumulusId, Pg_execution, Pg.find.
  destruct (execution record) as [u|]; [|reflexivity].
  destruct (Pg.tbl_executions s !! u); reflexivity.
Qed.

Lemma Pg_lookupExisting (record : DynamoRecord) (cid : Z) (s : Pg.store) :
  lookupExisting Pg.models record cid s
    = (s, inr (Pg.tbl_granules s !! (granuleId record, cid))).
Proof.
  rewrite lookupExisting_eq. cbn. unfold Pg.getGranule, Pg.find.
  destruct (Pg.tbl_granules s !! (granuleId record, cid)); reflexivity.
Qed.

Lemma Pg_translate (record : DynamoRecord) (cid : Z) (s : Pg.store) :
  Pg.tbl_collections s !! Pg.deconstruct (collectionId record) = Some cid ->
  Pg.translate record s = inr (Pg_granule record cid).
Proof.
  intros Hc. unfold Pg.translate, Pg.getCollectionCumulusId, Pg.find. rewrite Hc.
  reflexivity.
Qed.

(** The granule migration against the relational destination. *)
Lemma Pg_migrateGranuleRecord (record : DynamoRecord) (s : Pg.store) :
  migrateGranuleRecord Pg.models record s =
  match Pg.tbl_collections s !! Pg.deconstruct (collectionId record) with
  | None => (s, inl (RecordDoesNotExist "Collection record does not exist"))
  | Some cid =>
      if isExistingRecordNewer (Pg.tbl_granules s !! (granuleId record, cid)) record
      then (s, inl (RecordAlreadyMigrated (alreadyMigratedMessage record)))
      else
        match new_Date (updatedAt record) with
        | InvalidDate => (s, inl Pg.invalid_timestamp)
        | TimeValue _ =>
            let id := match Pg.tbl_granules s !! (granuleId record, cid) with
                      | Some row => rec_cumulus_id row
                      | None => Pg.next_cumulus_id s
                      end in
            (fst (Pg.upsertGranule (Pg_granule record cid) (Pg_execution record s) s),
             if id =? 0
             then inl (PostgresUpdateFailed (updateFailedMessage record))
             else inr id)
        end
  end.
Proof.
  rewrite migrateGranuleRecord_eq, Pg_lookupExecution. cbn.
  unfold Pg.getCollectionCumulusId, Pg.find.
  destruct (Pg.tbl_collections s !! Pg.deconstruct (collectionId record))
    as [cid|] eqn:Hc; [|reflexivity].
  rewrite Pg_lookupExisting. cbn [snd].
  destruct (isExistingRecordNewer _ record); [reflexivity|].
  unfold translateAndUpsert, bind, lookup_query.
  cbn [translateApiGranuleToPostgresGranule Pg.models
       upsertGranuleWithExecutionJoinRecord].
  rewrite (Pg_translate _ _ _ Hc).
  unfold Pg.upsertGranule. cbn [fst granule_id collection_cumulus_id updated_at Pg_granule].
  destruct (new_Date (updatedAt record)); [|reflexivity].
  cbn [fst]. destruct (_ =? 0); reflexivity.
Qed.


(** The granule upsert writes the row under its natural key and leaves
    collections and executions alone. *)
Lemma Pg_upsertGranule_row
    (g : PostgresGranule) (exec : option Z) (s : Pg.store) (t : Z) :
  updated_at g = TimeValue t ->
  let s' := fst (Pg.upsertGranule g exec s) in
  Pg.tbl_collections s' = Pg.tbl_collections s
  /\ Pg.tbl_executions s' = Pg.tbl_executions s
  /\ exists row,
      Pg.tbl_granules s' !! (granule_id g, collection_cumulus_id g) = Some row
      /\ rec_updated_at row = updated_at g
      /\ rec_cumulus_id row
         = match Pg.tbl_granules s !! (granule_id g, collection_cumulus_id g) with
           | Some old => rec_cumulus_id old
           | None => Pg.next_cumulus_id s
           end.
Proof.
  intros Ht. unfold Pg.upsertGranule. rewrite Ht. cbn. repeat split.
  eexists. split; [apply lookup_insert_eq|]. split; reflexivity.
Qed.

(** A file upsert touches the file table only, and resolves for a file
    with its natural key. *)
Lemma Pg_migrateFileRecord (f : ApiFile) (id : Z) (s : Pg.store) :
  exists s' r,
    migrateFileRecord Pg.models f id s = (s', r)
    /\ Pg.tbl_collections s' = Pg.tbl_collections s
    /\ Pg.tbl_executions s' = Pg.tbl_executions s
    /\ Pg.tbl_granules s' = Pg.tbl_granules s
    /\ (has_natural_key f -> r = inr tt).
Proof.
  unfold migrateFileRecord. cbn [FilePgModel_upsert getBucket getKey Pg.models].
  unfold Pg.upsertFile, has_natural_key. cbn [pf_bucket pf_key].
  destruct (String.eqb_spec (default "" (bucket f)) "") as [Hb|Hb];
    [|destruct (String.eqb_spec (default "" (key f)) "") as [Hk|Hk]];
    cbn [orb]; eexists; eexists; (split; [reflexivity|]); repeat split;
    intros [? ?]; congruence.
Qed.

Lemma Pg_files_preserve
    (fs : list ApiFile) (id : Z) (s s' : Pg.store) (r : error + list unit) :
  Promise_all_map (fun file => migrateFileRecord Pg.models file id) fs s = (s', r) ->
  Pg.tbl_collections s' = Pg.tbl_collections s
  /\ Pg.tbl_executions s' = Pg.tbl_executions s
  /\ Pg.tbl_granules s' = Pg.tbl_granules s.
Proof.
  revert s r. induction fs as [|f rest IH]; intros s r H; cbn [Promise_all_map] in H.
  - inversion H; subst. repeat split.
  - unfold bind at 1 in H.
    destruct (Pg_migrateFileRecord f id s) as (s0 & r0 & Hf & H1 & H2 & H3 & _).
    rewrite Hf in H. destruct r0 as [e|u].
    + inversion H; subst. auto.
    + unfold bind at 1 in H.
      destruct (Promise_all_map (fun file => migrateFileRecord Pg.models file id) rest s0)
        as [s1 [e|us]] eqn:Hrest;
        inversion H; subst; destruct (IH _ _ Hrest) as (H4 & H5 & H6);
        repeat split; congruence.
Qed.

Lemma Pg_files_resolve (fs : list ApiFile) (id : Z) (s : Pg.store) :
  Forall has_natural_key fs ->
  exists s' us,
    Promise_all_map (fun file => migrateFileRecord Pg.models file id) fs s = (s', inr us).
Proof.
  intros Hall. revert s. induction Hall as [|f rest Hkey _ IH]; intros s.
  - exists s, []. reflexivity.
  - cbn [Promise_all_map]. unfold bind at 1.
    destruct (Pg_migrateFileRecord f id s) as (s0 & r0 & Hf & _ & _ & _ & Hok).
    rewrite Hf, (Hok Hkey). unfold bind at 1.
    destruct (IH s0) as (s' & us & Hrest). rewrite Hrest. eauto.
Qed.

(** After a committed transaction the destination holds the granule with
    the source's [updatedAt], which is a time, and still resolves its
    collection. *)
Lemma Pg_committed
    (record : DynamoRecord) (fs : list ApiFile) (s s1 : Pg.store) (us : list unit) :
  granuleAndFilesTransaction Pg.models record fs s = (s1, inr us) ->
  exists cid row,
    Pg.tbl_collections s !! Pg.deconstruct (collectionId record) = Some cid
    /\ Pg.tbl_collections s1 = Pg.tbl_collections s
    /\ Pg.tbl_granules s1 !! (granuleId record, cid) = Some row
    /\ rec_updated_at row = TimeValue (updatedAt record)
    /\ within_Date_range (updatedAt record).
Proof.
  unfold granuleAndFilesTransaction. unfold bind at 1.
  rewrite Pg_migrateGranuleRecord.
  destruct (Pg.tbl_collections s !! Pg.deconstruct (collectionId record))
    as [cid|] eqn:Hc; [|discriminate].
  destruct (isExistingRecordNewer _ record); [discriminate|].
  destruct (new_Date (updatedAt record)) as [t|] eqn:Hd; [|discriminate].
  apply new_Date_TimeValue in Hd as [-> Hr].
  cbv zeta. destruct (_ =? 0); [discriminate|].
  intros Hfiles. apply Pg_files_preserve in Hfiles. destruct Hfiles as (H1 & _ & H3).
  destruct (Pg_upsertGranule_row (Pg_granule record cid) (Pg_execution record s) s
              (updatedAt record) (new_Date_in_range _ Hr))
    as (H4 & _ & row & Hrow & Hat & _).
  exists cid, row. split; [reflexivity|]. split; [congruence|].
  split; [rewrite H3; exact Hrow|]. split; [|exact Hr].
  rewrite Hat. cbn. apply new_Date_in_range. exact Hr.
Qed.

(** A record whose granule the destination holds at least as new is
    answered with "already migrated", and nothing is written. *)
Lemma Pg_current_skips
    (record : DynamoRecord) (s : Pg.store) (cid : Z) (row : PostgresGranuleRecord)
    (t : Z) :
  Pg.tbl_collections s !! Pg.deconstruct (collectionId record) = Some cid ->
  Pg.tbl_granules s !! (granuleId record, cid) = Some row ->
  rec_updated_at row = TimeValue t ->
  within_Date_range (updatedAt record) ->
  updatedAt record <= t ->
  migrateGranuleRecord Pg.models record s
    = (s, inl (RecordAlreadyMigrated (alreadyMigratedMessage record))).
Proof.
  intros Hc Hrow Ht Hr Hle. rewrite Pg_migrateGranuleRecord, Hc, Hrow. cbn.
  rewrite Ht, (new_Date_in_range _ Hr). cbn.
  destruct (Z.leb_spec (updatedAt record) t); [reflexivity | lia].
Qed.

(** An older or absent row is overwritten with the source's [updatedAt]. *)
Lemma Pg_older_upserts (record : DynamoRecord) (s : Pg.store) (cid : Z) :
  Pg.tbl_collections s !! Pg.deconstruct (collectionId record) = Some cid ->
  identifiers_generated s ->
  within_Date_range (updatedAt record) ->
  (forall existing t,
      Pg.tbl_granules s !! (granuleId record, cid) = Some existing ->
      rec_updated_at existing = TimeValue t ->
      t < updatedAt record) ->
  exists s' id row,
    migrateGranuleRecord Pg.models record s = (s', inr id)
    /\ Pg.getGranule (granuleId record) cid s' = inr row
    /\ rec_updated_at row = TimeValue (updatedAt record)
    /\ rec_cumulus_id row = id
    /\ Pg.tbl_collections s' = Pg.tbl_collections s.
Proof.
  intros Hc [Hnext Hrows] Hr Hold. rewrite Pg_migrateGranuleRecord, Hc.
  destruct (Pg_upsertGranule_row (Pg_granule record cid) (Pg_execution record s) s
              (updatedAt record) (new_Date_in_range _ Hr))
    as (Hcoll & _ & row & Hrow & Hat & Hid).
  cbn [granule_id collection_cumulus_id updated_at Pg_granule] in Hrow, Hat, Hid.
  assert (Hnewer : isExistingRecordNewer
                     (Pg.tbl_granules s !! (granuleId record, cid)) record = false).
  { apply isExistingRecordNewer_false. intros existing t He Ht _.
    exact (Hold existing t He Ht). }
  rewrite Hnewer, (new_Date_in_range _ Hr). cbv zeta.
  assert (Hnz : match Pg.tbl_granules s !! (granuleId record, cid) with
                | Some old => rec_cumulus_id old
                | None => Pg.next_cumulus_id s
                end <> 0).
  { destruct (Pg.tbl_granules s !! (granuleId record, cid)) as [existing|] eqn:He.
    - exact (Hrows _ _ He).
    - lia. }
  apply Z.eqb_neq in Hnz. rewrite Hnz.
  eexists _, _, row. split; [reflexivity|].
  unfold Pg.getGranule, Pg.find. rewrite Hrow.
  rewrite (new_Date_in_range _ Hr) in Hat. repeat split; auto.
Qed.

(** Running a record against a destination that already holds it with
    the same [updatedAt] skips it and changes nothing. *)
Lemma Pg_rerun_skipped
    (rt : Runtime) (record : DynamoRecord)
    (acc : option GranulesAndFilesMigrationResult) (loggingInterval : Z)
    (w : World Pg.store) (cid : Z) (row : PostgresGranuleRecord) (t : Z) :
  Pg.tbl_collections (db w) !! Pg.deconstruct (collectionId record) = Some cid ->
  Pg.tbl_granules (db w) !! (granuleId record, cid) = Some row ->
  rec_updated_at row = TimeValue t ->
  within_Date_range (updatedAt record) ->
  updatedAt record <= t ->
  recordOutcome Pg.models record w = Skipped
  /\ exists after,
      migrateGranuleAndFilesViaTransaction Pg.models rt record acc loggingInterval w
        = (w, inr after)
      /\ counted Skipped 1
           (granulesResult (default initializeGranulesAndFilesMigrationResult acc))
           (granulesResult after)
      /\ counted Skipped (fileCount record)
           (filesResult (default initializeGranulesAndFilesMigrationResult acc))
           (filesResult after).
Proof.
  intros Hc Hrow Ht Hr Hle.
  pose proof (Pg_current_skips record (db w) cid row t Hc Hrow Ht Hr Hle) as Hm.
  eapply skipped_record; [apply transaction_body_rejected; exact Hm | reflexivity].
Qed.

(** C1 (amended). Conflict detection in [migrateGranuleRecord], for a
    source record whose [updatedAt] is a time a [Date] can hold, once
    the collection is resolved and the execution lookup has not aborted
    the record.  If the destination row found under (granuleId,
    collectionCumulusId) has [updated_at >= updatedAt] of the source, the
    migration rejects with RecordAlreadyMigrated and writes nothing: the
    destination is unchanged and the record is counted as skipped.  If
    the row is strictly older, or no row is found, the record goes on to
    the upsert of the translated granule and returns the generated
    identifier; on the relational destination the row's [updated_at] is
    then the source's [updatedAt]. *)
Theorem C1_newer_wins
    {store : Type} (pg : PgModels store) (rt : Runtime) (record : DynamoRecord)
    (acc : option GranulesAndFilesMigrationResult) (loggingInterval : Z)
    (w : World store) (cid : Z) (exec : option Z)
    (Hrange : within_Date_range (updatedAt record))
    (Hcollection :
       CollectionPgModel_getRecordCumulusId pg
         (deconstructCollectionId pg (collectionId record)) (db w) = inr cid)
    (Hexecution : snd (lookupExecution pg record (db w)) = inr exec) :
  (forall existing t,
      GranulePgModel_get pg (granuleId record) cid (db w) = inr existing ->
      rec_updated_at existing = TimeValue t ->
      updatedAt record <= t ->
      migrateGranuleRecord pg record (db w)
        = (db w,
           inl (RecordAlreadyMigrated
                  ("Granule " +:+ granuleId record +:+ " was already migrated, skipping")))
      /\ recordOutcome pg record w = Skipped
      /\ exists after,
          migrateGranuleAndFilesViaTransaction pg rt record acc loggingInterval w
            = (w, inr after))
  /\ ((exists msg,
         GranulePgModel_get pg (granuleId record) cid (db w)
           = inl (RecordDoesNotExist msg))
      \/ (exists existing t,
            GranulePgModel_get pg (granuleId record) cid (db w) = inr existing
            /\ rec_updated_at existing = TimeValue t
            /\ t < updatedAt record) ->
      migrateGranuleRecord pg record (db w) = translateAndUpsert pg record exec (db w)
      /\ forall g s' id ids,
          translateApiGranuleToPostgresGranule pg record (db w) = inr g ->
          upsertGranuleWithExecutionJoinRecord pg g exec (db w)
            = (s', inr (id :: ids)) ->
          id <> 0 ->
          migrateGranuleRecord pg record (db w) = (s', inr id))
  /\ (forall (source : DynamoRecord) (s : Pg.store) (collectionCumulusId : Z),
        within_Date_range (updatedAt source) ->
        Pg.tbl_collections s !! Pg.deconstruct (collectionId source)
          = Some collectionCumulusId ->
        identifiers_generated s ->
        (forall existing t,
            Pg.tbl_granules s !! (granuleId source, collectionCumulusId)
              = Some existing ->
            rec_updated_at existing = TimeValue t ->
            t < updatedAt source) ->
        exists s' id row,
          migrateGranuleRecord Pg.models source s = (s', inr id)
          /\ Pg.getGranule (granuleId source) collectionCumulusId s' = inr row
          /\ rec_updated_at row = TimeValue (updatedAt source)).
Proof.
  split; [|split].
  - intros existing t Hget Ht Hle.
    assert (Hge : Date_ge (rec_updated_at existing) (new_Date (updatedAt record)) = true).
    { rewrite Ht, (new_Date_in_range _ Hrange). cbn.
      destruct (Z.leb_spec (updatedAt record) t); [reflexivity | lia]. }
    pose proof (migrateGranuleRecord_skips pg record (db w) cid exec existing
                  Hcollection Hexecution Hget Hge) as Hm.
    split; [exact Hm|].
    destruct (skipped_record pg rt record acc loggingInterval w (db w) _
                (transaction_body_rejected pg _ _ _ _ _ Hm) eq_refl)
      as (Ho & after & Hrun & _).
    split; [exact Ho|]. exists after. exact Hrun.
  - intros Hcase.
    assert (Hpass : exists existing',
               snd (lookupExisting pg record cid (db w)) = inr existing'
               /\ isExistingRecordNewer existing' record = false).
    { rewrite lookupExisting_eq. cbn [snd].
      destruct Hcase as [[msg Hget]|(existing & t & Hget & Ht & Hlt)]; rewrite Hget.
      - exists None. split; reflexivity.
      - exists (Some existing). split; [reflexivity|].
        apply isExistingRecordNewer_false. intros row t' Hrow Ht' _.
        injection Hrow as <-. rewrite Ht in Ht'. injection Ht' as <-. exact Hlt. }
    destruct Hpass as (existing' & Hx & Hn).
    pose proof (migrateGranuleRecord_proceeds pg record (db w) cid exec existing'
                  Hcollection Hexecution Hx Hn) as Hm.
    split; [exact Hm|].
    intros g s' id ids Ht Hu Hid. rewrite Hm.
    exact (translateAndUpsert_returns pg _ _ _ _ _ _ _ Ht Hu Hid).
  - intros source s collectionCumulusId Hr Hc Hids Hold.
    destruct (Pg_older_upserts source s collectionCumulusId Hc Hids Hr Hold)
      as (s' & id & row & Hm & Hget & Hat & _).
    exists s', id, row. auto.
Qed.

(** Whatever the destination held before, a record that one run migrated
    is skipped by the next run, which changes nothing. *)
Lemma Pg_migrated_then_skipped
    (rt : Runtime) (record : DynamoRecord)
    (acc : option GranulesAndFilesMigrationResult) (loggingInterval : Z)
    (w : World Pg.store) :
  recordOutcome Pg.models record w = Migrated ->
  exists w1 r1 r2,
    migrateGranuleAndFilesViaTransaction Pg.models rt record acc loggingInterval w
      = (w1, inr r1)
    /\ counted Migrated 1
         (granulesResult (default initializeGranulesAndFilesMigrationResult acc))
         (granulesResult r1)
    /\ migrateGranuleAndFilesViaTransaction
         Pg.models rt record (Some r1) loggingInterval w1 = (w1, inr r2)
    /\ recordOutcome Pg.models record w1 = Skipped
    /\ counted Skipped 1 (granulesResult r1) (granulesResult r2).
Proof.
  intros Ho. rewrite recordOutcome_eq in Ho.
  destruct (granuleAndFilesTransaction Pg.models record (default [] (files record)) (db w))
    as [s2 [e|us]] eqn:Hbody;
    [destruct (instanceof_RecordAlreadyMigrated e); discriminate|].
  destruct (migrated_record Pg.models rt record acc loggingInterval w s2 us Hbody)
    as (_ & r1 & Hrun1 & Hg1 & _).
  destruct (Pg_committed record _ _ _ _ Hbody)
    as (cid & row & Hc & Hcoll & Hrow & Hat & Hr).
  assert (Hc1 : Pg.tbl_collections (db (set_db s2 w))
                !! Pg.deconstruct (collectionId record) = Some cid)
    by (cbn; rewrite Hcoll; exact Hc).
  destruct (Pg_rerun_skipped rt record (Some r1) loggingInterval (set_db s2 w) cid row
              (updatedAt record) Hc1 Hrow Hat Hr ltac:(lia))
    as (Ho2 & r2 & Hrun2 & Hg2 & _).
  exists (set_db s2 w), r1, r2. repeat split; try assumption; try apply Hg1; apply Hg2.
Qed.

(** C9. On the relational destination, a record whose collection
    exists, whose granule is absent, whose [updatedAt] is a time a [Date]
    can hold and whose files carry their natural key is migrated by the
    first run and skipped by the second run of the same record; the
    second run returns the world of the first run unchanged, so the
    destination state is the same after either run.  More generally,
    from any destination, a run with outcome migrated is followed by a
    run with outcome skipped that changes nothing. *)
Theorem C9_idempotence
    (rt : Runtime) (record : DynamoRecord)
    (acc : option GranulesAndFilesMigrationResult) (loggingInterval : Z)
    (w : World Pg.store) (cid : Z)
    (Hcollection :
       Pg.tbl_collections (db w) !! Pg.deconstruct (collectionId record) = Some cid)
    (Habsent : Pg.tbl_granules (db w) !! (granuleId record, cid) = None)
    (Hrange : within_Date_range (updatedAt record))
    (Hfiles : Forall has_natural_key (default [] (files record)))
    (Hids : 0 < Pg.next_cumulus_id (db w)) :
  (exists w1 r1 r2,
      migrateGranuleAndFilesViaTransaction Pg.models rt record acc loggingInterval w
        = (w1, inr r1)
      /\ recordOutcome Pg.models record w = Migrated
      /\ counted Migrated 1
           (granulesResult (default initializeGranulesAndFilesMigrationResult acc))
           (granulesResult r1)
      /\ migrateGranuleAndFilesViaTransaction
           Pg.models rt record (Some r1) loggingInterval w1 = (w1, inr r2)
      /\ recordOutcome Pg.models record w1 = Skipped
      /\ counted Skipped 1 (granulesResult r1) (granulesResult r2)
      /\ db (fst (migrateGranuleAndFilesViaTransaction
                    Pg.models rt record (Some r1) loggingInterval w1)) = db w1)
  /\ (forall (w0 : World Pg.store) (acc0 : option GranulesAndFilesMigrationResult),
        recordOutcome Pg.models record w0 = Migrated ->
        exists w1 r1 r2,
          migrateGranuleAndFilesViaTransaction Pg.models rt record acc0 loggingInterval w0
            = (w1, inr r1)
          /\ migrateGranuleAndFilesViaTransaction
               Pg.models rt record (Some r1) loggingInterval w1 = (w1, inr r2)
          /\ recordOutcome Pg.models record w1 = Skipped).
Proof.
  assert (Ho : recordOutcome Pg.models record w = Migrated).
  { assert (Hm : exists s1,
               migrateGranuleRecord Pg.models record (db w)
                 = (s1, inr (Pg.next_cumulus_id (db w)))).
    { rewrite Pg_migrateGranuleRecord, Hcollection, Habsent. cbn.
      rewrite (new_Date_in_range _ Hrange).
      destruct (Z.eqb_spec (Pg.next_cumulus_id (db w)) 0); [lia|]. eauto. }
    destruct Hm as [s1 Hm].
    destruct (Pg_files_resolve (default [] (files record)) (Pg.next_cumulus_id (db w)) s1
                Hfiles) as (s2 & us & Hf).
    rewrite recordOutcome_eq, (transaction_body_granule_ok Pg.models _ _ _ _ _ Hm), Hf.
    reflexivity. }
  split.
  - destruct (Pg_migrated_then_skipped rt record acc loggingInterval w Ho)
      as (w1 & r1 & r2 & Hrun1 & Hg1 & Hrun2 & Ho2 & Hg2).
    exists w1, r1, r2. repeat split; try assumption; try apply Hg1; try apply Hg2.
    rewrite Hrun2. reflexivity.
  - intros w0 acc0 Ho0.
    destruct (Pg_migrated_then_skipped rt record acc0 loggingInterval w0 Ho0)
      as (w1 & r1 & r2 & Hrun1 & _ & Hrun2 & Ho2 & _).
    exists w1, r1, r2. repeat split; assumption.
Qed.

End PgProperties.

(** ** The sample deployment *)

(** The scenarios of the specification, run on the relational destination. *)

(** G1 ([updatedAt = 100], two files, valid collection, no execution) is
    migrated with its two files. *)
Example scenario_G1_migrated :
  let run := migrateGranuleAndFilesViaTransaction Pg.models (Sample.runtime Sample.table)
               Sample.G1 None 100 Sample.world0 in
  snd run = inr {| granulesResult := {| total_dynamo_db_records := 1; migrated := 1;
                                        failed := 0; skipped := 0; filters := None |};
                   filesResult := {| total_dynamo_db_records := 2; migrated := 2;
                                     failed := 0; skipped := 0; filters := None |} |}
  /\ Pg.tbl_granules (db (fst run)) !! ("G1", 1)
     = Some {| rec_cumulus_id := 2; rec_granule_id := "G1";
               rec_collection_cumulus_id := 1; rec_updated_at := TimeValue 100 |}
  /\ is_defined (Pg.tbl_files (db (fst run)) !! ("protected", "G1.hdf")) = true
  /\ is_defined (Pg.tbl_files (db (fst run)) !! ("public", "G1.jpg")) = true
  /\ errorLog (fst run) = [].
Proof. vm_compute. repeat split. Qed.

(** G2 ([updatedAt = 50]) is skipped; the destination keeps 200. *)
Example scenario_G2_skipped :
  let run := migrateGranuleAndFilesViaTransaction Pg.models (Sample.runtime Sample.table)
               Sample.G2 None 100 Sample.world0 in
  fst run = Sample.world0
  /\ skipped (granulesResult (default initializeGranulesAndFilesMigrationResult
                                      (match snd run with inr r => Some r | inl _ => None end)))
     = 1
  /\ (rec_updated_at <$> Pg.tbl_granules (db (fst run)) !! ("G2", 1))
     = Some (TimeValue 200).
Proof. vm_compute. repeat split. Qed.

(** G3 refers to a missing collection: failed, one entry in the error log. *)
Example scenario_G3_failed :
  let run := migrateGranuleAndFilesViaTransaction Pg.models (Sample.runtime Sample.table)
               Sample.G3 None 100 Sample.world0 in
  snd run = inr {| granulesResult := {| total_dynamo_db_records := 1; migrated := 0;
                                        failed := 1; skipped := 0; filters := None |};
                   filesResult := {| total_dynamo_db_records := 1; migrated := 0;
                                     failed := 1; skipped := 0; filters := None |} |}
  /\ db (fst run) = Sample.store0
  /\ errorLog (fst run)
     = ["Could not create granule record and file records in RDS for DynamoDB Granule granuleId: G3 with files [{bucket:protected,key:G3.hdf}], Cause: RecordDoesNotExist: Collection record does not exist"].
Proof. vm_compute. repeat split. Qed.

(** G4 refers to an execution the destination does not have and has no
    [files]: it is migrated, no execution is joined to it, and the file
    counters stay at zero. *)
Example scenario_G4_without_execution :
  let run := migrateGranuleAndFilesViaTransaction Pg.models (Sample.runtime Sample.table)
               Sample.G4 None 100 Sample.world0 in
  snd run = inr {| granulesResult := {| total_dynamo_db_records := 1; migrated := 1;
                                        failed := 0; skipped := 0; filters := None |};
                   filesResult := initialMigrationResult |}
  /\ is_defined (Pg.tbl_granules (db (fst run)) !! ("G4", 1)) = true
  /\ Pg.tbl_granules_executions (db (fst run)) = [(1, 5)]
  /\ Pg.tbl_files (db (fst run)) = Pg.tbl_files Sample.store0.
Proof. vm_compute. repeat split. Qed.

(** G5 carries a file the destination refuses after the granule and the
    first file were written: neither the granule nor any file remains. *)
Example scenario_G5_rolled_back :
  let run := migrateGranuleAndFilesViaTransaction Pg.models (Sample.runtime Sample.table)
               Sample.G5 None 100 Sample.world0 in
  db (fst run) = Sample.store0
  /\ Pg.tbl_granules (db (fst run)) !! ("G5", 1) = None
  /\ Pg.tbl_files (db (fst run)) !! ("protected", "G5.hdf") = None
  /\ failed (filesResult (default initializeGranulesAndFilesMigrationResult
                                  (match snd run with inr r => Some r | inl _ => None end)))
     = 2.
Proof. vm_compute. repeat split. Qed.


(** The claim of C1 as it is stated fails for a source record whose
    [updatedAt] lies outside the range of [Date]: the destination holds G2
    at 200, the source's -8640000000000001 is below it, and yet the
    migration does not answer "already migrated", because
    [new Date(record.updatedAt)] is Invalid Date and the comparison of
    line 110 is false. *)
Lemma C1_updatedAt_outside_Date_range :
  ~ skips_at_or_after Pg.models Sample.G2_beforeTime Sample.store0.
Proof.
  intros H.
  destruct (H 1 {| rec_cumulus_id := 1; rec_granule_id := "G2";
                   rec_collection_cumulus_id := 1;
                   rec_updated_at := TimeValue 200 |} 200
              ltac:(vm_compute; reflexivity) ltac:(vm_compute; reflexivity)
              eq_refl ltac:(vm_compute; discriminate)) as [msg Hskip].
  vm_compute in Hskip. discriminate Hskip.
Qed.

(** G2 is held by the destination at 200 and arrives with 50. *)
Lemma C1_newer_wins_witness :
  GranulePgModel_get Pg.models (granuleId Sample.G2) 1 Sample.store0
    = inr {| rec_cumulus_id := 1; rec_granule_id := "G2";
             rec_collection_cumulus_id := 1; rec_updated_at := TimeValue 200 |}
  /\ migrateGranuleRecord Pg.models Sample.G2 Sample.store0
     = (Sample.store0,
        inl (RecordAlreadyMigrated "Granule G2 was already migrated, skipping")).
Proof.
  split; [reflexivity|].
  refine (proj1 (proj1 (C1_newer_wins Pg.models (Sample.runtime Sample.table) Sample.G2
                          None 100 Sample.world0 1 (Some 5) _ _ _)
                   {| rec_cumulus_id := 1; rec_granule_id := "G2";
                      rec_collection_cumulus_id := 1;
                      rec_updated_at := TimeValue 200 |} 200 _ _ _)).
  - vm_compute. discriminate.
  - vm_compute. reflexivity.
  - vm_compute. reflexivity.
  - vm_compute. reflexivity.
  - reflexivity.
  - vm_compute. discriminate.
Defined.

(** A full scan over the five sample records, in 20 segments. *)
Lemma C4_counter_conservation_witness :
  exists result,
    snd (migrateGranulesAndFiles Pg.models (Sample.runtime Sample.table) Sample.env
           None None Sample.eventLoop Sample.world0) = inr result
    /\ total_dynamo_db_records (granulesResult result) = 5
    /\ migrated (granulesResult result) + skipped (granulesResult result)
       + failed (granulesResult result)
       = total_dynamo_db_records (granulesResult result)
    /\ migrated (filesResult result) + skipped (filesResult result)
       + failed (filesResult result)
       = total_dynamo_db_records (filesResult result).
Proof.
  eexists. split; [vm_compute; reflexivity|].
  match goal with
  | |- context [total_dynamo_db_records (granulesResult ?r) = 5] =>
      pose proof (proj1 (C4_counter_conservation
                           Pg.models (Sample.runtime Sample.table) Sample.env None None
                           Sample.eventLoop Sample.world0
                           (fst (migrateGranulesAndFiles
                                   Pg.models (Sample.runtime Sample.table) Sample.env
                                   None None Sample.eventLoop Sample.world0))
                           r "GranulesTable" eq_refl
                           ltac:(vm_compute; reflexivity)))
        as (Htotal & Hgranules & _ & Hfiles)
  end.
  split; [exact Htotal|]. split; [exact Hgranules | exact Hfiles].
Defined.

(** G3 refers to a collection the destination does not have. *)
Lemma C5_missing_collection_witness :
  CollectionPgModel_getRecordCumulusId Pg.models
    (deconstructCollectionId Pg.models (collectionId Sample.G3)) Sample.store0
    = inl (RecordDoesNotExist "Collection record does not exist")
  /\ migrateGranuleRecord Pg.models Sample.G3 Sample.store0
     = (Sample.store0, inl (RecordDoesNotExist "Collection record does not exist"))
  /\ recordOutcome Pg.models Sample.G3 Sample.world0
     = Failed (RecordDoesNotExist "Collection record does not exist").
Proof.
  split; [vm_compute; reflexivity|].
  pose proof (C5_missing_collection Pg.models (Sample.runtime Sample.table) Sample.G3
                None 100 Sample.world0
                (RecordDoesNotExist "Collection record does not exist")
                ltac:(vm_compute; reflexivity) eq_refl) as (Hm & Ho & _).
  split; [exact Hm | exact Ho].
Defined.


(** G4 refers to an execution the destination does not have. *)
Lemma C7_execution_not_found_witness :
  ExecutionPgModel_getRecordCumulusId Pg.models (execution Sample.G4) Sample.store0
    = inl (RecordDoesNotExist "Execution record does not exist")
  /\ recordOutcome Pg.models Sample.G4 Sample.world0 = Migrated.
Proof.
  split; [vm_compute; reflexivity|].
  pose proof (proj1 (C7_execution_not_found
                       Pg.models (Sample.runtime Sample.table) Sample.G4 None 100
                       Sample.world0 1 ltac:(vm_compute; reflexivity))
                "Execution record does not exist" ltac:(vm_compute; reflexivity))
    as [_ Hgo].
  destruct (Hgo None ltac:(vm_compute; reflexivity) eq_refl) as [_ Hmigrated].
  exact (proj1 (Hmigrated (Pg_granule Sample.G4 1)
                  (fst (Pg.upsertGranule (Pg_granule Sample.G4 1) None Sample.store0))
                  2 []
                  (fst (Pg.upsertGranule (Pg_granule Sample.G4 1) None Sample.store0))
                  []
                  ltac:(vm_compute; reflexivity) ltac:(vm_compute; reflexivity)
                  ltac:(discriminate) ltac:(reflexivity))).
Defined.

(** G1 against a destination whose granule upsert affects no row. *)
Lemma C8_update_failed_witness :
  upsertGranuleWithExecutionJoinRecord Pg.rejecting (Pg_granule Sample.G1 1) None
    Sample.store0 = (Sample.store0, inr [])
  /\ migrateGranuleRecord Pg.rejecting Sample.G1 Sample.store0
     = (Sample.store0,
        inl (PostgresUpdateFailed
               "Upsert for granule G1 returned no rows. Record was not updated in the Postgres table.")).
Proof.
  split; [reflexivity|].
  exact (proj1 (C8_update_failed Pg.rejecting (Sample.runtime Sample.table) Sample.G1
                  None 100 Sample.world0 1 None None (Pg_granule Sample.G1 1)
                  Sample.store0
                  ltac:(vm_compute; reflexivity) ltac:(vm_compute; reflexivity)
                  ltac:(vm_compute; reflexivity) eq_refl
                  ltac:(vm_compute; reflexivity) eq_refl)).
Defined.

(** G1 migrated twice in a row. *)
Lemma C9_idempotence_witness :
  exists w1 r1 r2,
    migrateGranuleAndFilesViaTransaction Pg.models (Sample.runtime Sample.table)
      Sample.G1 None 100 Sample.world0 = (w1, inr r1)
    /\ recordOutcome Pg.models Sample.G1 Sample.world0 = Migrated
    /\ migrateGranuleAndFilesViaTransaction Pg.models (Sample.runtime Sample.table)
         Sample.G1 (Some r1) 100 w1 = (w1, inr r2)
    /\ recordOutcome Pg.models Sample.G1 w1 = Skipped.
Proof.
  destruct (C9_idempotence (Sample.runtime Sample.table) Sample.G1 None 100
              Sample.world0 1
              ltac:(vm_compute; reflexivity) ltac:(vm_compute; reflexivity)
              ltac:(vm_compute; discriminate)
              ltac:(repeat constructor; vm_compute; discriminate)
              ltac:(vm_compute; reflexivity))
    as [(w1 & r1 & r2 & Hfirst & Ho1 & _ & Hsecond & Ho2 & _) _].
  exists w1, r1, r2. repeat split; assumption.
Defined.

(** G4 has no [files] attribute. *)
Lemma C10_absent_files_witness :
  files Sample.G4 = None
  /\ exists w' after,
      migrateGranuleAndFilesViaTransaction Pg.models (Sample.runtime Sample.table)
        Sample.G4 None 100 Sample.world0 = (w', inr after)
      /\ total_dynamo_db_records (filesResult after) = 0
      /\ migrated (filesResult after) = 0.
Proof.
  split; [reflexivity|].
  destruct (C10_absent_files Pg.models (Sample.runtime Sample.table) Sample.G4 None 100
              Sample.world0 eq_refl ltac:(reflexivity))
    as (w' & after & Hrun & (Htotal & Hmigrated & _) & _).
  exists w', after. split; [exact Hrun|]. split; [exact Htotal | exact Hmigrated].
Defined.

(** * Further properties of the migrators *)

Section FurtherRecordProperties.
Context {store : Type} (pg : PgModels store) (rt : Runtime).

(** [migrateGranuleRecord], with the execution as it is handed on. *)
Lemma migrateGranuleRecord_cases (record : DynamoRecord) (s : store) :
  migrateGranuleRecord pg record s =
  match CollectionPgModel_getRecordCumulusId pg
          (deconstructCollectionId pg (collectionId record)) s with
  | inl e => (s, inl e)
  | inr cid =>
      match ExecutionPgModel_getRecordCumulusId pg (execution record) s with
      | inl e =>
          if instanceof_RecordDoesNotExist e then
            match snd (lookupExisting pg record cid s) with
            | inl e' => (s, inl e')
            | inr existing =>
                if isExistingRecordNewer existing record
                then (s, inl (RecordAlreadyMigrated (alreadyMigratedMessage record)))
                else translateAndUpsert pg record None s
            end
          else (s, inl e)
      | inr id =>
          match snd (lookupExisting pg record cid s) with
          | inl e' => (s, inl e')
          | inr existing =>
              if isExistingRecordNewer existing record
              then (s, inl (RecordAlreadyMigrated (alreadyMigratedMessage record)))
              else translateAndUpsert pg record (Some id) s
          end
      end
  end.
Proof.
  rewrite migrateGranuleRecord_eq, lookupExecution_eq. cbn [snd].
  destruct (CollectionPgModel_getRecordCumulusId pg
              (deconstructCollectionId pg (collectionId record)) s) as [e|cid];
    [reflexivity|].
  destruct (ExecutionPgModel_getRecordCumulusId pg (execution record) s) as [e|id];
    [destruct (instanceof_RecordDoesNotExist e)|]; reflexivity.
Qed.

Lemma translateAndUpsert_cases (record : DynamoRecord) (exec : option Z) (s : store) :
  translateAndUpsert pg record exec s =
  match translateApiGranuleToPostgresGranule pg record s with
  | inl e => (s, inl e)
  | inr g =>
      match upsertGranuleWithExecutionJoinRecord pg g exec s with
      | (s1, inl e) => (s1, inl e)
      | (s1, inr []) => (s1, inl (PostgresUpdateFailed (updateFailedMessage record)))
      | (s1, inr (id :: _)) =>
          if id =? 0
          then (s1, inl (PostgresUpdateFailed (updateFailedMessage record)))
          else (s1, inr id)
      end
  end.
Proof.
  unfold translateAndUpsert, bind, lookup_query.
  destruct (translateApiGranuleToPostgresGranule pg record s) as [e|g]; [reflexivity|].
  destruct (upsertGranuleWithExecutionJoinRecord pg g exec s) as [s1 [e|[|id ids]]];
    try reflexivity.
  destruct (id =? 0); reflexivity.
Qed.

(** X1. An identifier that [migrateGranuleRecord] returns is never 0 and
    is the first identifier the upsert reported, for the granule the
    translator built from this record and with the execution identifier
    the lookup found (or none); the collection was resolved and the
    destination row, if any, did not pass the comparison of line 110:
    where its [updated_at] and the source's [updatedAt] are both times,
    the row was strictly older than the source. *)
Theorem migrateGranuleRecord_resolved
    (record : DynamoRecord) (s s' : store) (id : Z)
    (Hrun : migrateGranuleRecord pg record s = (s', inr id)) :
  id <> 0
  /\ exists cid existing g ids,
      CollectionPgModel_getRecordCumulusId pg
        (deconstructCollectionId pg (collectionId record)) s = inr cid
      /\ snd (lookupExisting pg record cid s) = inr existing
      /\ isExistingRecordNewer existing record = false
      /\ (forall row t,
            existing = Some row -> rec_updated_at row = TimeValue t ->
            within_Date_range (updatedAt record) -> t < updatedAt record)
      /\ translateApiGranuleToPostgresGranule pg record s = inr g
      /\ upsertGranuleWithExecutionJoinRecord pg g (resolvedExecution pg record s) s
         = (s', inr (id :: ids)).
Proof.
  rewrite migrateGranuleRecord_cases in Hrun. unfold resolvedExecution.
  destruct (CollectionPgModel_getRecordCumulusId pg
              (deconstructCollectionId pg (collectionId record)) s) as [e|cid];
    [discriminate|].
  assert (Hgo : forall exec,
             match snd (lookupExisting pg record cid s) with
             | inl e' => (s, inl e')
             | inr existing =>
                 if isExistingRecordNewer existing record
                 then (s, inl (RecordAlreadyMigrated (alreadyMigratedMessage record)))
                 else translateAndUpsert pg record exec s
             end = (s', inr id) ->
             id <> 0
             /\ exists existing g ids,
                 snd (lookupExisting pg record cid s) = inr existing
                 /\ isExistingRecordNewer existing record = false
                 /\ (forall row t,
                       existing = Some row -> rec_updated_at row = TimeValue t ->
                       within_Date_range (updatedAt record) -> t < updatedAt record)
                 /\ translateApiGranuleToPostgresGranule pg record s = inr g
                 /\ upsertGranuleWithExecutionJoinRecord pg g exec s
                    = (s', inr (id :: ids))).
  { intros exec H.
    destruct (snd (lookupExisting pg record cid s)) as [e'|existing] eqn:Hx;
      [discriminate|].
    destruct (isExistingRecordNewer existing record) eqn:Hn; [discriminate|].
    rewrite translateAndUpsert_cases in H.
    destruct (translateApiGranuleToPostgresGranule pg record s) as [e|g] eqn:Ht;
      [discriminate|].
    destruct (upsertGranuleWithExecutionJoinRecord pg g exec s)
      as [s1 [e|[|id0 ids]]] eqn:Hu; try discriminate.
    destruct (Z.eqb_spec id0 0); [discriminate|].
    inversion H; subst. split; [assumption|].
    exists existing, g, ids.
    split; [reflexivity|]. split; [exact Hn|].
    split; [|split; [reflexivity | exact Hu]].
    apply isExistingRecordNewer_false. exact Hn. }
  destruct (ExecutionPgModel_getRecordCumulusId pg (execution record) s) as [e|eid].
  - destruct (instanceof_RecordDoesNotExist e); [|discriminate].
    destruct (Hgo None Hrun) as (Hid & existing & g & ids & H1 & H2 & H3 & H4 & H5).
    split; [exact Hid|]. exists cid, existing, g, ids. auto 6.
  - destruct (Hgo (Some eid) Hrun)
      as (Hid & existing & g & ids & H1 & H2 & H3 & H4 & H5).
    split; [exact Hid|]. exists cid, existing, g, ids. auto 6.
Qed.

(** X2. [migrateGranuleRecord] writes to the destination through the
    granule upsert only: either it rejects and the store is as it was, or
    the translator produced a granule and the store is the one its upsert
    left. *)
Theorem migrateGranuleRecord_only_upserts (record : DynamoRecord) (s : store) :
  (fst (migrateGranuleRecord pg record s) = s
   /\ exists e, snd (migrateGranuleRecord pg record s) = inl e)
  \/ (exists g,
        translateApiGranuleToPostgresGranule pg record s = inr g
        /\ fst (migrateGranuleRecord pg record s)
           = fst (upsertGranuleWithExecutionJoinRecord
                    pg g (resolvedExecution pg record s) s)).
Proof.
  rewrite migrateGranuleRecord_cases. unfold resolvedExecution.
  destruct (CollectionPgModel_getRecordCumulusId pg
              (deconstructCollectionId pg (collectionId record)) s) as [e|cid];
    [left; split; [reflexivity | eexists; reflexivity]|].
  assert (Hgo : forall exec run,
             run = match snd (lookupExisting pg record cid s) with
                   | inl e' => (s, inl e')
                   | inr existing =>
                       if isExistingRecordNewer existing record
                       then (s, inl (RecordAlreadyMigrated
                                       (alreadyMigratedMessage record)))
                       else translateAndUpsert pg record exec s
                   end ->
             (fst run = s /\ exists e, snd run = inl e)
             \/ (exists g,
                   translateApiGranuleToPostgresGranule pg record s = inr g
                   /\ fst run = fst (upsertGranuleWithExecutionJoinRecord pg g exec s))).
  { intros exec run ->.
    destruct (snd (lookupExisting pg record cid s)) as [e'|existing];
      [left; split; [reflexivity | eexists; reflexivity]|].
    destruct (isExistingRecordNewer existing record);
      [left; split; [reflexivity | eexists; reflexivity]|].
    rewrite translateAndUpsert_cases.
    destruct (translateApiGranuleToPostgresGranule pg record s) as [e|g];
      [left; split; [reflexivity | eexists; reflexivity]|].
    right. exists g. split; [reflexivity|].
    destruct (upsertGranuleWithExecutionJoinRecord pg g exec s) as [s1 [e|[|id ids]]];
      try reflexivity.
    destruct (id =? 0); reflexivity. }
  destruct (ExecutionPgModel_getRecordCumulusId pg (execution record) s) as [e|eid].
  - destruct (instanceof_RecordDoesNotExist e);
      [apply (Hgo None); reflexivity
      | left; split; [reflexivity | eexists; reflexivity]].
  - apply (Hgo (Some eid)); reflexivity.
Qed.

(** X3. Errors before the upsert.  Once the collection is resolved and
    the execution lookup has not aborted, an error of the granule lookup
    other than RecordDoesNotExist, or an error of the translator after
    conflict detection passed, rejects [migrateGranuleRecord] with that
    very error and leaves the store untouched (no upsert is tried); the
    record is then counted as failed unless the error is a
    RecordAlreadyMigrated. *)
Theorem migrateGranuleRecord_errors_before_upsert
    (record : DynamoRecord) (w : World store) (cid : Z) (exec : option Z)
    (Hcollection :
       CollectionPgModel_getRecordCumulusId pg
         (deconstructCollectionId pg (collectionId record)) (db w) = inr cid)
    (Hexecution : snd (lookupExecution pg record (db w)) = inr exec) :
  (forall e,
      GranulePgModel_get pg (granuleId record) cid (db w) = inl e ->
      instanceof_RecordDoesNotExist e = false ->
      migrateGranuleRecord pg record (db w) = (db w, inl e)
      /\ recordOutcome pg record w
         = if instanceof_RecordAlreadyMigrated e then Skipped else Failed e)
  /\ (forall existing e,
        snd (lookupExisting pg record cid (db w)) = inr existing ->
        isExistingRecordNewer existing record = false ->
        translateApiGranuleToPostgresGranule pg record (db w) = inl e ->
        migrateGranuleRecord pg record (db w) = (db w, inl e)
        /\ recordOutcome pg record w
           = if instanceof_RecordAlreadyMigrated e then Skipped else Failed e).
Proof.
  split.
  - intros e Hget Hkind.
    assert (Hm : migrateGranuleRecord pg record (db w) = (db w, inl e)).
    { rewrite migrateGranuleRecord_eq, Hcollection, Hexecution, lookupExisting_eq, Hget.
      cbn [snd]. rewrite Hkind. reflexivity. }
    split; [exact Hm|].
    rewrite recordOutcome_eq, (transaction_body_rejected pg _ _ _ _ _ Hm). reflexivity.
  - intros existing e Hx Hn Ht.
    assert (Hm : migrateGranuleRecord pg record (db w) = (db w, inl e)).
    { rewrite (migrateGranuleRecord_proceeds pg _ _ _ _ _ Hcollection Hexecution Hx Hn).
      rewrite translateAndUpsert_cases, Ht. reflexivity. }
    split; [exact Hm|].
    rewrite recordOutcome_eq, (transaction_body_rejected pg _ _ _ _ _ Hm). reflexivity.
Qed.

(** X4. The identifier 0 is no identifier: when the upsert reports 0 as
    its first identifier, whatever follows it, [migrateGranuleRecord]
    rejects with PostgresUpdateFailed as for an empty answer, and the
    record is counted as failed and rolled back. *)
Theorem migrateGranuleRecord_zero_identifier
    (record : DynamoRecord) (acc : option GranulesAndFilesMigrationResult)
    (loggingInterval : Z) (w : World store) (cid : Z) (exec : option Z)
    (existing : option PostgresGranuleRecord) (g : PostgresGranule) (s1 : store)
    (ids : list Z)
    (Hcollection :
       CollectionPgModel_getRecordCumulusId pg
         (deconstructCollectionId pg (collectionId record)) (db w) = inr cid)
    (Hexecution : snd (lookupExecution pg record (db w)) = inr exec)
    (Hexisting : snd (lookupExisting pg record cid (db w)) = inr existing)
    (Hpass : isExistingRecordNewer existing record = false)
    (Htranslate : translateApiGranuleToPostgresGranule pg record (db w) = inr g)
    (Hupsert : upsertGranuleWithExecutionJoinRecord pg g exec (db w)
               = (s1, inr (0 :: ids))) :
  migrateGranuleRecord pg record (db w)
    = (s1, inl (PostgresUpdateFailed (updateFailedMessage record)))
  /\ exists after,
      migrateGranuleAndFilesViaTransaction pg rt record acc loggingInterval w
        = ({| db := db w;
              errorLog := errorLog w ++
                [errorLine rt record (PostgresUpdateFailed (updateFailedMessage record))];
              sourceOps := sourceOps w |}, inr after)
      /\ failed (granulesResult after)
         = failed (granulesResult
                     (default initializeGranulesAndFilesMigrationResult acc)) + 1
      /\ migrated (granulesResult after)
         = migrated (granulesResult
                       (default initializeGranulesAndFilesMigrationResult acc)).
Proof.
  assert (Hm : migrateGranuleRecord pg record (db w)
               = (s1, inl (PostgresUpdateFailed (updateFailedMessage record)))).
  { rewrite (migrateGranuleRecord_proceeds pg _ _ _ _ _
               Hcollection Hexecution Hexisting Hpass).
    rewrite translateAndUpsert_cases, Htranslate, Hupsert. reflexivity. }
  split; [exact Hm|].
  destruct (failed_record pg rt record acc loggingInterval w s1 _
              (transaction_body_rejected pg _ _ _ _ _ Hm) eq_refl)
    as (_ & after & Hrun & (_ & Hmig & _ & Hfail & _) & _).
  exists after. split; [exact Hrun|]. split; [exact Hfail | lia].
Qed.

(** X5. "Already migrated" is recognised by its class, wherever it was
    thrown: when the granule was upserted and a file upsert then rejects
    with a RecordAlreadyMigrated, the record is counted as skipped, nothing
    is written to the error stream, and the granule upsert is rolled back
    with the files: the world is as before. *)
Theorem already_migrated_file_skips_record
    (record : DynamoRecord) (acc : option GranulesAndFilesMigrationResult)
    (loggingInterval : Z) (w : World store) (s1 s2 : store) (id : Z) (e : error)
    (Hgranule : migrateGranuleRecord pg record (db w) = (s1, inr id))
    (Hfile : Promise_all_map (fun file => migrateFileRecord pg file id)
                             (default [] (files record)) s1 = (s2, inl e))
    (Hkind : instanceof_RecordAlreadyMigrated e = true) :
  recordOutcome pg record w = Skipped
  /\ exists after,
      migrateGranuleAndFilesViaTransaction pg rt record acc loggingInterval w
        = (w, inr after)
      /\ counted Skipped 1
           (granulesResult (default initializeGranulesAndFilesMigrationResult acc))
           (granulesResult after)
      /\ counted Skipped (fileCount record)
           (filesResult (default initializeGranulesAndFilesMigrationResult acc))
           (filesResult after).
Proof.
  apply skipped_record with (s1 := s2) (e := e); [|exact Hkind].
  rewrite (transaction_body_granule_ok pg _ _ _ _ _ Hgranule). exact Hfile.
Qed.

End FurtherRecordProperties.

Section FurtherRunProperties.
Context {store : Type} (pg : PgModels store) (rt : Runtime).

(** X6. Over the query loop, the error stream grows by exactly one line
    per record counted as failed: the lines present before are kept, the
    number of lines added is the increase of the granule failed counter,
    and each added line is the error line of a record of the queue. *)
Theorem migrateSearchQueue_error_lines
    (records : list DynamoRecord) (r : GranulesAndFilesMigrationResult)
    (loggingInterval : Z) (w : World store) :
  exists w' r' lines,
    migrateSearchQueue pg rt records r loggingInterval w = (w', inr r')
    /\ errorLog w' = (errorLog w ++ lines)%list
    /\ Z.of_nat (length lines) = failed (granulesResult r') - failed (granulesResult r)
    /\ Forall (fun line =>
                 exists record e, In record records /\ line = errorLine rt record e)
              lines.
Proof.
  destruct (migrateSearchQueue_accounting pg rt records r loggingInterval w)
    as (w' & r' & lines & Hrun & Hlog & Hlen & Hall & _).
  exists w', r', lines. auto.
Qed.

(** X7. The counters only accumulate: over the query loop no counter of
    the granule or of the file result decreases, and the recorded filters
    are left as they were. *)
Theorem migrateSearchQueue_nondecreasing
    (records : list DynamoRecord) (r : GranulesAndFilesMigrationResult)
    (loggingInterval : Z) (w : World store) :
  exists w' r',
    migrateSearchQueue pg rt records r loggingInterval w = (w', inr r')
    /\ nondecreasing (granulesResult r) (granulesResult r')
    /\ nondecreasing (filesResult r) (filesResult r').
Proof.
  destruct (migrateSearchQueue_accounting pg rt records r loggingInterval w)
    as (w' & r' & lines & Hrun & _ & _ & _ & _ & _ & Hg & Hf & _).
  exists w', r'. auto.
Qed.

(** X9. A missing environment variable stops the entry point before it
    does anything: whichever of system_bucket, GranulesTable and stackName
    is the first that cannot be read, the entry point rejects with that
    error and the world is untouched (no error stream is opened, no source
    operation is issued, nothing is written to the destination). *)
Theorem migrateGranulesAndFiles_missing_environment
    (env : gmap string string) (params' : option GranuleMigrationParams)
    (testTimestamp : option string) (eventLoop : EventLoop) (w : World store) :
  (forall e,
      getRequiredEnvVar rt "system_bucket" env = inl e ->
      migrateGranulesAndFiles pg rt env params' testTimestamp eventLoop w = (w, inl e))
  /\ (forall b e,
        getRequiredEnvVar rt "system_bucket" env = inr b ->
        getRequiredEnvVar rt "GranulesTable" env = inl e ->
        migrateGranulesAndFiles pg rt env params' testTimestamp eventLoop w
          = (w, inl e))
  /\ (forall b t e,
        getRequiredEnvVar rt "system_bucket" env = inr b ->
        getRequiredEnvVar rt "GranulesTable" env = inr t ->
        getRequiredEnvVar rt "stackName" env = inl e ->
        migrateGranulesAndFiles pg rt env params' testTimestamp eventLoop w
          = (w, inl e)).
Proof.
  split; [|split].
  - intros e Hb. unfold migrateGranulesAndFiles.
    unfold bind at 1. unfold liftE at 1. rewrite Hb. reflexivity.
  - intros b e Hb Ht. unfold migrateGranulesAndFiles.
    unfold bind at 1. unfold liftE at 1. rewrite Hb.
    unfold bind at 1. unfold liftE at 1. rewrite Ht. reflexivity.
  - intros b t e Hb Ht Hs. unfold migrateGranulesAndFiles.
    unfold bind at 1. unfold liftE at 1. rewrite Hb.
    unfold bind at 1. unfold liftE at 1. rewrite Ht.
    unfold bind at 1. unfold liftE at 1. rewrite Hs. reflexivity.
Qed.

(** X10. When the entry point returns a result, the error file was stored
    with the lines of this run only: as many lines as the granule failed
    counter says, each the error line of a record the source delivered.
    This holds for every event loop. *)
Theorem migrateGranulesAndFiles_error_file
    (env : gmap string string) (params' : option GranuleMigrationParams)
    (testTimestamp : option string) (eventLoop : EventLoop) (w w' : World store)
    (result : GranulesAndFilesMigrationResult) (bucket' table stack : string)
    (Hbucket : getRequiredEnvVar rt "system_bucket" env = inr bucket')
    (Htable : getRequiredEnvVar rt "GranulesTable" env = inr table)
    (Hstack : getRequiredEnvVar rt "stackName" env = inr stack)
    (Hrun : migrateGranulesAndFiles pg rt env params' testTimestamp eventLoop w
            = (w', inr result)) :
  Z.of_nat (length (errorLog w')) = failed (granulesResult result)
  /\ Forall (fun line =>
               exists record e,
                 In record (sourceSnapshot rt table (default emptyParams params'))
                 /\ line = errorLine rt record e)
            (errorLog w')
  /\ exists stored,
      storeErrors rt bucket' (errorFilepath rt "granulesAndFiles" testTimestamp)
        "granulesAndFiles" stack testTimestamp (errorLog w') = inr stored.
Proof.
  destruct (migrateGranulesAndFiles_returned pg rt env params' testTimestamp eventLoop
              w w' result table Htable Hrun)
    as (_ & _ & _ & _ & _ & Hlen & Hall & _ & Hstore).
  split; [exact Hlen|]. split; [exact Hall|].
  exists tt. exact (Hstore bucket' stack Hbucket Hstack).
Qed.

(** X11. A run of [queryAndMigrateGranuleDynamoRecords] issues one query
    on the given table, and it resolves exactly when no read of the queue
    rejects.  The filter recorded in the result object is the value the
    query is keyed on: a query with a key condition records that one
    value, which is never empty, under granuleId (primary key) or under
    collectionId (index collectionId-granuleId-index); a query without
    key condition binds no value and leaves the recorded filter as it
    was. *)
Theorem queryAndMigrate_filter_is_query_key
    (table : string) (params : GranuleMigrationParams)
    (acc : option GranulesAndFilesMigrationResult) (loggingInterval : Z)
    (w : World store) :
  exists w' r q,
    queryAndMigrateGranuleDynamoRecords pg rt table params acc loggingInterval w
      = (w', match queue_rejection (dynamoQuery rt q) with
             | Some e => inl e
             | None => inr r
             end)
    /\ sourceOps w' = (sourceOps w ++ [DynamoQuery q])%list
    /\ TableName q = table
    /\ match KeyConditionExpression q with
       | None =>
           ExpressionAttributeValues q = []
           /\ filters (granulesResult r)
              = filters (granulesResult
                           (default initializeGranulesAndFilesMigrationResult acc))
       | Some _ =>
           exists v,
             v <> ""
             /\ ((q = granuleIdQuery table v
                  /\ filters (granulesResult r)
                     = Some {| filter_granuleId := Some v;
                               filter_collectionId := None |})
                 \/ (q = collectionIdQuery table v
                     /\ filters (granulesResult r)
                        = Some {| filter_granuleId := None;
                                  filter_collectionId := Some v |}))
       end.
Proof.
  unfold queryAndMigrateGranuleDynamoRecords.
  set (r0 := default initializeGranulesAndFilesMigrationResult acc).
  assert (Hsel : exists r1 q,
             selectQuery table params r0 = (r1, q)
             /\ TableName q = table
             /\ match KeyConditionExpression q with
                | None =>
                    ExpressionAttributeValues q = []
                    /\ filters (granulesResult r1) = filters (granulesResult r0)
                | Some _ =>
                    exists v,
                      v <> ""
                      /\ ((q = granuleIdQuery table v
                           /\ filters (granulesResult r1)
                              = Some {| filter_granuleId := Some v;
                                        filter_collectionId := None |})
                          \/ (q = collectionIdQuery table v
                              /\ filters (granulesResult r1)
                                 = Some {| filter_granuleId := None;
                                           filter_collectionId := Some v |}))
                end).
  { assert (Htruthy : forall o v, truthy_value o = Some v -> v <> "").
    { intros o v. unfold truthy_value, truthy. destruct o as [x|]; [|discriminate].
      destruct (String.eqb_spec x ""); cbn; [discriminate|].
      intros H; inversion H; subst; assumption. }
    unfold selectQuery.
    destruct (truthy_value (param_granuleId params)) as [g|] eqn:Hg.
    - eexists _, _. split; [reflexivity|]. split; [reflexivity|]. cbn.
      exists g. split; [exact (Htruthy _ _ Hg)|]. left. split; reflexivity.
    - destruct (truthy_value (param_collectionId params)) as [c|] eqn:Hc.
      + eexists _, _. split; [reflexivity|]. split; [reflexivity|]. cbn.
        exists c. split; [exact (Htruthy _ _ Hc)|]. right. split; reflexivity.
      + eexists _, _. split; [reflexivity|]. split; [reflexivity|]. cbn.
        split; reflexivity. }
  destruct Hsel as (r1 & q & Hq & Htab & Hkey). rewrite Hq.
  unfold bind at 1. unfold issue at 1. cbv zeta. unfold bind at 1.
  match goal with
  | |- context [migrateSearchQueue pg rt ?rs ?r ?i ?w1] =>
      destruct (migrateSearchQueue_advanced pg rt rs r i w1)
        as (w2 & r2 & Hrun & (_ & _ & Hfil) & _ & Hops)
  end.
  rewrite Hrun. exists w2, r2, q.
  split; [destruct (queue_rejection (dynamoQuery rt q)); reflexivity|].
  split; [rewrite Hops; reflexivity|].
  split; [exact Htab|]. rewrite Hfil. exact Hkey.
Qed.

End FurtherRunProperties.

(** The source operation does not depend on how the error file is
    stored. *)
Lemma sourceRun_with_storeErrors
    {store : Type} (pg : PgModels store) (rt : Runtime)
    (store' : string -> string -> string -> string -> option string ->
              list string -> error + unit)
    (table : string) (params : GranuleMigrationParams) (eventLoop : EventLoop)
    (w : World store) :
  sourceRun pg (with_storeErrors store' rt) table params eventLoop w
  = sourceRun pg rt table params eventLoop w.
Proof.
  assert (Hloop : forall records r i w0,
             migrateSearchQueue pg (with_storeErrors store' rt) records r i w0
             = migrateSearchQueue pg rt records r i w0).
  { induction records as [|x rest IH]; intros r i w0; [reflexivity|].
    cbn [migrateSearchQueue]. unfold bind.
    change (migrateGranuleAndFilesViaTransaction pg (with_storeErrors store' rt)
              x (Some r) i w0)
      with (migrateGranuleAndFilesViaTransaction pg rt x (Some r) i w0).
    destruct (migrateGranuleAndFilesViaTransaction pg rt x (Some r) i w0)
      as [w1 [e|r1]]; [reflexivity|]. apply IH. }
  assert (Hsched : forall schedule r w0,
             runSchedule pg (with_storeErrors store' rt) schedule r w0
             = runSchedule pg rt schedule r w0).
  { induction schedule as [|[x|x] rest IH]; intros r w0; [reflexivity|apply IH|].
    cbn [runSchedule]. unfold bind.
    change (settleRecord pg (with_storeErrors store' rt) x r w0)
      with (settleRecord pg rt x r w0).
    destruct (settleRecord pg rt x r w0) as [w1 [e|r1]]; [reflexivity|]. apply IH. }
  unfold sourceRun.
  destruct (is_defined (param_granuleId params)
            || is_defined (param_collectionId params)).
  - unfold queryAndMigrateGranuleDynamoRecords.
    destruct (selectQuery table params _) as [r0 q].
    unfold bind, issue. cbv beta iota zeta.
    cbn [dynamoQuery with_storeErrors]. rewrite Hloop. reflexivity.
  - unfold parallelScan, bind, issue, scanSegments, migrateGranuleDynamoRecords, pMap.
    cbv beta iota zeta.
    cbn [dynamoScan scanRejection pMap_TypeError with_storeErrors].
    rewrite Hsched. reflexivity.
Qed.

(** X12. Whether the error file can be stored changes only what the entry
    point returns.  With the environment read, the world the entry point
    leaves (destination, error stream, source operations) is the same for
    any [storeErrors]; and when the source did not reject, the stream was
    closed and storing the file fails, the entry point rejects with that
    error although the records were migrated. *)
Theorem migrateGranulesAndFiles_store_failure
    {store : Type} (pg : PgModels store) (rt : Runtime)
    (store' : string -> string -> string -> string -> option string ->
              list string -> error + unit)
    (env : gmap string string) (params' : option GranuleMigrationParams)
    (testTimestamp : option string) (eventLoop : EventLoop) (w : World store)
    (bucket' table stack : string)
    (Hbucket : getRequiredEnvVar rt "system_bucket" env = inr bucket')
    (Htable : getRequiredEnvVar rt "GranulesTable" env = inr table)
    (Hstack : getRequiredEnvVar rt "stackName" env = inr stack) :
  let left := fst (migrateGranulesAndFiles pg rt env params' testTimestamp eventLoop w) in
  fst (migrateGranulesAndFiles pg (with_storeErrors store' rt) env params'
         testTimestamp eventLoop w) = left
  /\ forall e,
      sourceRejection rt table (default emptyParams params') = None ->
      closeStreams rt (errorLog left) = inr tt ->
      store' bucket' (errorFilepath rt "granulesAndFiles" testTimestamp)
        "granulesAndFiles" stack testTimestamp (errorLog left) = inl e ->
      snd (migrateGranulesAndFiles pg (with_storeErrors store' rt) env params'
             testTimestamp eventLoop w) = inl e.
Proof.
  cbv zeta.
  rewrite (migrateGranulesAndFiles_eq pg (with_storeErrors store' rt)
             env params' testTimestamp eventLoop w bucket' table stack
             Hbucket Htable Hstack).
  rewrite (migrateGranulesAndFiles_eq pg rt
             env params' testTimestamp eventLoop w bucket' table stack
             Hbucket Htable Hstack).
  rewrite sourceRun_with_storeErrors.
  destruct (sourceRun_accounting pg rt table (default emptyParams params') eventLoop
              {| db := db w; errorLog := []; sourceOps := sourceOps w |})
    as (w1 & r1 & processed & lines & Hrun & _).
  rewrite Hrun. cbn [closeStreams storeErrors errorFilepath with_storeErrors].
  destruct (sourceRejection rt table (default emptyParams params')) as [e0|].
  - split; [reflexivity|]. intros e Hnone. discriminate Hnone.
  - cbn [fst snd]. split; [reflexivity|]. intros e _ Hclose Hstore.
    rewrite Hclose, Hstore. reflexivity.
Qed.

(** ** Further properties on the relational destination *)

Section FurtherPgProperties.
Context (rt : Runtime).

Lemma Pg_migrateFileRecord_resolved
    (f : ApiFile) (id : Z) (s s0 : Pg.store) (u : unit) :
  migrateFileRecord Pg.models f id s = (s0, inr u) ->
  has_natural_key f
  /\ exists row,
      granule_cumulus_id row = id
      /\ Pg.tbl_files s0
         = <[(default "" (bucket f), default "" (key f)) := row]> (Pg.tbl_files s).
Proof.
  unfold migrateFileRecord. cbn [FilePgModel_upsert getBucket getKey Pg.models].
  unfold Pg.upsertFile, has_natural_key. cbn [pf_bucket pf_key].
  destruct (String.eqb_spec (default "" (bucket f)) "") as [Hb|Hb];
    [discriminate|].
  destruct (String.eqb_spec (default "" (key f)) "") as [Hk|Hk];
    [discriminate|].
  cbn [orb]. intros H. inversion H; subst. cbn. split; [auto|].
  eexists. split; [|reflexivity]. reflexivity.
Qed.

(** The files of a resolved [Promise.all] are all stored, under their
    natural key, with the granule identifier they were given. *)
Lemma Pg_files_stored (fs : list ApiFile) (id : Z) (s s' : Pg.store) (us : list unit) :
  Promise_all_map (fun file => migrateFileRecord Pg.models file id) fs s = (s', inr us) ->
  Forall has_natural_key fs
  /\ (forall f, In f fs ->
        exists row,
          Pg.tbl_files s' !! (default "" (bucket f), default "" (key f)) = Some row
          /\ granule_cumulus_id row = id)
  /\ (forall k row,
        Pg.tbl_files s !! k = Some row ->
        exists row',
          Pg.tbl_files s' !! k = Some row'
          /\ (row' = row \/ granule_cumulus_id row' = id)).
Proof.
  revert s us. induction fs as [|f rest IH]; intros s us H; cbn [Promise_all_map] in H.
  - inversion H; subst. split; [constructor|]. split; [intros f []|]. eauto.
  - unfold bind at 1 in H.
    destruct (migrateFileRecord Pg.models f id s) as [s0 [e|u]] eqn:Hf; [discriminate|].
    unfold bind at 1 in H.
    destruct (Promise_all_map (fun file => migrateFileRecord Pg.models file id) rest s0)
      as [s1 [e|us']] eqn:Hrest; [discriminate|].
    inversion H; subst.
    destruct (Pg_migrateFileRecord_resolved _ _ _ _ _ Hf) as (Hkey & row & Hid & Hins).
    destruct (IH _ _ Hrest) as (Hall & Hin & Hkeep).
    split; [constructor; assumption|]. split.
    + intros f' [<-|Hf'].
      * destruct (Hkeep (default "" (bucket f), default "" (key f)) row)
          as (row' & Hrow' & Hor).
        { rewrite Hins. apply lookup_insert_eq. }
        exists row'. split; [exact Hrow'|]. destruct Hor; congruence.
      * apply Hin. exact Hf'.
    + intros k r Hk.
      destruct (decide ((default "" (bucket f), default "" (key f)) = k)) as [<-|Hne].
      * destruct (Hkeep (default "" (bucket f), default "" (key f)) row)
          as (row' & Hrow' & Hor).
        { rewrite Hins. apply lookup_insert_eq. }
        exists row'. split; [exact Hrow'|]. right. destruct Hor; congruence.
      * apply Hkeep. rewrite Hins, lookup_insert_ne by exact Hne. exact Hk.
Qed.

Lemma Pg_files_preserve_next
    (fs : list ApiFile) (id : Z) (s s' : Pg.store) (r : error + list unit) :
  Promise_all_map (fun file => migrateFileRecord Pg.models file id) fs s = (s', r) ->
  Pg.next_cumulus_id s' = Pg.next_cumulus_id s.
Proof.
  revert s r. induction fs as [|f rest IH]; intros s r H; cbn [Promise_all_map] in H.
  - inversion H; subst. reflexivity.
  - unfold bind at 1 in H.
    destruct (migrateFileRecord Pg.models f id s) as [s0 [e|u]] eqn:Hf.
    + inversion H; subst. revert Hf. unfold migrateFileRecord.
      cbn [FilePgModel_upsert getBucket getKey Pg.models]. unfold Pg.upsertFile.
      destruct (_ || _); intros Hf; inversion Hf; reflexivity.
    + assert (Hn : Pg.next_cumulus_id s0 = Pg.next_cumulus_id s).
      { revert Hf. unfold migrateFileRecord.
        cbn [FilePgModel_upsert getBucket getKey Pg.models]. unfold Pg.upsertFile.
        destruct (_ || _); intros Hf; inversion Hf; reflexivity. }
      unfold bind at 1 in H.
      destruct (Promise_all_map (fun file => migrateFileRecord Pg.models file id) rest s0)
        as [s1 [e|us']] eqn:Hrest; inversion H; subst;
        rewrite (IH _ _ Hrest); exact Hn.
Qed.

(** The tables after the upsert of a granule whose timestamp is a time. *)
Lemma Pg_upsertGranule_tables
    (g : PostgresGranule) (exec : option Z) (s : Pg.store) (t : Z) :
  updated_at g = TimeValue t ->
  let s' := fst (Pg.upsertGranule g exec s) in
  let k := (granule_id g, collection_cumulus_id g) in
  Pg.tbl_granules s'
  = <[k := {| rec_cumulus_id := match Pg.tbl_granules s !! k with
                                | Some old => rec_cumulus_id old
                                | None => Pg.next_cumulus_id s
                                end;
              rec_granule_id := granule_id g;
              rec_collection_cumulus_id := collection_cumulus_id g;
              rec_updated_at := updated_at g |}]> (Pg.tbl_granules s)
  /\ Pg.next_cumulus_id s'
     = match Pg.tbl_granules s !! k with
       | Some _ => Pg.next_cumulus_id s
       | None => Pg.next_cumulus_id s + 1
       end.
Proof.
  intros Ht. unfold Pg.upsertGranule. rewrite Ht. cbn. split; reflexivity.
Qed.

(** What a committed transaction did to the relational destination. *)
Lemma Pg_transaction_resolved
    (record : DynamoRecord) (s s' : Pg.store) (us : list unit) :
  granuleAndFilesTransaction Pg.models record (default [] (files record)) s
    = (s', inr us) ->
  exists cid,
    Pg.tbl_collections s !! Pg.deconstruct (collectionId record) = Some cid
    /\ isExistingRecordNewer (Pg.tbl_granules s !! (granuleId record, cid)) record = false
    /\ within_Date_range (updatedAt record)
    /\ Pg_idof record cid s <> 0
    /\ Pg.tbl_collections s' = Pg.tbl_collections s
    /\ Pg.tbl_granules s'
       = <[(granuleId record, cid) := Pg_row record cid s]> (Pg.tbl_granules s)
    /\ Pg.next_cumulus_id s'
       = match Pg.tbl_granules s !! (granuleId record, cid) with
         | Some _ => Pg.next_cumulus_id s
         | None => Pg.next_cumulus_id s + 1
         end
    /\ Forall has_natural_key (default [] (files record))
    /\ forall f, In f (default [] (files record)) ->
         exists row,
           Pg.tbl_files s' !! (default "" (bucket f), default "" (key f)) = Some row
           /\ granule_cumulus_id row = Pg_idof record cid s.
Proof.
  unfold granuleAndFilesTransaction. unfold bind at 1.
  rewrite Pg_migrateGranuleRecord.
  destruct (Pg.tbl_collections s !! Pg.deconstruct (collectionId record))
    as [cid|] eqn:Hc; [|discriminate].
  destruct (isExistingRecordNewer _ record) eqn:Hn; [discriminate|].
  destruct (new_Date (updatedAt record)) as [t|] eqn:Hd; [|discriminate].
  apply new_Date_TimeValue in Hd as [-> Hr].
  cbv zeta. fold (Pg_idof record cid s).
  destruct (Z.eqb_spec (Pg_idof record cid s) 0) as [Hz|Hz]; [discriminate|].
  intros Hfiles.
  destruct (Pg_files_preserve _ _ _ _ _ Hfiles) as (H1 & _ & H3).
  destruct (Pg_files_stored _ _ _ _ _ Hfiles) as (Hall & Hin & _).
  pose proof (new_Date_in_range _ Hr) as Hd.
  destruct (Pg_upsertGranule_row (Pg_granule record cid) (Pg_execution record s) s
              (updatedAt record) Hd) as (Hcoll & _).
  destruct (Pg_upsertGranule_tables (Pg_granule record cid) (Pg_execution record s) s
              (updatedAt record) Hd) as (Hgr & Hnext).
  exists cid. split; [reflexivity|]. split; [exact Hn|]. split; [exact Hr|].
  split; [exact Hz|].
  split; [rewrite H1; exact Hcoll|].
  split; [rewrite H3; exact Hgr|].
  split; [|split; assumption].
  apply Pg_files_preserve_next in Hfiles. rewrite Hfiles. exact Hnext.
Qed.

(** X13. Referential integrity on the relational destination: after a
    record was migrated, the destination holds its granule row with the
    source's [updatedAt], and every file of the record is stored under its
    (bucket, key) with [granule_cumulus_id] equal to the identifier of that
    granule row. *)
Theorem Pg_files_reference_granule
    (record : DynamoRecord) (acc : option GranulesAndFilesMigrationResult)
    (loggingInterval : Z) (w : World Pg.store)
    (Hmigrated : recordOutcome Pg.models record w = Migrated) :
  exists w' r cid g,
    migrateGranuleAndFilesViaTransaction Pg.models rt record acc loggingInterval w
      = (w', inr r)
    /\ Pg.tbl_collections (db w') !! Pg.deconstruct (collectionId record) = Some cid
    /\ Pg.tbl_granules (db w') !! (granuleId record, cid) = Some g
    /\ rec_updated_at g = new_Date (updatedAt record)
    /\ rec_updated_at g = TimeValue (updatedAt record)
    /\ forall f, In f (default [] (files record)) ->
         exists row,
           Pg.tbl_files (db w') !! (default "" (bucket f), default "" (key f))
             = Some row
           /\ granule_cumulus_id row = rec_cumulus_id g.
Proof.
  rewrite recordOutcome_eq in Hmigrated.
  destruct (granuleAndFilesTransaction Pg.models record (default [] (files record)) (db w))
    as [s' [e|us]] eqn:Hbody;
    [destruct (instanceof_RecordAlreadyMigrated e); discriminate|].
  destruct (migrated_record Pg.models rt record acc loggingInterval w s' us Hbody)
    as (_ & r & Hrun & _).
  destruct (Pg_transaction_resolved record _ _ _ Hbody)
    as (cid & Hc & _ & Hr & _ & Hcoll & Hgr & _ & _ & Hfiles).
  exists (set_db s' w), r, cid, (Pg_row record cid (db w)).
  split; [exact Hrun|]. cbn [db set_db].
  split; [rewrite Hcoll; exact Hc|].
  split; [rewrite Hgr; apply lookup_insert_eq|].
  split; [reflexivity|].
  split; [exact (new_Date_in_range _ Hr) | exact Hfiles].
Qed.

(** *** A second pass over the same records *)

Lemma Pg_migratable_resolves (record : DynamoRecord) (s : Pg.store) :
  Pg_migratable record s ->
  exists s' us,
    granuleAndFilesTransaction Pg.models record (default [] (files record)) s
      = (s', inr us).
Proof.
  intros (cid & Hc & Hn & Hr & Hid & Hfiles).
  unfold granuleAndFilesTransaction. unfold bind at 1.
  rewrite Pg_migrateGranuleRecord, Hc, Hn, (new_Date_in_range _ Hr).
  cbv zeta. fold (Pg_idof record cid s).
  apply Z.eqb_neq in Hid. rewrite Hid.
  apply Pg_files_resolve. exact Hfiles.
Qed.

(** Once migrated, a record is no longer migratable. *)
Lemma Pg_migrated_settled (record : DynamoRecord) (s s' : Pg.store) (us : list unit) :
  granuleAndFilesTransaction Pg.models record (default [] (files record)) s
    = (s', inr us) ->
  ~ Pg_migratable record s'.
Proof.
  intros Hbody (cid' & Hc' & Hn' & _).
  destruct (Pg_transaction_resolved record _ _ _ Hbody)
    as (cid & Hc & _ & Hr & _ & Hcoll & Hgr & _).
  rewrite Hcoll in Hc'. assert (cid' = cid) by congruence. subst cid'.
  rewrite Hgr, lookup_insert_eq in Hn'. cbn in Hn'.
  rewrite (new_Date_in_range _ Hr) in Hn'. cbn in Hn'.
  destruct (Z.leb_spec (updatedAt record) (updatedAt record)); [discriminate | lia].
Qed.

(** Migrating one record never makes another record migratable. *)
Lemma Pg_step_preserves_settled
    (other record : DynamoRecord) (s s' : Pg.store) (us : list unit) :
  granuleAndFilesTransaction Pg.models other (default [] (files other)) s
    = (s', inr us) ->
  Pg_migratable record s' -> Pg_migratable record s.
Proof.
  intros Hbody (cid & Hc & Hn & Hr & Hid & Hfiles).
  destruct (Pg_transaction_resolved other _ _ _ Hbody)
    as (cid' & Hc' & Hn' & Hr' & Hid' & Hcoll & Hgr & Hnext & _).
  rewrite Hcoll in Hc. exists cid. split; [exact Hc|].
  unfold Pg_idof in *. rewrite Hgr in Hn, Hid.
  destruct (decide ((granuleId other, cid') = (granuleId record, cid))) as [Heq|Hne].
  - rewrite Heq in Hn, Hid. rewrite lookup_insert_eq in Hn, Hid.
    injection Heq as Hg Hcid. subst cid'.
    cbn in Hn, Hid. unfold Pg_idof in Hid. rewrite Hg in Hid, Hn'.
    rewrite (new_Date_in_range _ Hr), (new_Date_in_range _ Hr') in Hn. cbn in Hn.
    assert (Hlt : updatedAt other < updatedAt record).
    { destruct (Z.leb_spec (updatedAt record) (updatedAt other));
        [discriminate | assumption]. }
    split; [|split; [exact Hr | split; [exact Hid | exact Hfiles]]].
    apply isExistingRecordNewer_false. intros row t Hrow Ht _.
    pose proof (proj1 (isExistingRecordNewer_false _ _) Hn' row t Hrow Ht Hr'). lia.
  - rewrite lookup_insert_ne in Hn, Hid by exact Hne.
    split; [exact Hn|]. split; [exact Hr|]. split; [|exact Hfiles].
    destruct (Pg.tbl_granules s !! (granuleId record, cid)) as [row|]; [exact Hid|].
    rewrite Hnext in Hid.
    destruct (Pg.tbl_granules s !! (granuleId other, cid')) as [row'|]; [exact Hid|].
    exact Hid'.
Qed.

(** The destination one record leaves. *)
Lemma wrapper_db
    (record : DynamoRecord) (acc : option GranulesAndFilesMigrationResult)
    (loggingInterval : Z) (w : World Pg.store) :
  exists w' r,
    migrateGranuleAndFilesViaTransaction Pg.models rt record acc loggingInterval w
      = (w', inr r)
    /\ match granuleAndFilesTransaction Pg.models record
               (default [] (files record)) (db w) with
       | (s', inr _) => db w' = s'
       | (_, inl _) =>
           db w' = db w
           /\ migrated (granulesResult r)
              = migrated (granulesResult
                            (default initializeGranulesAndFilesMigrationResult acc))
           /\ migrated (filesResult r)
              = migrated (filesResult
                            (default initializeGranulesAndFilesMigrationResult acc))
       end.
Proof.
  rewrite migrateGranuleAndFilesViaTransaction_eq, settleRecord_eq.
  destruct (granuleAndFilesTransaction Pg.models record (default [] (files record)) (db w))
    as [s' [e|us]]; [destruct (instanceof_RecordAlreadyMigrated e)|];
    eexists; eexists; (split; [reflexivity|]); cbn; auto.
Qed.

Lemma wrapper_preserves_settled
    (other record : DynamoRecord) (acc : option GranulesAndFilesMigrationResult)
    (loggingInterval : Z) (w : World Pg.store) :
  ~ Pg_migratable record (db w) ->
  ~ Pg_migratable record
      (db (fst (migrateGranuleAndFilesViaTransaction
                  Pg.models rt other acc loggingInterval w))).
Proof.
  intros Hsettled.
  destruct (wrapper_db other acc loggingInterval w) as (w' & r & Hrun & Hdb).
  rewrite Hrun. cbn [fst].
  destruct (granuleAndFilesTransaction Pg.models other (default [] (files other)) (db w))
    as [s' [e|us]] eqn:Hbody.
  - destruct Hdb as [Hdb _]. rewrite Hdb. exact Hsettled.
  - rewrite Hdb. intros Hm. apply Hsettled.
    exact (Pg_step_preserves_settled _ _ _ _ _ Hbody Hm).
Qed.

Lemma queue_preserves_settled
    (record : DynamoRecord) (records : list DynamoRecord)
    (r : GranulesAndFilesMigrationResult) (loggingInterval : Z) (w : World Pg.store) :
  ~ Pg_migratable record (db w) ->
  ~ Pg_migratable record
      (db (fst (migrateSearchQueue Pg.models rt records r loggingInterval w))).
Proof.
  revert r w. induction records as [|x rest IH]; intros r w Hsettled; [exact Hsettled|].
  cbn [migrateSearchQueue]. unfold bind.
  pose proof (wrapper_preserves_settled x record (Some r) loggingInterval w Hsettled)
    as Hstep.
  destruct (migrateGranuleAndFilesViaTransaction Pg.models rt x (Some r) loggingInterval w)
    as [w1 [e|r1]]; [exact Hstep|].
  apply IH. exact Hstep.
Qed.

(** After a pass of the query loop, none of its records is migratable. *)
Lemma queue_settles
    (records : list DynamoRecord) (r : GranulesAndFilesMigrationResult)
    (loggingInterval : Z) (w : World Pg.store) :
  Forall (fun record =>
            ~ Pg_migratable record
                (db (fst (migrateSearchQueue Pg.models rt records r loggingInterval w))))
         records.
Proof.
  revert r w. induction records as [|x rest IH]; intros r w; [constructor|].
  cbn [migrateSearchQueue]. unfold bind.
  destruct (wrapper_db x (Some r) loggingInterval w) as (w1 & r1 & Hrun & Hdb).
  rewrite Hrun. constructor; [|apply IH].
  apply queue_preserves_settled.
  destruct (granuleAndFilesTransaction Pg.models x (default [] (files x)) (db w))
    as [s' [e|us]] eqn:Hbody.
  - destruct Hdb as [Hdb _]. rewrite Hdb. intros Hm.
    destruct (Pg_migratable_resolves _ _ Hm) as (s2 & us & Hres). congruence.
  - rewrite Hdb. exact (Pg_migrated_settled _ _ _ _ Hbody).
Qed.

(** A pass over records none of which is migratable writes nothing. *)
Lemma settled_queue_noop
    (records : list DynamoRecord) (r : GranulesAndFilesMigrationResult)
    (loggingInterval : Z) (w : World Pg.store) :
  Forall (fun record => ~ Pg_migratable record (db w)) records ->
  exists w' r',
    migrateSearchQueue Pg.models rt records r loggingInterval w = (w', inr r')
    /\ db w' = db w
    /\ migrated (granulesResult r') = migrated (granulesResult r)
    /\ migrated (filesResult r') = migrated (filesResult r).
Proof.
  revert r w. induction records as [|x rest IH]; intros r w Hall.
  - exists w, r. repeat split.
  - inversion Hall as [|? ? Hx Hrest]; subst.
    destruct (wrapper_db x (Some r) loggingInterval w) as (w1 & r1 & Hrun & Hdb).
    destruct (granuleAndFilesTransaction Pg.models x (default [] (files x)) (db w))
      as [s' [e|us]] eqn:Hbody.
    + destruct Hdb as (Hdb & Hg & Hf). cbn [default from_option id] in Hg, Hf.
      destruct (IH {| granulesResult := granulesResult r1;
                      filesResult := filesResult r1 |} w1)
        as (w2 & r2 & Hrun2 & Hdb2 & Hg2 & Hf2).
      { rewrite Hdb. exact Hrest. }
      exists w2, r2. split.
      * cbn [migrateSearchQueue]. unfold bind at 1. rewrite Hrun. exact Hrun2.
      * cbn [granulesResult filesResult] in Hg2, Hf2.
        repeat split; congruence.
    + exfalso. apply Hx. destruct (Pg_transaction_resolved x _ _ _ Hbody)
        as (cid & Hc & Hn & Hr & Hid & _ & _ & _ & Hfiles & _).
      exists cid. auto 6.
Qed.

(** X14. On the relational destination the query loop is idempotent: a
    second pass over the same records, against the destination the first
    pass left and whatever it held before, writes nothing (the
    destination is unchanged) and counts no granule and no file as
    migrated. *)
Theorem Pg_second_pass_changes_nothing
    (records : list DynamoRecord) (r : GranulesAndFilesMigrationResult)
    (loggingInterval : Z) (w : World Pg.store) :
  exists w1 r1 w2 r2,
    migrateSearchQueue Pg.models rt records r loggingInterval w = (w1, inr r1)
    /\ migrateSearchQueue Pg.models rt records r1 loggingInterval w1 = (w2, inr r2)
    /\ db w2 = db w1
    /\ migrated (granulesResult r2) = migrated (granulesResult r1)
    /\ migrated (filesResult r2) = migrated (filesResult r1).
Proof.
  destruct (migrateSearchQueue_advanced Pg.models rt records r loggingInterval w)
    as (w1 & r1 & Hrun1 & _).
  pose proof (queue_settles records r loggingInterval w) as Hsettled.
  rewrite Hrun1 in Hsettled. cbn [fst] in Hsettled.
  destruct (settled_queue_noop records r1 loggingInterval w1 Hsettled)
    as (w2 & r2 & Hrun2 & Hdb & Hg & Hf).
  exists w1, r1, w2, r2. auto.
Qed.

End FurtherPgProperties.

Section FurtherScheduleProperties.
Context {store : Type} (pg : PgModels store) (rt : Runtime).

(** X15. However the event loop interleaves concurrent records, the
    error stream gains exactly one line per record counted as failed: for
    every schedule of start and settle steps the lines present before are
    kept, and the number of lines added is the increase of the granule
    failed counter.  [migrateGranuleDynamoRecords] with a write
    concurrency of at least 1 resolves for every order in which [pMap]
    lets its transactions settle, having seen each of its items once and
    written lines of its items only; with a write concurrency below 1 it
    rejects with [pMap]'s TypeError before a record is started. *)
Theorem runSchedule_error_lines
    (schedule : list Step) (r : GranulesAndFilesMigrationResult) (w : World store) :
  (exists w' r' lines,
      runSchedule pg rt schedule r w = (w', inr r')
      /\ errorLog w' = (errorLog w ++ lines)%list
      /\ Z.of_nat (length lines)
         = failed (granulesResult r') - failed (granulesResult r))
  /\ forall items loggingInterval writeConcurrency settles,
      (1 <= writeConcurrency ->
       exists w' r' lines,
         await pg rt (migrateGranuleDynamoRecords rt items loggingInterval
                                                  writeConcurrency settles) r w
           = (w', inr r')
         /\ errorLog w' = (errorLog w ++ lines)%list
         /\ Z.of_nat (length lines)
            = failed (granulesResult r') - failed (granulesResult r)
         /\ Forall (fun line =>
                      exists record e, In record items /\ line = errorLine rt record e)
                   lines
         /\ total_dynamo_db_records (granulesResult r')
            = total_dynamo_db_records (granulesResult r) + Z.of_nat (length items))
      /\ (writeConcurrency < 1 ->
          await pg rt (migrateGranuleDynamoRecords rt items loggingInterval
                                                   writeConcurrency settles) r w
          = (w, inl (pMap_TypeError rt writeConcurrency))).
Proof.
  split.
  - destruct (runSchedule_accounting pg rt schedule r w)
      as (w' & r' & lines & Hrun & Hlog & Hlen & _).
    exists w', r', lines. auto.
  - intros items loggingInterval writeConcurrency settles. split.
    + intros Hc.
      destruct (migrateGranuleDynamoRecords_resolves pg rt items r loggingInterval
                  writeConcurrency settles w Hc)
        as (w' & r' & lines & Hrun & Hlog & Hlen & Hall & (Hg & _) & _).
      exists w', r', lines. auto 6.
    + intros Hc. unfold migrateGranuleDynamoRecords.
      destruct (pMap_cases rt writeConcurrency items settles)
        as [[_ Hrun]|(Hge & _)]; [|lia].
      rewrite Hrun. reflexivity.
Qed.

End FurtherScheduleProperties.

Section FurtherSourceProperties.
Context {store : Type} (pg : PgModels store) (rt : Runtime).






(** X17. Outside the range of [Date] conflict detection never answers
    "already migrated".  When the source's [updatedAt] is more than
    8.64e15 milliseconds from the epoch, [new Date(record.updatedAt)] is
    Invalid Date and the comparison of line 110 is false whatever the
    destination holds: the record goes on to the translator and the
    upsert, also against a destination row that is newer. *)
Theorem updatedAt_outside_Date_range
    (record : DynamoRecord) (s : store) (cid : Z) (exec : option Z)
    (existing : option PostgresGranuleRecord)
    (Hrange : ~ within_Date_range (updatedAt record))
    (Hcollection :
       CollectionPgModel_getRecordCumulusId pg
         (deconstructCollectionId pg (collectionId record)) s = inr cid)
    (Hexecution : snd (lookupExecution pg record s) = inr exec)
    (Hexisting : snd (lookupExisting pg record cid s) = inr existing) :
  new_Date (updatedAt record) = InvalidDate
  /\ isExistingRecordNewer existing record = false
  /\ migrateGranuleRecord pg record s = translateAndUpsert pg record exec s.
Proof.
  pose proof (new_Date_out_of_range _ Hrange) as Hd.
  assert (Hn : isExistingRecordNewer existing record = false).
  { unfold isExistingRecordNewer. rewrite Hd.
    destruct existing as [row|]; [|reflexivity].
    destruct (rec_updated_at row); reflexivity. }
  split; [exact Hd|]. split; [exact Hn|].
  exact (migrateGranuleRecord_proceeds pg record s cid exec existing
           Hcollection Hexecution Hexisting Hn).
Qed.

(** X18. A rejected read of the source reaches the caller.  When the
    source operation of a run rejects (a read of the queue, or the
    parallel scan after its segments ended), the entry point rejects
    with that error in the world the source operation left, without
    reaching the closing and the storing of the error file: what was
    committed before stays, one source operation was issued, and every
    line in the error stream is the error line of a record the source
    delivered. *)
Theorem source_rejection_reaches_caller
    (env : gmap string string) (params' : option GranuleMigrationParams)
    (testTimestamp : option string) (eventLoop : EventLoop) (w : World store)
    (bucket' table stack : string) (e : error)
    (Hbucket : getRequiredEnvVar rt "system_bucket" env = inr bucket')
    (Htable : getRequiredEnvVar rt "GranulesTable" env = inr table)
    (Hstack : getRequiredEnvVar rt "stackName" env = inr stack)
    (Hrejected : sourceRejection rt table (default emptyParams params') = Some e) :
  let opened := {| db := db w; errorLog := []; sourceOps := sourceOps w |} in
  let left := fst (sourceRun pg rt table (default emptyParams params') eventLoop opened) in
  migrateGranulesAndFiles pg rt env params' testTimestamp eventLoop w = (left, inl e)
  /\ sourceOps left
     = (sourceOps w ++ [sourceOperation table (default emptyParams params')])%list
  /\ Forall (fun line =>
               exists record e',
                 In record (sourceSnapshot rt table (default emptyParams params'))
                 /\ line = errorLine rt record e')
            (errorLog left).
Proof.
  cbv zeta.
  rewrite (migrateGranulesAndFiles_eq pg rt env params' testTimestamp eventLoop w
             bucket' table stack Hbucket Htable Hstack).
  destruct (sourceRun_accounting pg rt table (default emptyParams params') eventLoop
              {| db := db w; errorLog := []; sourceOps := sourceOps w |})
    as (w1 & r & processed & lines & Hrun & Hops & _ & Hincl & _ & _ & _ & _ & _
        & Hlog & _ & Hall).
  rewrite Hrun, Hrejected. cbn [fst sourceOps errorLog app] in *.
  split; [reflexivity|]. split; [exact Hops|].
  rewrite Hlog. eapply Forall_impl; [exact Hall|].
  intros line (record & e' & Hin & He). exists record, e'.
  split; [exact (Hincl _ Hin) | exact He].
Qed.

End FurtherSourceProperties.

(** ** The extra properties on the sample deployment *)

(** G1 is migrated under the identifier 2. *)
Lemma migrateGranuleRecord_resolved_witness :
  snd (migrateGranuleRecord Pg.models Sample.G1 Sample.store0) = inr 2
  /\ 2 <> 0.
Proof.
  split; [vm_compute; reflexivity|].
  exact (proj1 (migrateGranuleRecord_resolved Pg.models Sample.G1 Sample.store0
                  (fst (migrateGranuleRecord Pg.models Sample.G1 Sample.store0)) 2
                  ltac:(vm_compute; reflexivity))).
Defined.

(** The granule lookup loses its connection while G1 is migrated. *)
Lemma migrateGranuleRecord_errors_before_upsert_witness :
  migrateGranuleRecord Faulty.granuleLookupDown Sample.G1 Sample.store0
  = (Sample.store0, inl Faulty.lostConnection).
Proof.
  exact (proj1 (proj1 (migrateGranuleRecord_errors_before_upsert
                         Faulty.granuleLookupDown Sample.G1 Sample.world0 1 None
                         ltac:(vm_compute; reflexivity) ltac:(vm_compute; reflexivity))
                  Faulty.lostConnection eq_refl eq_refl)).
Defined.

(** The upsert of G1 reports the identifiers 0 and 7. *)
Lemma migrateGranuleRecord_zero_identifier_witness :
  migrateGranuleRecord Faulty.zeroIdentifier Sample.G1 Sample.store0
  = (Sample.store0,
     inl (PostgresUpdateFailed
            "Upsert for granule G1 returned no rows. Record was not updated in the Postgres table.")).
Proof.
  exact (proj1 (migrateGranuleRecord_zero_identifier
                  Faulty.zeroIdentifier (Sample.runtime Sample.table) Sample.G1
                  None 100 Sample.world0 1 None None (Pg_granule Sample.G1 1)
                  Sample.store0 [7]
                  ltac:(vm_compute; reflexivity) ltac:(vm_compute; reflexivity)
                  ltac:(vm_compute; reflexivity) eq_refl
                  ltac:(vm_compute; reflexivity) eq_refl)).
Defined.

(** The first file of G1 answers "already migrated". *)
Lemma already_migrated_file_skips_record_witness :
  recordOutcome Faulty.filesAlreadyMigrated Sample.G1 Sample.world0 = Skipped
  /\ fst (migrateGranuleAndFilesViaTransaction Faulty.filesAlreadyMigrated
            (Sample.runtime Sample.table) Sample.G1 None 100 Sample.world0)
     = Sample.world0.
Proof.
  destruct (already_migrated_file_skips_record
              Faulty.filesAlreadyMigrated (Sample.runtime Sample.table) Sample.G1
              None 100 Sample.world0
              (fst (migrateGranuleRecord Pg.models Sample.G1 Sample.store0))
              (fst (migrateGranuleRecord Pg.models Sample.G1 Sample.store0))
              2 (RecordAlreadyMigrated "File was already migrated")
              ltac:(vm_compute; reflexivity) ltac:(vm_compute; reflexivity) eq_refl)
    as (Ho & after & Hrun & _).
  split; [exact Ho|]. rewrite Hrun. reflexivity.
Defined.

(** The environment does not name the granules table. *)
Lemma migrateGranulesAndFiles_missing_environment_witness :
  migrateGranulesAndFiles Pg.models (Sample.runtime Sample.table)
    Faulty.envWithoutTable None None Sample.eventLoop Sample.world0
  = (Sample.world0,
     inl (OtherError "MissingRequiredEnvVarError"
                     "The GranulesTable environment variable must be set")).
Proof.
  exact (proj1 (proj2 (migrateGranulesAndFiles_missing_environment
                         Pg.models (Sample.runtime Sample.table)
                         Faulty.envWithoutTable None None Sample.eventLoop
                         Sample.world0))
           "internal" _ ltac:(vm_compute; reflexivity) ltac:(vm_compute; reflexivity)).
Defined.

(** The full scan over the sample records fails G3 and G5. *)
Lemma migrateGranulesAndFiles_error_file_witness :
  exists w' result,
    migrateGranulesAndFiles Pg.models (Sample.runtime Sample.table) Sample.env
      None None Sample.eventLoop Sample.world0 = (w', inr result)
    /\ failed (granulesResult result) = 2
    /\ Z.of_nat (length (errorLog w')) = failed (granulesResult result).
Proof.
  eexists _, _. split; [vm_compute; reflexivity|]. split; [reflexivity|].
  match goal with
  | |- Z.of_nat (length (errorLog ?w')) = failed (granulesResult ?r) =>
      exact (proj1 (migrateGranulesAndFiles_error_file
                      Pg.models (Sample.runtime Sample.table) Sample.env None None
                      Sample.eventLoop Sample.world0 w' r
                      "internal" "GranulesTable" "stack"
                      ltac:(vm_compute; reflexivity) ltac:(vm_compute; reflexivity)
                      ltac:(vm_compute; reflexivity) ltac:(vm_compute; reflexivity)))
  end.
Defined.

(** The error file of the full scan cannot be stored. *)
Lemma migrateGranulesAndFiles_store_failure_witness :
  snd (migrateGranulesAndFiles Pg.models (Faulty.storeDown Sample.table) Sample.env
         None None Sample.eventLoop Sample.world0) = inl Faulty.lostConnection
  /\ fst (migrateGranulesAndFiles Pg.models (Faulty.storeDown Sample.table) Sample.env
            None None Sample.eventLoop Sample.world0)
     = fst (migrateGranulesAndFiles Pg.models (Sample.runtime Sample.table) Sample.env
              None None Sample.eventLoop Sample.world0).
Proof.
  destruct (migrateGranulesAndFiles_store_failure
              Pg.models (Sample.runtime Sample.table)
              (fun _ _ _ _ _ _ => inl Faulty.lostConnection)
              Sample.env None None Sample.eventLoop Sample.world0
              "internal" "GranulesTable" "stack"
              ltac:(vm_compute; reflexivity) ltac:(vm_compute; reflexivity)
              ltac:(vm_compute; reflexivity)) as [Hworld Hreject].
  split; [|exact Hworld].
  exact (Hreject Faulty.lostConnection ltac:(vm_compute; reflexivity)
           ltac:(vm_compute; reflexivity) eq_refl).
Defined.

(** The page of the five sample records, two transactions at a time, and
    with a write concurrency of 0. *)
Lemma runSchedule_error_lines_witness :
  (exists w' r',
      await Pg.models (Sample.runtime Sample.table)
        (migrateGranuleDynamoRecords (Sample.runtime Sample.table) Sample.table
                                     100 2 [1; 0; 1]%nat)
        initializeGranulesAndFilesMigrationResult Sample.world0 = (w', inr r')
      /\ total_dynamo_db_records (granulesResult r') = 5)
  /\ await Pg.models (Sample.runtime Sample.table)
       (migrateGranuleDynamoRecords (Sample.runtime Sample.table) Sample.table
                                    100 0 [1; 0; 1]%nat)
       initializeGranulesAndFilesMigrationResult Sample.world0
     = (Sample.world0,
        inl (OtherError "TypeError"
                        "Expected `concurrency` to be an integer from 1 and up")).
Proof.
  pose proof (proj2 (runSchedule_error_lines Pg.models (Sample.runtime Sample.table)
                       [] initializeGranulesAndFilesMigrationResult Sample.world0))
    as Hpage.
  split.
  - destruct (proj1 (Hpage Sample.table 100 2 [1; 0; 1]%nat) ltac:(lia))
      as (w' & r' & lines & Hrun & _ & _ & _ & Htotal).
    exists w', r'. split; [exact Hrun | exact Htotal].
  - exact (proj2 (Hpage Sample.table 100 0 [1; 0; 1]%nat) ltac:(lia)).
Defined.

(** G1 and its two files. *)
Lemma Pg_files_reference_granule_witness :
  recordOutcome Pg.models Sample.G1 Sample.world0 = Migrated
  /\ exists w' r cid g,
      migrateGranuleAndFilesViaTransaction Pg.models (Sample.runtime Sample.table)
        Sample.G1 None 100 Sample.world0 = (w', inr r)
      /\ Pg.tbl_granules (db w') !! (granuleId Sample.G1, cid) = Some g
      /\ exists row,
          Pg.tbl_files (db w') !! ("public", "G1.jpg") = Some row
          /\ granule_cumulus_id row = rec_cumulus_id g.
Proof.
  split; [vm_compute; reflexivity|].
  destruct (Pg_files_reference_granule (Sample.runtime Sample.table) Sample.G1 None 100
              Sample.world0 ltac:(vm_compute; reflexivity))
    as (w' & r & cid & g & Hrun & _ & Hg & _ & _ & Hfiles).
  exists w', r, cid, g. split; [exact Hrun|]. split; [exact Hg|].
  exact (Hfiles (Sample.mkFile "public" "G1.jpg") ltac:(right; left; reflexivity)).
Defined.


(** G2 arrives with an [updatedAt] before the earliest [Date]; the
    destination holds it at 200. *)
Lemma updatedAt_outside_Date_range_witness :
  isExistingRecordNewer (Pg.tbl_granules Sample.store0 !! ("G2", 1))
                        Sample.G2_beforeTime = false
  /\ snd (migrateGranuleRecord Pg.models Sample.G2_beforeTime Sample.store0)
     = inl Pg.invalid_timestamp.
Proof.
  destruct (updatedAt_outside_Date_range Pg.models Sample.G2_beforeTime Sample.store0
              1 (Some 5) (Pg.tbl_granules Sample.store0 !! ("G2", 1))
              ltac:(vm_compute; intros H; apply H; reflexivity)
              ltac:(vm_compute; reflexivity) ltac:(vm_compute; reflexivity)
              ltac:(vm_compute; reflexivity))
    as (_ & Hnewer & Hrun).
  split; [exact Hnewer|]. rewrite Hrun. vm_compute. reflexivity.
Defined.

(** The scan over the sample records, with the second segment's read
    failing after its page. *)
Lemma source_rejection_reaches_caller_witness :
  snd (migrateGranulesAndFiles Pg.models (Faulty.scanInterrupted Sample.table)
         Sample.env None None Sample.eventLoop Sample.world0)
  = inl (OtherError "AggregateError" "Error: Connection terminated unexpectedly").
Proof.
  rewrite (proj1 (source_rejection_reaches_caller
                    Pg.models (Faulty.scanInterrupted Sample.table) Sample.env
                    None None Sample.eventLoop Sample.world0
                    "internal" "GranulesTable" "stack"
                    (OtherError "AggregateError"
                                "Error: Connection terminated unexpectedly")
                    ltac:(vm_compute; reflexivity) ltac:(vm_compute; reflexivity)
                    ltac:(vm_compute; reflexivity) ltac:(vm_compute; reflexivity))).
  reflexivity.
Defined.
